(** * TyDataset / Normalize (models/src/dataseters/GRUs.py)

    A shallow embedding of the typhoon dataset of [GRUs.py]: the seeded
    train/test split, the index table built in [TyDataset.__init__], the
    index scan and the sample assembly of [TyDataset.__getitem__], and the
    [ToTensor] and [Normalize] transforms.

    Conventions.
    - Python exceptions are values of [Exn]; a call that may raise returns a
      [result].
    - A pandas [Timestamp] is its count of nanoseconds since the epoch; a
      [Timedelta] is a signed count of nanoseconds, with the [days] and
      [seconds] components of Python (seconds always in [0, 86400)).
    - numpy / torch arrays are nested lists; float values are an abstract
      type [px] whose arithmetic ([fsub], [fdiv]) is a parameter: numpy and
      torch float division never raises, so these are total functions.
    - What lives outside the file (the CSV and pickle readers, pandas label
      slicing, [strftime], [os.path.join], the seeded numpy generator) is
      gathered in the record [Ext]. *)

From Stdlib Require Import ZArith Lia String List.
From stdpp Require Import base list strings.

Local Open Scope string_scope.
Local Open Scope Z_scope.

(** ** Python exceptions and fallible results *)

Inductive Exn : Type :=
| AssertionError (msg : string)
| NameError (name : string)
| KeyError (key : string)
| AttributeError (attr : string)
| IndexError (msg : string)
| ValueError (msg : string)
| TypeError (msg : string)
| RuntimeError (msg : string)
| FileNotFoundError (path : string).

Inductive result (A : Type) : Type :=
| Ok (a : A)
| Raise (e : Exn).
Arguments Ok {A} a.
Arguments Raise {A} e.

Definition bind {A B} (m : result A) (k : A -> result B) : result B :=
  match m with
  | Ok a => k a
  | Raise e => Raise e
  end.

Notation "'let!' x ':=' m 'in' k" := (bind m (fun x => k))
  (at level 10, x name, m at level 100, k at level 200).
Notation "'do!' m 'in' k" := (bind m (fun _ => k))
  (at level 10, m at level 100, k at level 200).

(** [assert c, msg] *)
Definition py_assert (c : bool) (msg : string) : result unit :=
  if c then Ok tt else Raise (AssertionError msg).

Fixpoint mapM {A B} (f : A -> result B) (l : list A) : result (list B) :=
  match l with
  | [] => Ok []
  | x :: l' => let! y := f x in let! ys := mapM f l' in Ok (y :: ys)
  end.

(** ** Python slices and ranges *)

(** A slice bound [k] on a sequence of length [n]: negative bounds count
    from the end, and every bound is clamped to [0, n]. *)
Definition py_bound (n : nat) (k : Z) : nat :=
  Z.to_nat (if k <? 0 then Z.max 0 (k + Z.of_nat n) else Z.min k (Z.of_nat n)).

(** [l[lo:hi]] with optional bounds. *)
Definition py_slice {A} (l : list A) (lo hi : option Z) : list A :=
  let n := length l in
  let a := match lo with Some k => py_bound n k | None => 0%nat end in
  let b := match hi with Some k => py_bound n k | None => n end in
  take (b - a)%nat (drop a l).

(** [range(n)]: empty when [n <= 0]. *)
Definition py_range (n : Z) : list Z :=
  map Z.of_nat (seq 0 (Z.to_nat n)).

(** ** Timestamps and timedeltas *)

Definition Timestamp := Z.
Definition Timedelta := Z.

Definition ns_per_second : Z := 1000000000.
Definition ns_per_day : Z := 86400 * ns_per_second.

(** [dt.timedelta(minutes=m)] *)
Definition timedelta_minutes (m : Z) : Timedelta := m * 60 * ns_per_second.

(** [.days] and [.seconds] of a timedelta: the day count is a floor, so it
    is negative for a negative timedelta while [seconds] stays in
    [0, 86400). *)
Definition td_days (d : Timedelta) : Z := d / ns_per_day.
Definition td_seconds (d : Timedelta) : Z := (d mod ns_per_day) / ns_per_second.

(** [int(d.days*24*6 + d.seconds/600)].  The float [d.seconds/600] is a
    fraction with denominator 600 and [d.days*24*6] an integer far below
    2^53, so the float sum lies strictly between the same two integers as
    the exact rational [(d.days*24*6*600 + d.seconds)/600] (or equals it
    when that is an integer); [int] truncates toward zero. *)
Definition int_frames (d : Timedelta) : Z :=
  Z.quot (td_days d * 24 * 6 * 600 + td_seconds d) 600.

(** ** Floating-point values and the outside world *)

(** The float type of the arrays with the operations the file applies to
    it.  numpy and torch division by zero yields inf or nan and does not
    raise, hence [fdiv] is total. *)
Record FloatOps (px : Type) : Type := {
  f0 : px;                      (* 0.0, the fill value of np.zeros *)
  of_Z : Z -> px;               (* an integer stored into a float array *)
  fsub : px -> px -> px;
  fdiv : px -> px -> px;
  fmin : px -> px -> px;
  fmax : px -> px -> px
}.
Arguments f0 {px}.
Arguments of_Z {px}.
Arguments fsub {px}.
Arguments fdiv {px}.
Arguments fmin {px}.
Arguments fmax {px}.

(** One row of the typhoon list: the index label ['En name'] and the two
    parsed time columns. *)
Record TyRow : Type := {
  en_name : string;
  time_of_issuing : Timestamp;
  time_of_canceling : Timestamp
}.

(** The collaborators of the file.  [choice n] is
    [np.random.seed(1); np.random.choice(n, n, replace=False)]: the
    generator is reseeded on every construction, so the drawn permutation
    is a function of [n] alone. *)
Record Ext (px : Type) : Type := {
  Frame : Type;                 (* a DataFrame read from a pickle *)
  Table : Type;                 (* the ty-info table, indexed by Time *)
  Series : Type;                (* a pd.Series of statistics *)
  read_ty_list : string -> result (list TyRow);
  choice : nat -> list nat;
  read_pickle : string -> string -> result Frame;
  loc_box : Frame -> px * px -> px * px -> Frame;     (* .loc[y0:y1, x0:x1] *)
  to_numpy : Frame -> list (list px);
  read_ty_infos : string -> result Table;             (* read_csv, set_index('Time') *)
  loc_time : Table -> string -> string -> list (list px);  (* .loc[t1:t2,:].to_numpy() *)
  series_get : Series -> string -> option px;         (* s[key] *)
  series_from : Series -> string -> option (list px); (* s.loc[key:].to_numpy() *)
  strftime : Timestamp -> string;                     (* format '%Y%m%d%H%M' *)
  year_str : Timestamp -> string;                     (* str(t.year) *)
  path_join : list string -> string                   (* os.path.join *)
}.
Arguments Frame {px}.
Arguments Table {px}.
Arguments Series {px}.
Arguments read_ty_list {px}.
Arguments choice {px}.
Arguments read_pickle {px}.
Arguments loc_box {px}.
Arguments to_numpy {px}.
Arguments read_ty_infos {px}.
Arguments loc_time {px}.
Arguments series_get {px}.
Arguments series_from {px}.
Arguments strftime {px}.
Arguments year_str {px}.
Arguments path_join {px}.

(** ** Label lookup in a DataFrame *)

(** [df.loc[i, col]] on a frame given as its rows in index order.  A label
    that occurs once yields the scalar; a missing label is a [KeyError]; a
    repeated label yields a Series, on which the scalar operation that
    follows in the source fails with [dup]. *)
Definition df_loc {A} (label : A -> string) (rows : list A) (i : string)
    (dup : Exn) : result A :=
  match List.filter (fun r => String.eqb (label r) i) rows with
  | [] => Raise (KeyError i)
  | [r] => Ok r
  | _ => Raise dup
  end.

(** ** The index table *)

(** One row of [idx_df]: its index label and the four columns. *)
Record IdxRow : Type := {
  typhoon : string;
  starting_time : Timestamp;
  ending_time : Timestamp;
  starting_idx : Z;
  ending_idx : Z
}.

(** [frame_e] of line 83. *)
Definition frame_end (input_frames target_frames : Z) (r : TyRow) : Timestamp :=
  time_of_canceling r - timedelta_minutes ((input_frames + target_frames - 1) * 10).

(** The number of windows line 85 adds for one event:
    [int((frame_e-frame_s).days*24*6 + (frame_e-frame_s).seconds/600) + 1]. *)
Definition window_count (input_frames target_frames : Z) (r : TyRow) : Z :=
  int_frames (frame_end input_frames target_frames r - time_of_issuing r) + 1.

(** The loop of lines 81-87 over the labels of [idx_df], threading [tmp]
    and [self.total_frames] (unset, [None], until the first iteration).
    Rows are written under the label being visited, so the table comes out
    in the order of the labels. *)
Fixpoint index_loop (ty_list : list TyRow) (input_frames target_frames : Z)
    (labels : list string) (tmp : Z) (total_frames : option Z)
    : result (list IdxRow * option Z) :=
  match labels with
  | [] => Ok ([], total_frames)
  | i :: rest =>
    let! r := df_loc en_name ty_list i (AttributeError "days") in
    let frame_s := time_of_issuing r in
    let frame_e := frame_end input_frames target_frames r in
    let total := tmp + int_frames (frame_e - frame_s) + 1 in
    let row := {| typhoon := i; starting_time := frame_s; ending_time := frame_e;
                  starting_idx := tmp; ending_idx := total - 1 |} in
    let! out :=
      index_loop ty_list input_frames target_frames rest total (Some total) in
    Ok (row :: fst out, snd out)
  end.

(** ** The seeded split (lines 58-75) *)

Definition msg_train_num : string :=
  "The train_num shoud be less than total number of ty events.".

(** [int(len(ty_list)/4*3)]: [n/4] and its triple are exact floats, and
    [int] of a non-negative value is its floor. *)
Definition default_split (n : nat) : Z := Z.quot (Z.of_nat n * 3) 4.

(** [events_num]: the positions selected from the permutation. *)
Definition events_num (rand_tys : list nat) (n : nat) (train : bool)
    (train_num : option Z) : result (list nat) :=
  if train then
    match train_num with
    | None => Ok (py_slice rand_tys (Some 0) (Some (default_split n)))
    | Some k =>
      do! py_assert (k <=? Z.of_nat n) msg_train_num in
      Ok (py_slice rand_tys (Some 0) (Some k))
    end
  else
    match train_num with
    | None => Ok (py_slice rand_tys (Some (default_split n)) None)
    | Some k =>
      do! py_assert (k <=? Z.of_nat n) msg_train_num in
      Ok (py_slice rand_tys (Some k) None)
    end.

(** [self.ty_list.index[events_num]]: the labels at the given positions. *)
Definition index_at (ty_list : list TyRow) (positions : list nat)
    : result (list string) :=
  mapM (fun p => match ty_list !! p with
                 | Some r => Ok (en_name r)
                 | None => Raise (IndexError "index out of bounds")
                 end) positions.

Section Model.

Context {px : Type} (F : FloatOps px) (E : Ext px).

(** ** Arrays as nested lists *)

(** A 2-D array, rows first.  (An array with no row has no recorded
    width.) *)
Definition Grid : Type := list (list px).

Definition shape_error : Exn := ValueError "could not broadcast input array".

(** [np.zeros(dims)]: a negative dimension is rejected. *)
Definition check_dims (dims : list Z) : result unit :=
  if forallb (fun d => 0 <=? d) dims then Ok tt
  else Raise (ValueError "negative dimensions are not allowed").

Definition zeros2 (h w : Z) : Grid :=
  repeat (repeat (f0 F) (Z.to_nat w)) (Z.to_nat h).

Definition np_zeros3 (c h w : Z) : result (list Grid) :=
  do! check_dims [c; h; w] in Ok (repeat (zeros2 h w) (Z.to_nat c)).

Definition np_zeros4 (n c h w : Z) : result (list (list Grid)) :=
  do! check_dims [n; c; h; w] in
  Ok (repeat (repeat (zeros2 h w) (Z.to_nat c)) (Z.to_nat n)).

(** Broadcasting a 2-D value to the shape [(h, w)] of the slot it is
    stored into: an axis must have the slot's length or length 1. *)
Definition broadcast_row (w : Z) (r : list px) : result (list px) :=
  if Z.of_nat (length r) =? w then Ok r
  else match r with
       | [x] => Ok (repeat x (Z.to_nat w))
       | _ => Raise shape_error
       end.

Definition broadcast2 (h w : Z) (v : Grid) : result Grid :=
  let! rows := mapM (broadcast_row w) v in
  if Z.of_nat (length rows) =? h then Ok rows
  else match rows with
       | [r] => Ok (repeat r (Z.to_nat h))
       | _ => Raise shape_error
       end.

(** [a[c,:,:] = v] on an array [a] of 2-D slots of shape [(h, w)]: the
    index is checked first, then the value is broadcast and stored. *)
Definition set_slot (a : list Grid) (c : Z) (h w : Z) (v : Grid)
    : result (list Grid) :=
  if (0 <=? c) && (c <? Z.of_nat (length a)) then
    let! v' := broadcast2 h w v in
    Ok (<[Z.to_nat c := v']> a)
  else Raise (IndexError "index is out of bounds").

(** [np.meshgrid(np.arange(0, w), np.arange(0, h))]: both results have
    shape [(h, w)]; the first holds the column number, the second the row
    number. *)
Definition meshgrid (w h : Z) : Grid * Grid :=
  (repeat (map (of_Z F) (py_range w)) (Z.to_nat h),
   map (fun y => repeat (of_Z F y) (Z.to_nat w)) (py_range h)).

(** [np.min(g)] and [np.max(g)] over all cells; an empty array has no
    minimum. *)
Definition np_reduce (op : px -> px -> px) (g : Grid) : result px :=
  match concat g with
  | [] => Raise (ValueError "zero-size array to reduction operation")
  | x :: xs => Ok (fold_left op xs x)
  end.

Definition grid_map (f : px -> px) (g : Grid) : Grid := map (map f) g.

(** A [for] loop over a list with a state and early exit on an exception. *)
Fixpoint for_each {A S} (l : list A) (body : A -> S -> result S) (s : S)
    : result S :=
  match l with
  | [] => Ok s
  | x :: l' => let! s' := body x s in for_each l' body s'
  end.

(** ** Python values (the statistics handed to [Normalize]) *)

Inductive pyclass : Type :=
| CNoneType | CBool | CInt | CFloat | CStr | CList | CSeries | CType
| COther (name : string).

#[warnings="-register-all"]
Inductive pyval : Type :=
| VNone
| VBool (b : bool)
| VInt (z : Z)
| VFloat (x : px)
| VStr (s : string)
| VList (l : list pyval)
| VSeries (s : Series E)
| VClass (c : pyclass)
| VObject (cls : string).

(** [type(v)] *)
Definition type_of (v : pyval) : pyclass :=
  match v with
  | VNone => CNoneType
  | VBool _ => CBool
  | VInt _ => CInt
  | VFloat _ => CFloat
  | VStr _ => CStr
  | VList _ => CList
  | VSeries _ => CSeries
  | VClass _ => CType
  | VObject cls => COther cls
  end.

Definition pyclass_eqb (a b : pyclass) : bool :=
  match a, b with
  | CNoneType, CNoneType | CBool, CBool | CInt, CInt | CFloat, CFloat
  | CStr, CStr | CList, CList | CSeries, CSeries | CType, CType => true
  | COther x, COther y => String.eqb x y
  | _, _ => false
  end.

(** Truth value testing.  A Series has no truth value; a class object, like
    any object without [__bool__] or [__len__], is true.  (The truth value
    of a float is not needed by the file and is taken as true.) *)
Definition truthy (v : pyval) : result bool :=
  match v with
  | VNone => Ok false
  | VBool b => Ok b
  | VInt z => Ok (negb (z =? 0))
  | VFloat _ => Ok true
  | VStr s => Ok (negb (String.eqb s ""))
  | VList l => Ok (match l with [] => false | _ => true end)
  | VSeries _ => Raise (ValueError "The truth value of a Series is ambiguous.")
  | VClass _ => Ok true
  | VObject _ => Ok true
  end.

(** [a or b]: [a] when it is true, else [b]. *)
Definition py_or (a b : pyval) : result pyval :=
  let! t := truthy a in Ok (if t then a else b).

(** [assert e, msg] on a Python value. *)
Definition assert_value (e : result pyval) (msg : string) : result unit :=
  let! v := e in let! t := truthy v in py_assert t msg.

(** [v[key]] with a string key.  A Series holds one value under each
    label ([series_get]), so the subscript is a scalar or a [KeyError]; a
    Series with a repeated label, for which pandas returns a Series, is
    outside the statistics considered. *)
Definition subscript (v : pyval) (key : string) : result px :=
  match v with
  | VSeries s =>
    match series_get E s key with
    | Some x => Ok x
    | None => Raise (KeyError key)
    end
  | VList _ => Raise (TypeError "list indices must be integers or slices, not str")
  | _ => Raise (TypeError "object is not subscriptable")
  end.

(** [v.loc[key:].to_numpy()] *)
Definition loc_from (v : pyval) (key : string) : result (list px) :=
  match v with
  | VSeries s =>
    match series_from E s key with
    | Some xs => Ok xs
    | None => Raise (KeyError key)
    end
  | _ => Raise (AttributeError "loc")
  end.

(** ** Configuration, samples, the dataset object *)

(** The attributes of [args] read by [TyDataset] and by [Normalize]. *)
Record Args : Type := {
  ty_list : string;
  radar_folder : string;
  radar_wrangled_data_folder : string;
  weather_wrangled_data_folder : string;
  ty_info_wrangled_data_folder : string;
  weather_list : list string;
  input_with_grid : bool;
  input_frames : Z;
  target_frames : Z;
  input_channels : Z;
  I_x : px * px;
  I_y : px * px;
  I_shape : Z * Z;
  F_x : px * px;
  F_y : px * px;
  F_shape : Z * Z;
  O_shape : Z * Z;
  compression : string;
  target_RAD : bool;
  catcher_location : bool;
  max_values : pyval;
  min_values : pyval;
  normalize_target : bool
}.

(** The dictionary of one sample. *)
Record Sample : Type := {
  inputs : list (list Grid);    (* frames x channels x H x W *)
  targets : list Grid;          (* frames x H x W *)
  ty_infos : Grid;              (* rows x columns *)
  radar_map : list Grid;        (* channels x H x W *)
  current_time : string;
  height : Grid
}.

(** A transform is called on the sample dictionary.  It returns its result
    or raises, and may have written into the arrays of its argument: the
    second component is the argument as the caller sees it afterwards. *)
Definition Transform : Type := Sample -> result Sample * Sample.

(** The dataset object.  [args] stands for the attributes copied from
    [args] in lines 36-54; [total_frames] and [sample] are attributes that
    exist only once assigned. *)
Record TyDataset : Type := {
  args : Args;
  self_ty_list : list TyRow;
  transform : option Transform;
  events_list : list string;
  idx_df : list IdxRow;
  total_frames : option Z;
  sample : option Sample
}.

(** [TyDataset.__init__] *)
Definition TyDataset_init (a : Args) (train : bool) (train_num : option Z)
    (tr : option Transform) : result TyDataset :=
  let! tys := read_ty_list E (ty_list a) in
  let n := length tys in
  let rand_tys := choice E n in
  let! ev := events_num rand_tys n train train_num in
  let! evl := index_at tys ev in
  let! out := index_loop tys (input_frames a) (target_frames a) evl 0 None in
  Ok {| args := a; self_ty_list := tys; transform := tr; events_list := evl;
        idx_df := fst out; total_frames := snd out; sample := None |}.

(** [TyDataset.__len__] *)
Definition TyDataset_len (self : TyDataset) : result Z :=
  match total_frames self with
  | Some t => Ok t
  | None => Raise (AttributeError "total_frames")
  end.

Definition msg_index : string := "Index is out of the range of the data!".

(** The loop of line 99 up to line 105: the first label whose ending index
    is not below [idx], with the local offset [tmp_idx].  [None] when the
    loop runs out of labels. *)
Fixpoint scan (df : list IdxRow) (idx : Z) (labels : list string)
    : result (option (string * Z)) :=
  match labels with
  | [] => Ok None
  | i :: rest =>
    let! r := df_loc typhoon df i (ValueError "The truth value of a Series is ambiguous.") in
    if idx >? ending_idx r then scan df idx rest
    else Ok (Some (i, idx - starting_idx r))
  end.

(** Index resolution: the assertion of line 97 followed by the scan. *)
Definition resolve (self : TyDataset) (idx : Z) : result (option (string * Z)) :=
  let! total := TyDataset_len self in
  do! py_assert (idx <? total) msg_index in
  scan (idx_df self) idx (map typhoon (idx_df self)).

(** ** Sample assembly (lines 105-186) *)

(** [a[j,c,:,:] = v] on a 4-D array. *)
Definition set_slot4 (a : list (list Grid)) (j c : Z) (h w : Z) (v : Grid)
    : result (list (list Grid)) :=
  if (0 <=? j) && (j <? Z.of_nat (length a)) then
    match a !! Z.to_nat j with
    | Some frame =>
      let! frame' := set_slot frame c h w v in
      Ok (<[Z.to_nat j := frame']> a)
    | None => Raise (IndexError "index is out of bounds")
    end
  else Raise (IndexError "index is out of bounds").

(** The time stamp of the frame [k] steps after the start of the event. *)
Definition frame_time (r : IdxRow) (k : Z) : string :=
  strftime E (starting_time r + timedelta_minutes (10 * k)).

(** The path of a radar pickle. *)
Definition radar_path (a : Args) (datatype ty_name file_time : string) : string :=
  path_join E [radar_wrangled_data_folder a; datatype;
               String.append ty_name (String.append "." (String.append file_time ".pkl"))].

(** Lines 119-131, one iteration for input frame [j]. *)
Definition input_frame (a : Args) (r : IdxRow) (ty_name : string) (tmp_idx : Z)
    (j : Z) (input_data : list (list Grid)) : result (list (list Grid)) :=
  let h := snd (I_shape a) in
  let w := fst (I_shape a) in
  let c := 0 in
  let file_time := frame_time r (tmp_idx + j) in
  let data_path := radar_path a "RAD" ty_name file_time in
  let! df := read_pickle E data_path (compression a) in
  let! input_data :=
    set_slot4 input_data j c h w (to_numpy E (loc_box E df (I_y a) (I_x a))) in
  let c := c + 1 in
  if input_with_grid a then
    let (gird_x, gird_y) := meshgrid (fst (I_shape a)) (snd (I_shape a)) in
    let! input_data := set_slot4 input_data j c h w gird_x in
    let c := c + 1 in
    set_slot4 input_data j c h w gird_y
  else Ok input_data.

(** Lines 133-144: the radar map of the last input frame.  The counter [c]
    is not advanced between the radar field and the first grid. *)
Definition radar_map_of (a : Args) (r : IdxRow) (ty_name : string) (tmp_idx : Z)
    (radar_map : list Grid) : result (list Grid) :=
  let h := snd (O_shape a) in
  let w := fst (O_shape a) in
  let c := 0 in
  let file_time := frame_time r (tmp_idx + input_frames a - 1) in
  let data_path := radar_path a "RAD" ty_name file_time in
  let! df := read_pickle E data_path (compression a) in
  let! radar_map := set_slot radar_map c h w (to_numpy E df) in
  if input_with_grid a then
    let (gird_x, gird_y) := meshgrid (fst (O_shape a)) (snd (O_shape a)) in
    let! radar_map := set_slot radar_map c h w gird_x in
    let c := c + 1 in
    let! radar_map := set_slot radar_map c h w gird_y in
    Ok radar_map
  else Ok radar_map.

(** [ty_infos[:,[0,1,-1]]] and [ty_infos[:,0:-1]] *)
Definition columns_0_1_last (g : Grid) : result Grid :=
  mapM (fun row => match row with
                   | x0 :: x1 :: rest => Ok [x0; x1; List.last rest x1]
                   | _ => Raise (IndexError "index 1 is out of bounds for axis 1")
                   end) g.

Definition columns_but_last (g : Grid) : Grid :=
  map (fun row => py_slice row (Some 0) (Some (-1))) g.

(** Lines 171-174, one iteration for target frame [j]. *)
Definition target_frame (a : Args) (r : IdxRow) (ty_name datatype : string)
    (tmp_idx : Z) (j : Z) (target_data : list Grid) : result (list Grid) :=
  let file_time := frame_time r (tmp_idx + j) in
  let data_path := radar_path a datatype ty_name file_time in
  let! df := read_pickle E data_path (compression a) in
  set_slot target_data j (snd (F_shape a)) (fst (F_shape a))
           (to_numpy E (loc_box E df (F_y a) (F_x a))).

(** The body of the [else] branch for the label [i] and the offset
    [tmp_idx], up to the dictionary of line 180. *)
Definition assemble (self : TyDataset) (i : string) (tmp_idx : Z) : result Sample :=
  let a := args self in
  let! r := df_loc typhoon (idx_df self) i (TypeError "unsupported operand") in
  let current_time := frame_time r (tmp_idx + input_frames a - 1) in
  let ty_name := String.append (year_str E (starting_time r)) (String.append "." i) in
  let! input_data :=
    np_zeros4 (input_frames a) (input_channels a) (snd (I_shape a)) (fst (I_shape a)) in
  let! radar_map :=
    np_zeros3 (input_channels a) (snd (O_shape a)) (fst (O_shape a)) in
  let! input_data :=
    for_each (py_range (input_frames a)) (input_frame a r ty_name tmp_idx) input_data in
  let! radar_map := radar_map_of a r ty_name tmp_idx radar_map in
  let tmp_idx := tmp_idx + input_frames a in
  let data_path :=
    path_join E [ty_info_wrangled_data_folder a; String.append ty_name ".csv"] in
  let! table := read_ty_infos E data_path in
  let file_time1 := frame_time r tmp_idx in
  let file_time2 := frame_time r (tmp_idx + target_frames a - 1) in
  let ty_infos := loc_time E table file_time1 file_time2 in
  let! ty_infos :=
    if catcher_location a then columns_0_1_last ty_infos
    else Ok (columns_but_last ty_infos) in
  let! target_data :=
    np_zeros3 (target_frames a) (snd (F_shape a)) (fst (F_shape a)) in
  let datatype := if target_RAD a then "RAD" else "QPE" in
  let! target_data :=
    for_each (py_range (target_frames a)) (target_frame a r ty_name datatype tmp_idx)
             target_data in
  let! df := read_pickle E (path_join E [radar_folder a; "height.pkl"]) "bz2" in
  let height := to_numpy E (loc_box E df (I_y a) (I_x a)) in
  let! lo := np_reduce (fmin F) height in
  let! hi := np_reduce (fmax F) height in
  let! lo' := np_reduce (fmin F) height in
  let height := grid_map (fun x => fdiv F (fsub F x lo) (fsub F hi lo')) height in
  Ok {| inputs := input_data; targets := target_data; ty_infos := ty_infos;
        radar_map := radar_map; current_time := current_time; height := height |}.

Definition set_sample (self : TyDataset) (s : option Sample) : TyDataset :=
  {| args := args self; self_ty_list := self_ty_list self;
     transform := transform self; events_list := events_list self;
     idx_df := idx_df self; total_frames := total_frames self; sample := s |}.

(** [TyDataset.__getitem__], returning the value of the call ([None] when
    the loop ends without a [return]) and the dataset object afterwards.
    Line 180 stores the dictionary in [self.sample]; line 183 replaces it
    by the result of the transform; line 186 returns [self.sample].  When
    the transform raises, [self.sample] still refers to the dictionary the
    transform was working on. *)
Definition TyDataset_getitem (self : TyDataset) (idx : Z)
    : result (option Sample) * TyDataset :=
  match resolve self idx with
  | Raise e => (Raise e, self)
  | Ok None => (Ok None, self)
  | Ok (Some (i, tmp_idx)) =>
    match assemble self i tmp_idx with
    | Raise e => (Raise e, self)
    | Ok s =>
      match transform self with
      | None => (Ok (Some s), set_sample self (Some s))
      | Some t =>
        match t s with
        | (Ok s', _) => (Ok (Some s'), set_sample self (Some s'))
        | (Raise e, s1) => (Raise e, set_sample self (Some s1))
        end
      end
    end
  end.

(** ** Transforms *)

(** [ToTensor.__call__]: [torch.from_numpy] wraps the same memory, so the
    arrays keep their contents; [height] and [current_time] are taken from
    the sample. *)
Definition ToTensor_call : Transform :=
  fun sample =>
    (Ok {| inputs := inputs sample; height := height sample;
           targets := targets sample; ty_infos := ty_infos sample;
           radar_map := radar_map sample; current_time := current_time sample |},
     sample).

(** The [Normalize] object: the attributes copied from [args] in lines
    206-212. *)
Record Normalize : Type := { nargs : Args }.

Definition msg_max_values : string := "max_values is a not pd.series or list.".
Definition msg_min_values : string := "min_values is a not pd.series or list.".

(** The asserted expression of lines 204-205:
    [type(x) == pd.Series or list], which Python reads as
    [(type(x) == pd.Series) or list]. *)
Definition type_check (x : pyval) : result pyval :=
  py_or (VBool (pyclass_eqb (type_of x) CSeries)) (VClass CList).

(** [Normalize.__init__] *)
Definition Normalize_init (a : Args) : result Normalize :=
  do! assert_value (type_check (max_values a)) msg_max_values in
  do! assert_value (type_check (min_values a)) msg_min_values in
  Ok {| nargs := a |}.

(** Computations on the arrays of a sample: a result, or an exception,
    together with the sample as its arrays stand afterwards. *)
Definition SM (A : Type) : Type := Sample -> result A * Sample.

Definition sm_ret {A} (a : A) : SM A := fun s => (Ok a, s).

Definition sm_bind {A B} (m : SM A) (k : A -> SM B) : SM B :=
  fun s => match m s with
           | (Ok a, s') => k a s'
           | (Raise e, s') => (Raise e, s')
           end.

Definition sm_lift {A} (r : result A) : SM A := fun s => (r, s).

Definition sm_get : SM Sample := fun s => (Ok s, s).

Definition sm_put (s' : Sample) : SM unit := fun _ => (Ok tt, s').

Notation "'let*' x ':=' m 'in' k" := (sm_bind m (fun x => k))
  (at level 10, x name, m at level 100, k at level 200).
Notation "'do*' m 'in' k" := (sm_bind m (fun _ => k))
  (at level 10, m at level 100, k at level 200).

Definition with_inputs (s : Sample) (x : list (list Grid)) : Sample :=
  {| inputs := x; targets := targets s; ty_infos := ty_infos s;
     radar_map := radar_map s; current_time := current_time s;
     height := height s |}.

Definition with_radar_map (s : Sample) (x : list Grid) : Sample :=
  {| inputs := inputs s; targets := targets s; ty_infos := ty_infos s;
     radar_map := x; current_time := current_time s; height := height s |}.

(** [a[index,:,:]] *)
Definition get_slot (a : list Grid) (index : Z) : result Grid :=
  match a !! Z.to_nat index with
  | Some g => Ok g
  | None => Raise (IndexError "index is out of bounds")
  end.

(** [a[:,index,:,:]]: the channel [index] of every frame. *)
Definition get_channel (a : list (list Grid)) (index : Z) : result (list Grid) :=
  mapM (fun frame => get_slot frame index) a.

(** [a[:,index,:,:] = v] with [v] of the shape just read. *)
Definition set_channel (a : list (list Grid)) (index : Z) (v : list Grid)
    : list (list Grid) :=
  zip_with (fun frame g => <[Z.to_nat index := g]> frame) a v.

(** [(x - lo) / (hi - lo')] on every cell. *)
Definition min_max_scale (lo hi lo' : px) (g : Grid) : Grid :=
  grid_map (fun x => fdiv F (fsub F x lo) (fsub F hi lo')) g.

(** [x / n] on every cell, [n] an integer of [I_shape]. *)
Definition divide_by (n : Z) (g : Grid) : Grid :=
  grid_map (fun x => fdiv F x (of_Z F n)) g.

(** In-place [input_data[:,index,:,:] = f(input_data[:,index,:,:])]. *)
Definition update_input_channel (index : Z) (f : Grid -> Grid) : SM unit :=
  let* s := sm_get in
  let* x := sm_lift (get_channel (inputs s) index) in
  sm_put (with_inputs s (set_channel (inputs s) index (map f x))).

(** In-place [radar_map[index,:,:] = f(radar_map[index,:,:])]. *)
Definition update_radar_channel (index : Z) (f : Grid -> Grid) : SM unit :=
  let* s := sm_get in
  let* x := sm_lift (get_slot (radar_map s) index) in
  sm_put (with_radar_map s (<[Z.to_nat index := f x]> (radar_map s))).

(** Broadcasting of two vectors, and of a matrix with a vector along its
    rows. *)
Definition broadcast_error : Exn :=
  RuntimeError "The size of tensor a must match the size of tensor b".

Definition bc_vec (op : px -> px -> px) (u v : list px) : result (list px) :=
  if Nat.eqb (length u) (length v) then Ok (zip_with op u v)
  else match u, v with
       | [x], _ => Ok (map (op x) v)
       | _, [y] => Ok (map (fun x => op x y) u)
       | _, _ => Raise broadcast_error
       end.

Definition bc_rows (op : px -> px -> px) (g : Grid) (v : list px) : result Grid :=
  mapM (fun row => bc_vec op row v) g.

(** Lines 216-224 ("normalize inputs"), writing into the input array. *)
Definition normalize_inputs (a : Args) : SM unit :=
  let index := 0 in
  let* s := sm_get in
  let* x := sm_lift (get_channel (inputs s) index) in
  let* lo := sm_lift (subscript (min_values a) "RAD") in
  let* hi := sm_lift (subscript (max_values a) "RAD") in
  let* lo' := sm_lift (subscript (min_values a) "RAD") in
  do* sm_put (with_inputs s
                (set_channel (inputs s) index (map (min_max_scale lo hi lo') x))) in
  if input_with_grid a then
    let index := index + 1 in
    do* update_input_channel index (divide_by (fst (I_shape a))) in
    let index := index + 1 in
    update_input_channel index (divide_by (snd (I_shape a)))
  else sm_ret tt.

(** Lines 226-231 ("normalize targets"): [target_data] is rebound to a new
    array. *)
Definition normalize_targets (a : Args) (target_data : list Grid) : SM (list Grid) :=
  if normalize_target a then
    let key := if target_RAD a then "RAD" else "QPE" in
    let* lo := sm_lift (subscript (min_values a) key) in
    let* hi := sm_lift (subscript (max_values a) key) in
    let* lo' := sm_lift (subscript (min_values a) key) in
    sm_ret (map (min_max_scale lo hi lo') target_data)
  else sm_ret target_data.

(** Lines 233-241 ("normalize radar map"), writing into the radar map. *)
Definition normalize_radar_map (a : Args) : SM unit :=
  let index := 0 in
  let* s := sm_get in
  let* x := sm_lift (get_slot (radar_map s) index) in
  let* lo := sm_lift (subscript (min_values a) "RAD") in
  let* hi := sm_lift (subscript (max_values a) "RAD") in
  let* lo' := sm_lift (subscript (min_values a) "RAD") in
  do* sm_put (with_radar_map s
                (<[Z.to_nat index := min_max_scale lo hi lo' x]> (radar_map s))) in
  if input_with_grid a then
    let index := index + 1 in
    do* update_radar_channel index (divide_by (fst (I_shape a))) in
    let index := index + 1 in
    update_radar_channel index (divide_by (snd (I_shape a)))
  else sm_ret tt.

(** Lines 243-246 ("normalize ty info"): [ty_infos] is rebound.  The
    arithmetic is that of arrays of one kind, as the sample has them after
    [ToTensor]; on the numpy [ty_infos] of a sample taken straight from
    [__getitem__] the subtraction of the tensor of line 246 is a
    [TypeError], which ends the call three lines before the [NameError]
    of line 249, with the same arrays written. *)
Definition normalize_ty_info (a : Args) (ty : Grid) : SM Grid :=
  let* min_v := sm_lift (loc_from (min_values a) "Lat") in
  let* max_v := sm_lift (loc_from (max_values a) "Lat") in
  let* num := sm_lift (bc_rows (fsub F) ty min_v) in
  let* den := sm_lift (bc_vec (fsub F) max_v min_v) in
  sm_lift (bc_rows (fdiv F) num den).

(** [Normalize.__call__], by the four parts its comments name.  The locals
    [input_data] and [radar_map] refer to the arrays of the argument, so
    the indexed assignments write into the caller's sample.  In the
    dictionary of line 249 the name [height] is read, which is bound
    neither in the function (its locals are [self], [sample],
    [input_data], [target_data], [ty_infos], [radar_map], [index],
    [min_values], [max_values]) nor at module level nor among the
    builtins: reading it raises [NameError]. *)
Definition Normalize_call (self : Normalize) : SM Sample :=
  let a := nargs self in
  let* s0 := sm_get in
  do* normalize_inputs a in
  let* target_data := normalize_targets a (targets s0) in
  do* normalize_radar_map a in
  let* ty := normalize_ty_info a (ty_infos s0) in
  let* s := sm_get in
  let* height := sm_lift (Raise (A:=Grid) (NameError "height")) in
  sm_ret {| inputs := inputs s; height := height; targets := target_data;
            ty_infos := ty; radar_map := radar_map s;
            current_time := current_time s |}.

End Model.

Arguments Args {px} E.
Arguments Sample px : clear implicits.
Arguments TyDataset {px} E.
Arguments Normalize {px} E.
Arguments pyval {px} E.
Arguments Transform px : clear implicits.
Arguments Grid px : clear implicits.

(** ** A concrete world to run the code in *)

(** Float values as the expressions that compute them: running the code
    over [fexpr] shows which operations it performs, whatever the rounding
    of the real operations. *)
Inductive fexpr : Type :=
| Lit (z : Z)
| Sub (a b : fexpr)
| Div (a b : fexpr)
| Min (a b : fexpr)
| Max (a b : fexpr).

Definition fexpr_ops : FloatOps fexpr :=
  {| f0 := Lit 0; of_Z := Lit; fsub := Sub; fdiv := Div; fmin := Min; fmax := Max |}.

(** 2020-01-01T00:00 and 2020-02-01T00:00 are 18262 and 18293 days after
    the epoch. *)
Definition t_2020_01_01 : Timestamp := 18262 * ns_per_day.
Definition t_2020_02_01 : Timestamp := 18293 * ns_per_day.

(** Event A lasts two hours, event B one hour. *)
Definition event_A : TyRow :=
  {| en_name := "A"; time_of_issuing := t_2020_01_01;
     time_of_canceling := t_2020_01_01 + timedelta_minutes 120 |}.
Definition event_B : TyRow :=
  {| en_name := "B"; time_of_issuing := t_2020_02_01;
     time_of_canceling := t_2020_02_01 + timedelta_minutes 60 |}.

(** An event too short for a window of five frames: it is cancelled twenty
    minutes after it is issued. *)
Definition event_short : TyRow :=
  {| en_name := "S"; time_of_issuing := t_2020_01_01;
     time_of_canceling := t_2020_01_01 + timedelta_minutes 20 |}.

Fixpoint assoc_get (s : list (string * fexpr)) (key : string) : option fexpr :=
  match s with
  | [] => None
  | (k, v) :: s' => if String.eqb k key then Some v else assoc_get s' key
  end.

Fixpoint assoc_from (s : list (string * fexpr)) (key : string) : option (list fexpr) :=
  match s with
  | [] => None
  | (k, v) :: s' => if String.eqb k key then Some (map snd s) else assoc_from s' key
  end.

(** A world with the typhoon list [tys], every radar pickle a 2 x 2 field
    of 25, a ty-info table of two rows, and the identity as the seeded
    permutation: one of the draws [well_seeded] allows, standing for the
    draw of numpy, which the general statements leave free.  Its Series
    have unsorted labels, so a slice from a missing label is a
    [KeyError]. *)
Definition world (tys : list TyRow) : Ext fexpr :=
  {| Frame := list (list fexpr);
     Table := list (list fexpr);
     Series := list (string * fexpr);
     read_ty_list := fun _ => Ok tys;
     choice := fun n => seq 0 n;
     read_pickle := fun _ _ => Ok [[Lit 25; Lit 25]; [Lit 25; Lit 25]];
     loc_box := fun f _ _ => f;
     to_numpy := fun f => f;
     read_ty_infos := fun _ => Ok [[Lit 21; Lit 121; Lit 950; Lit 1];
                                   [Lit 22; Lit 122; Lit 955; Lit 1]];
     loc_time := fun t _ _ => t;
     series_get := assoc_get;
     series_from := assoc_from;
     strftime := fun _ => "YYYYmmddHHMM";
     year_str := fun _ => "2020";
     path_join := String.concat "/" |}.

Definition world_AB : Ext fexpr := world [event_A; event_B].
Definition world_short : Ext fexpr := world [event_short].

(** The configuration of the scenario: three input frames, two target
    frames, 2 x 2 windows. *)
Definition demo_args (tys : list TyRow) (grid : bool) (max_rad min_rad : Z)
    : Args (world tys) :=
  {| ty_list := "ty_list.csv";
     radar_folder := "radar";
     radar_wrangled_data_folder := "radar_wrangled";
     weather_wrangled_data_folder := "weather_wrangled";
     ty_info_wrangled_data_folder := "ty_info_wrangled";
     weather_list := [];
     input_with_grid := grid;
     input_frames := 3;
     target_frames := 2;
     input_channels := if grid then 3 else 1;
     I_x := (Lit 0, Lit 1); I_y := (Lit 0, Lit 1); I_shape := (2, 2);
     F_x := (Lit 0, Lit 1); F_y := (Lit 0, Lit 1); F_shape := (2, 2);
     O_shape := (2, 2);
     compression := "bz2";
     target_RAD := true;
     catcher_location := false;
     max_values := VSeries (world tys)
                     [("RAD", Lit max_rad); ("QPE", Lit 100); ("Lat", Lit 30);
                      ("Lon", Lit 130); ("Pressure", Lit 1000)];
     min_values := VSeries (world tys)
                     [("RAD", Lit min_rad); ("QPE", Lit 0); ("Lat", Lit 20);
                      ("Lon", Lit 120); ("Pressure", Lit 900)];
     normalize_target := true |}.

(** The dataset of events A and B, with and without grid channels. *)
Definition demo_dataset (grid : bool) : result (TyDataset world_AB) :=
  TyDataset_init world_AB (demo_args [event_A; event_B] grid 100 0)
                 true (Some 2) None.

(** A sample of one frame with one channel of a single cell. *)
Definition one_cell_sample : Sample fexpr :=
  {| inputs := [[[[Lit 25]]]]; targets := [[[Lit 25]]];
     ty_infos := [[Lit 21; Lit 121; Lit 950]]; radar_map := [[[Lit 25]]];
     current_time := "202001010020"; height := [[Lit 0]] |}.

(** The dataset that the construction yields for events A and B: nine
    windows for A, three for B. *)
Definition dataset_AB (grid : bool) : TyDataset world_AB :=
  {| args := demo_args [event_A; event_B] grid 100 0;
     self_ty_list := [event_A; event_B];
     transform := None;
     events_list := ["A"; "B"];
     idx_df :=
       [{| typhoon := "A"; starting_time := t_2020_01_01;
           ending_time := t_2020_01_01 + timedelta_minutes 80;
           starting_idx := 0; ending_idx := 8 |};
        {| typhoon := "B"; starting_time := t_2020_02_01;
           ending_time := t_2020_02_01 + timedelta_minutes 20;
           starting_idx := 9; ending_idx := 11 |}];
     total_frames := Some 12;
     sample := None |}.

(** The dataset that the construction yields for the short event alone. *)
Definition dataset_short : TyDataset world_short :=
  {| args := demo_args [event_short] false 100 0;
     self_ty_list := [event_short];
     transform := None;
     events_list := ["S"];
     idx_df :=
       [{| typhoon := "S"; starting_time := t_2020_01_01;
           ending_time := t_2020_01_01 - timedelta_minutes 20;
           starting_idx := 0; ending_idx := -2 |}];
     total_frames := Some (-1);
     sample := None |}.

(** An event cancelled 35 minutes after it is issued: with a window of five
    frames its adjusted cancel time is five minutes before the issue. *)
Definition event_35min : TyRow :=
  {| en_name := "T"; time_of_issuing := t_2020_01_01;
     time_of_canceling := t_2020_01_01 + timedelta_minutes 35 |}.

(** A [Normalize] object whose RAD bounds are both 7, and one whose bounds
    are 0 and 100. *)
Definition normalize_degenerate : Normalize (world []) :=
  {| nargs := demo_args [] false 7 7 |}.
Definition normalize_0_100 : Normalize (world []) :=
  {| nargs := demo_args [] false 100 0 |}.

(** An event cancelled 30 minutes after it is issued: with a window of five
    frames its adjusted cancel time is ten minutes before the issue and its
    window count is zero. *)
Definition event_30min : TyRow :=
  {| en_name := "Z"; time_of_issuing := t_2020_01_01 + timedelta_minutes 600;
     time_of_canceling := t_2020_01_01 + timedelta_minutes 630 |}.

(** The world of events A, Z and B, in this order. *)
Definition world_AZB : Ext fexpr := world [event_A; event_30min; event_B].

(** A sample of one frame with three channels of a single cell, and a
    [Normalize] object with grid channels over an input window of 4 x 2. *)
Definition three_channel_sample : Sample fexpr :=
  {| inputs := [[[[Lit 25]]; [[Lit 3]]; [[Lit 1]]]]; targets := [[[Lit 25]]];
     ty_infos := [[Lit 21; Lit 121; Lit 950]];
     radar_map := [[[Lit 25]]; [[Lit 3]]; [[Lit 1]]];
     current_time := "202001010020"; height := [[Lit 0]] |}.

Definition normalize_grid : Normalize (world []) :=
  {| nargs :=
       {| ty_list := ""; radar_folder := ""; radar_wrangled_data_folder := "";
          weather_wrangled_data_folder := ""; ty_info_wrangled_data_folder := "";
          weather_list := []; input_with_grid := true;
          input_frames := 1; target_frames := 1; input_channels := 3;
          I_x := (Lit 0, Lit 3); I_y := (Lit 0, Lit 1); I_shape := (4, 2);
          F_x := (Lit 0, Lit 0); F_y := (Lit 0, Lit 0); F_shape := (1, 1);
          O_shape := (1, 1); compression := "bz2";
          target_RAD := true; catcher_location := false;
          max_values := VSeries (world [])
                          [("RAD", Lit 100); ("Lat", Lit 30); ("Lon", Lit 130);
                           ("Pressure", Lit 1000)];
          min_values := VSeries (world [])
                          [("RAD", Lit 0); ("Lat", Lit 20); ("Lon", Lit 120);
                           ("Pressure", Lit 900)];
          normalize_target := true |} |}.

(** ** Vocabulary of the properties *)

(** The sampling step of ten minutes. *)
Definition step : Timedelta := timedelta_minutes 10.

(** The seeded draw is a permutation of the positions [0 .. n-1], as
    [np.random.choice(n, n, replace=False)] guarantees. *)
Definition well_seeded {px} (E : Ext px) : Prop :=
  forall n, Permutation (choice E n) (seq 0 n).

(** The rows cover [start, stop) one after the other, none of them empty. *)
Fixpoint contiguous_from (start : Z) (rows : list IdxRow) (stop : Z) : Prop :=
  match rows with
  | [] => start = stop
  | r :: rest =>
    starting_idx r = start /\ starting_idx r <= ending_idx r /\
    contiguous_from (ending_idx r + 1) rest stop
  end.

(** The events of the selection, in selection order: for every selected
    label its row of the typhoon list. *)
Definition selected_events {px} {E : Ext px} (self : TyDataset E) : list TyRow :=
  omap (fun i => List.find (fun r => String.eqb (en_name r) i) (self_ty_list E self))
       (events_list E self).

(** The window count of an event under the configuration of the dataset. *)
Definition count_of {px} {E : Ext px} (self : TyDataset E) (r : TyRow) : Z :=
  window_count (input_frames E (args E self)) (target_frames E (args E self)) r.

(** [total_samples]: the sum of the window counts of the selected events. *)
Definition total_samples {px} {E : Ext px} (self : TyDataset E) : Z :=
  fold_right Z.add 0 (map (count_of self) (selected_events self)).

(** The label lookup of the construction loop. *)
Definition ty_loc (tys : list TyRow) (i : string) : result TyRow :=
  df_loc en_name tys i (AttributeError "days").

(** An (event, valid local offset) pair. *)
Definition valid_pair {px} {E : Ext px} (self : TyDataset E) (p : string * Z) : Prop :=
  exists r, In r (selected_events self) /\ en_name r = fst p /\
            0 <= snd p < count_of self r.

(** The width of the recorded range of an index row. *)
Definition row_count (r : IdxRow) : Z := ending_idx r - starting_idx r + 1.

(** The table that the loop of lines 81-87 writes for the events [evs]
    when it starts from the running total [tmp]. *)
Fixpoint rows_from (input_frames target_frames : Z) (evs : list TyRow) (tmp : Z)
    : list IdxRow :=
  match evs with
  | [] => []
  | r :: rest =>
    let total := tmp + window_count input_frames target_frames r in
    {| typhoon := en_name r; starting_time := time_of_issuing r;
       ending_time := frame_end input_frames target_frames r;
       starting_idx := tmp; ending_idx := total - 1 |}
    :: rows_from input_frames target_frames rest total
  end.

(** The sum of the window counts of [evs]. *)
Definition sum_counts (input_frames target_frames : Z) (evs : list TyRow) : Z :=
  fold_right Z.add 0 (map (window_count input_frames target_frames) evs).

(** The first row whose ending index is not below [idx]. *)
Definition first_row (idx : Z) (rows : list IdxRow) : option IdxRow :=
  List.find (fun r => negb (idx >? ending_idx r)) rows.

(** The exceptions by which the code rejects an argument: a failed
    [assert], or a [ValueError]. *)
Definition argument_error (e : Exn) : bool :=
  match e with
  | AssertionError _ | ValueError _ => true
  | _ => false
  end.

(** The value of [self.total_frames] after the loop has run over [evs]. *)
Definition final_total (input_frames target_frames : Z) (evs : list TyRow)
    (tmp : Z) (total_frames : option Z) : option Z :=
  match evs with
  | [] => total_frames
  | _ => Some (tmp + sum_counts input_frames target_frames evs)
  end.

(** The cut point of the split: the explicit count, or three quarters. *)
Definition split_point (n : nat) (train_num : option Z) : Z :=
  match train_num with
  | Some k => k
  | None => default_split n
  end.

(** The label at a position of the typhoon list. *)
Definition label_at (tys : list TyRow) (p : nat) : string :=
  match tys !! p with
  | Some r => en_name r
  | None => ""
  end.

(** A computation keeps the property [I] of the sample and raises no
    argument error. *)
Definition keeps {px} (I : Sample px -> Prop) {A} (m : SM (px:=px) A) : Prop :=
  forall s, I s ->
    I (snd (m s)) /\ forall e, fst (m s) = Raise e -> argument_error e = false.

(** Channel 0 of the inputs holds [X]. *)
Definition channel0_is {px} (X : list (Grid px)) (s : Sample px) : Prop :=
  get_channel (inputs s) 0 = Ok X.

(** The name under which the files of the event of an index row are
    stored: the year of its start and its label (line 111). *)
Definition ty_name_of {px} (E : Ext px) (r : IdxRow) : string :=
  String.append (year_str E (starting_time r)) (String.append "." (typhoon r)).

(** A 2-D array has [h] rows of [w] cells. *)
Definition shape_is {px} (h w : Z) (g : Grid px) : Prop :=
  length g = Z.to_nat h /\ forall r, In r g -> length r = Z.to_nat w.

(** The fields of a sample that [Normalize.__call__] does not write. *)
Definition same_rest {px} (s0 s : Sample px) : Prop :=
  targets s = targets s0 /\ ty_infos s = ty_infos s0 /\
  current_time s = current_time s0 /\ height s = height s0.

(** Every input frame of the sample has channels 0, 1 and 2. *)
Definition three_channels {px} (s : Sample px) : Prop :=
  Forall (fun frame => (3 <= length frame)%nat) (inputs s).

(** * Properties *)

(** ** Arithmetic of the window count *)

Lemma td_whole_seconds (d : Timedelta) :
  td_days d * 24 * 6 * 600 + td_seconds d = d / ns_per_second.
Proof.
  unfold td_days, td_seconds, ns_per_day.
  rewrite (Z.mul_comm 86400 ns_per_second).
  assert (Hns : 0 < ns_per_second) by (unfold ns_per_second; lia).
  rewrite Z.rem_mul_r by lia.
  rewrite <- Z.div_div by lia.
  rewrite (Z.mul_comm ns_per_second (_ mod 86400)), Z.div_add by lia.
  rewrite (Z.div_small (d mod ns_per_second)) by (apply Z.mod_pos_bound; lia).
  pose proof (Z.div_mod (d / ns_per_second) 86400 ltac:(lia)). lia.
Qed.

Lemma int_frames_seconds (d : Timedelta) :
  int_frames d = Z.quot (d / ns_per_second) 600.
Proof. unfold int_frames. now rewrite td_whole_seconds. Qed.

Lemma int_frames_nonneg (d : Timedelta) : 0 <= d -> int_frames d = d / step.
Proof.
  intros Hd. rewrite int_frames_seconds.
  assert (Hns : 0 < ns_per_second) by (unfold ns_per_second; lia).
  assert (Hq : 0 <= d / ns_per_second) by (apply Z.div_pos; lia).
  rewrite Z.quot_div_nonneg; [| exact Hq | lia].
  rewrite Z.div_div by lia.
  f_equal.
Qed.


(** ** The type checks of [Normalize.__init__] *)

Section NormalizeInit.

Context {px : Type} (E : Ext px).

Lemma type_check_truthy (x : pyval E) :
  exists v, type_check E x = Ok v /\ truthy E v = Ok true.
Proof.
  unfold type_check, py_or. simpl.
  destruct (pyclass_eqb (type_of E x) CSeries); simpl; eauto.
Qed.

Lemma assert_type_check (x : pyval E) (msg : string) :
  assert_value E (type_check E x) msg = Ok tt.
Proof.
  destruct (type_check_truthy x) as (v & Hv & Ht).
  unfold assert_value. rewrite Hv. simpl. rewrite Ht. reflexivity.
Qed.

(** C10.  Whatever the values of [args.max_values] and [args.min_values]
    (a Series, a list, [None], a number, a string, a class, any object),
    each asserted expression [type(x) == pd.Series or list] evaluates to a
    true value, both assertions pass and [Normalize.__init__] returns the
    object: the check rejects nothing. *)
Theorem normalize_init_accepts_everything (a : Args E) :
  (forall (x : pyval E) (msg : string),
      assert_value E (type_check E x) msg = Ok tt) /\
  (forall x : pyval E, type_of E x <> CSeries -> type_check E x = Ok (VClass E CList)) /\
  Normalize_init E a = Ok {| nargs := a |}.
Proof.
  split; [apply assert_type_check |]. split.
  - intros x Hx. unfold type_check, py_or. simpl.
    destruct (type_of E x); simpl; try reflexivity. congruence.
  - unfold Normalize_init. now rewrite !assert_type_check.
Qed.

End NormalizeInit.

(** ** [Normalize.__call__] *)

Section NormalizeCall.

Context {px : Type} (F : FloatOps px) (E : Ext px).

Lemma sm_bind_raises {A B} (m : SM (px:=px) A) (k : A -> SM B) (s : Sample px) :
  (forall a s', exists e, fst (k a s') = Raise e) ->
  exists e, fst (sm_bind m k s) = Raise e.
Proof.
  intros Hk. unfold sm_bind.
  destruct (m s) as [[a | e] s']; simpl; eauto.
Qed.

Lemma sm_bind_lift_raise {A B} (e : Exn) (k : A -> SM B) (s : Sample px) :
  sm_bind (sm_lift (Raise e)) k s = (Raise e, s).
Proof. reflexivity. Qed.

Ltac step_call :=
  first [ rewrite sm_bind_lift_raise; simpl; eexists; reflexivity
        | apply sm_bind_raises; intros ].

(** C7.  [Normalize.__call__] returns for no sample and no statistics:
    every call ends in an exception, and a call in which all the
    normalisation steps succeed ends in the [NameError] on [height] of
    line 249.  The sibling [ToTensor.__call__] does pass [sample['height']]
    through unchanged. *)
Theorem normalize_call_never_returns :
  (forall (self : Normalize E) (s : Sample px),
      exists e, fst (Normalize_call F E self s) = Raise e) /\
  fst (Normalize_call fexpr_ops (world []) normalize_0_100 one_cell_sample) =
    Raise (NameError "height") /\
  (forall s : Sample px,
      exists s', fst (ToTensor_call s) = Ok s' /\ height s' = height s).
Proof.
  split; [| split].
  - intros self s. unfold Normalize_call. cbv zeta.
    repeat step_call.
  - reflexivity.
  - intros s. eexists. split; reflexivity.
Qed.

(** *** What the call leaves in the arrays *)

Lemma mapM_length {A B} (f : A -> result B) (l : list A) (ys : list B) :
  mapM f l = Ok ys -> length ys = length l.
Proof.
  revert ys. induction l as [| x l IH]; simpl; intros ys H.
  - now inversion H.
  - destruct (f x); simpl in H; [| discriminate].
    destruct (mapM f l) eqn:Hl; simpl in H; [| discriminate].
    inversion H; subst. simpl. f_equal. now apply IH.
Qed.

Lemma mapM_raise {A B} (f : A -> result B) (l : list A) (e : Exn) :
  mapM f l = Raise e -> exists x, In x l /\ f x = Raise e.
Proof.
  induction l as [| x l IH]; simpl; intros H; [discriminate |].
  destruct (f x) eqn:Hx; simpl in H.
  - destruct (mapM f l) eqn:Hl; simpl in H; [discriminate |].
    inversion H; subst. destruct IH as (y & Hy & Hf); eauto.
  - inversion H; subst. eauto.
Qed.

Lemma get_slot_raise (a : list (Grid px)) (i : Z) (e : Exn) :
  get_slot a i = Raise e -> argument_error e = false.
Proof. unfold get_slot. destruct (a !! Z.to_nat i); now inversion 1. Qed.

Lemma get_channel_raise (a : list (list (Grid px))) (i : Z) (e : Exn) :
  get_channel a i = Raise e -> argument_error e = false.
Proof.
  intros H. apply mapM_raise in H as (x & _ & H). eapply get_slot_raise, H.
Qed.

Lemma subscript_raise (v : pyval E) (key : string) (e : Exn) :
  subscript E v key = Raise e -> argument_error e = false.
Proof.
  unfold subscript. destruct v; try (now inversion 1).
  destruct (series_get E s key); now inversion 1.
Qed.

Lemma loc_from_raise (v : pyval E) (key : string) (e : Exn) :
  loc_from E v key = Raise e -> argument_error e = false.
Proof.
  unfold loc_from. destruct v; try (now inversion 1).
  destruct (series_from E s key); now inversion 1.
Qed.

Lemma bc_vec_raise (op : px -> px -> px) (u v : list px) (e : Exn) :
  bc_vec op u v = Raise e -> argument_error e = false.
Proof.
  unfold bc_vec. destruct (Nat.eqb _ _); [discriminate |].
  destruct u as [| x [| x' u]], v as [| y [| y' v]]; now inversion 1.
Qed.

Lemma bc_rows_raise (op : px -> px -> px) (g : (Grid px)) (v : list px) (e : Exn) :
  bc_rows op g v = Raise e -> argument_error e = false.
Proof.
  intros H. apply mapM_raise in H as (x & _ & H). eapply bc_vec_raise, H.
Qed.

Lemma get_channel_set_same (a : list (list (Grid px))) (i : Z)
    (x v : list (Grid px)) :
  get_channel a i = Ok x -> length v = length a ->
  get_channel (set_channel a i v) i = Ok v.
Proof.
  unfold get_channel, set_channel. revert x v.
  induction a as [| frame a IH]; intros x v Hx Hv.
  - destruct v; [reflexivity | discriminate].
  - destruct v as [| g v]; [discriminate |]. simpl in *.
    unfold get_slot at 1 in Hx. unfold get_slot at 1.
    destruct (frame !! Z.to_nat i) eqn:Hf; simpl in Hx; [| discriminate].
    rewrite list_lookup_insert_eq by (eapply lookup_lt_Some, Hf). simpl.
    destruct (mapM _ a) eqn:Ha; simpl in Hx; [| discriminate].
    erewrite IH; [reflexivity | reflexivity | congruence].
Qed.

Lemma get_channel_set_other (a : list (list (Grid px))) (i j : Z)
    (v : list (Grid px)) :
  Z.to_nat j <> Z.to_nat i -> length v = length a ->
  get_channel (set_channel a j v) i = get_channel a i.
Proof.
  intros Hij. unfold get_channel, set_channel. revert v.
  induction a as [| frame a IH]; intros v Hv.
  - destruct v; [reflexivity | discriminate].
  - destruct v as [| g v]; [discriminate |]. simpl in *.
    unfold get_slot at 1 3.
    rewrite list_lookup_insert_ne by exact Hij.
    rewrite IH by congruence. reflexivity.
Qed.

Lemma keeps_bind (I : Sample px -> Prop) {A B} (m : SM A) (k : A -> SM B) :
  keeps I m -> (forall a, keeps I (k a)) -> keeps I (sm_bind m k).
Proof.
  intros Hm Hk s Hs. unfold sm_bind.
  destruct (Hm s Hs) as [Hi He]. destruct (m s) as [[a | e] s']; simpl in *.
  - now apply Hk.
  - split; [exact Hi |]. intros e' Heq. apply He. congruence.
Qed.

Lemma keeps_ret (I : Sample px -> Prop) {A} (a : A) : keeps I (sm_ret a).
Proof. intros s Hs. split; [exact Hs | discriminate]. Qed.

Lemma keeps_get (I : Sample px -> Prop) : keeps I sm_get.
Proof. intros s Hs. split; [exact Hs | discriminate]. Qed.

Lemma keeps_lift (I : Sample px -> Prop) {A} (r : result A) :
  (forall e, r = Raise e -> argument_error e = false) -> keeps I (sm_lift r).
Proof. intros Hr s Hs. split; [exact Hs | exact Hr]. Qed.

Lemma keeps_update_input_channel (X : list (Grid px)) (index : Z) (f : (Grid px) -> (Grid px)) :
  Z.to_nat index <> 0%nat ->
  keeps (channel0_is X) (update_input_channel index f).
Proof.
  intros Hi s Hs. unfold update_input_channel, sm_bind, sm_get, sm_lift, sm_put.
  destruct (get_channel (inputs s) index) as [x | e] eqn:Hx; simpl.
  - split; [| discriminate]. unfold channel0_is. simpl.
    rewrite get_channel_set_other; [exact Hs | exact Hi |].
    rewrite length_map. eapply mapM_length, Hx.
  - split; [exact Hs |]. intros e' He. inversion He; subst.
    eapply get_channel_raise, Hx.
Qed.

Lemma keeps_update_radar_channel (X : list (Grid px)) (index : Z) (f : (Grid px) -> (Grid px)) :
  keeps (channel0_is X) (update_radar_channel index f).
Proof.
  intros s Hs. unfold update_radar_channel, sm_bind, sm_get, sm_lift, sm_put.
  destruct (get_slot (radar_map s) index) as [x | e] eqn:Hx; simpl.
  - split; [exact Hs | discriminate].
  - split; [exact Hs |]. intros e' He. inversion He; subst.
    eapply get_slot_raise, Hx.
Qed.

Ltac keeps_step :=
  first [ apply keeps_ret
        | apply keeps_get
        | apply keeps_update_input_channel; discriminate
        | apply keeps_update_radar_channel
        | apply keeps_lift;
          first [ apply subscript_raise | apply loc_from_raise
                | apply bc_vec_raise | apply bc_rows_raise
                | apply get_slot_raise | apply get_channel_raise
                | (intros ? Hraise; inversion Hraise; reflexivity) ]
        | apply keeps_bind; [| intros ?] ].

Lemma keeps_normalize_targets (X : list (Grid px)) (a : Args E) (t : list (Grid px)) :
  keeps (channel0_is X) (normalize_targets F E a t).
Proof.
  unfold normalize_targets. destruct (normalize_target E a); cbv zeta;
    repeat keeps_step.
Qed.

Lemma keeps_normalize_ty_info (X : list (Grid px)) (a : Args E) (ty : (Grid px)) :
  keeps (channel0_is X) (normalize_ty_info F E a ty).
Proof. unfold normalize_ty_info. repeat keeps_step. Qed.

Lemma keeps_normalize_radar_map (X : list (Grid px)) (a : Args E) :
  keeps (channel0_is X) (normalize_radar_map F E a).
Proof.
  intros s Hs. unfold normalize_radar_map. cbv zeta.
  unfold sm_bind at 1. unfold sm_get at 1.
  assert (Hput : forall g, keeps (channel0_is X)
                   (sm_put (with_radar_map s g))).
  { intros g s' _. split; [exact Hs | discriminate]. }
  match goal with
  | |- channel0_is X (snd (?M s)) /\ _ =>
    cut (keeps (channel0_is X) M); [intros HK; exact (HK s Hs) |]
  end.
  repeat (apply keeps_bind; [first [apply Hput | keeps_step] | intros ?]).
  destruct (input_with_grid E a); repeat keeps_step.
Qed.

Lemma normalize_inputs_channel0 (a : Args E) (s : Sample px) (lo hi : px)
    (x0 : list (Grid px)) :
  subscript E (min_values E a) "RAD" = Ok lo ->
  subscript E (max_values E a) "RAD" = Ok hi ->
  get_channel (inputs s) 0 = Ok x0 ->
  channel0_is (map (min_max_scale F lo hi lo) x0) (snd (normalize_inputs F E a s)) /\
  forall e, fst (normalize_inputs F E a s) = Raise e -> argument_error e = false.
Proof.
  intros Hlo Hhi Hx.
  set (s1 := with_inputs s
               (set_channel (inputs s) 0 (map (min_max_scale F lo hi lo) x0))).
  assert (Heq : normalize_inputs F E a s =
                (if input_with_grid E a then
                   sm_bind (update_input_channel (0 + 1) (divide_by F (fst (I_shape E a))))
                     (fun _ => update_input_channel (0 + 1 + 1)
                                 (divide_by F (snd (I_shape E a))))
                 else sm_ret tt) s1).
  { unfold normalize_inputs, sm_bind, sm_get, sm_lift, sm_put. cbv zeta.
    rewrite Hx, Hlo, Hhi. now destruct (input_with_grid E a). }
  rewrite Heq.
  assert (H1 : channel0_is (map (min_max_scale F lo hi lo) x0) s1).
  { unfold channel0_is, s1. simpl. eapply get_channel_set_same; [exact Hx |].
    rewrite length_map. eapply mapM_length, Hx. }
  match goal with
  | |- channel0_is ?X (snd (?M s1)) /\ _ =>
    cut (keeps (channel0_is X) M); [intros HK; exact (HK s1 H1) |]
  end.
  destruct (input_with_grid E a); repeat keeps_step.
Qed.

Lemma keeps_any_put (s' : Sample px) : keeps (fun _ => True) (sm_put s').
Proof. intros s _. split; [exact I | discriminate]. Qed.

Lemma keeps_any_update_input_channel (index : Z) (f : Grid px -> Grid px) :
  keeps (fun _ => True) (update_input_channel index f).
Proof.
  unfold update_input_channel.
  apply keeps_bind; [apply keeps_get | intros s].
  apply keeps_bind; [apply keeps_lift, get_channel_raise | intros x].
  apply keeps_any_put.
Qed.

Lemma keeps_any_update_radar_channel (index : Z) (f : Grid px -> Grid px) :
  keeps (fun _ => True) (update_radar_channel index f).
Proof.
  unfold update_radar_channel.
  apply keeps_bind; [apply keeps_get | intros s].
  apply keeps_bind; [apply keeps_lift, get_slot_raise | intros x].
  apply keeps_any_put.
Qed.

Ltac keeps_any_step :=
  first [ apply keeps_any_put
        | apply keeps_any_update_input_channel
        | apply keeps_any_update_radar_channel
        | keeps_step ].

(** No step of the call rejects an argument: the exceptions it can end in
    are those of indexing, of the lookup of a label, of broadcasting and
    of the unbound name. *)
Lemma normalize_call_no_argument_error (self : Normalize E) (s : Sample px)
    (e : Exn) :
  fst (Normalize_call F E self s) = Raise e -> argument_error e = false.
Proof.
  assert (HK : keeps (fun _ => True) (Normalize_call F E self)).
  { unfold Normalize_call. cbv zeta.
    apply keeps_bind; [apply keeps_get | intros s0].
    apply keeps_bind.
    { unfold normalize_inputs. cbv zeta.
      repeat (apply keeps_bind; [keeps_any_step | intros ?]).
      destruct (input_with_grid E (nargs E self)); repeat keeps_any_step. }
    intros _. apply keeps_bind.
    { unfold normalize_targets.
      destruct (normalize_target E (nargs E self)); cbv zeta;
        repeat keeps_any_step. }
    intros target_data. apply keeps_bind.
    { unfold normalize_radar_map. cbv zeta.
      repeat (apply keeps_bind; [keeps_any_step | intros ?]).
      destruct (input_with_grid E (nargs E self)); repeat keeps_any_step. }
    intros _. apply keeps_bind.
    { unfold normalize_ty_info. repeat keeps_any_step. }
    intros ty. repeat keeps_any_step. }
  exact (proj2 (HK s I) e).
Qed.

(** C8 (amended).  [Normalize.__call__] makes no [max == min] check.
    Whatever the statistics (a Series holding one value under each label,
    a list, or any other value that a string does not index) and whatever
    the sample, the call raises no argument error, neither
    [AssertionError] nor [ValueError]; and when the RAD bounds can be
    read, equal or not, channel 0 of every input frame is overwritten in
    the caller's sample by [(x - min) / (max - min)], the division being
    carried out as it stands. *)
Theorem normalize_divides_unchecked (self : Normalize E) (s : Sample px) :
  (forall e, fst (Normalize_call F E self s) = Raise e -> argument_error e = false) /\
  (forall (lo hi : px) (x0 : list (Grid px)),
     subscript E (min_values E (nargs E self)) "RAD" = Ok lo ->
     subscript E (max_values E (nargs E self)) "RAD" = Ok hi ->
     get_channel (inputs s) 0 = Ok x0 ->
     get_channel (inputs (snd (Normalize_call F E self s))) 0 =
       Ok (map (map (map (fun x => fdiv F (fsub F x lo) (fsub F hi lo)))) x0)).
Proof.
  split; [intros e; apply normalize_call_no_argument_error |].
  intros lo hi x0 Hlo Hhi Hx.
  destruct (normalize_inputs_channel0 _ _ _ _ _ Hlo Hhi Hx) as [H1 He1].
  remember (Normalize_call F E self s) as out eqn:Hout.
  unfold Normalize_call in Hout. cbv zeta in Hout.
  unfold sm_bind at 1 2 in Hout. unfold sm_get at 1 in Hout.
  destruct (normalize_inputs F E (nargs E self) s) as [[[] | e1] s1]; simpl in H1, He1.
  - match type of Hout with
    | _ = ?M s1 =>
      assert (HK : keeps (channel0_is (map (min_max_scale F lo hi lo) x0)) M)
    end.
    { repeat first [ apply keeps_normalize_targets | apply keeps_normalize_radar_map
                   | apply keeps_normalize_ty_info | keeps_step ]. }
    destruct (HK s1 H1) as [HI _]. rewrite <- Hout in HI. exact HI.
  - subst out. simpl. exact H1.
Qed.

End NormalizeCall.

(** ** Label lookup *)

Section Lookup.

Context {A : Type} (label : A -> string).

Lemma filter_label_nil (rows : list A) (i : string) :
  (forall y, In y rows -> label y <> i) ->
  List.filter (fun r => String.eqb (label r) i) rows = [].
Proof.
  induction rows as [| h t IH]; simpl; intros H; [reflexivity |].
  destruct (String.eqb_spec (label h) i) as [Heq | Hne].
  - exfalso. apply (H h); auto.
  - apply IH. intros y Hy. apply H. auto.
Qed.

Lemma filter_label_nil_inv (rows : list A) (i : string) (y : A) :
  List.filter (fun r => String.eqb (label r) i) rows = [] ->
  In y rows -> label y <> i.
Proof.
  intros Hf Hy Hl.
  assert (Hin : In y (List.filter (fun r => String.eqb (label r) i) rows)).
  { apply List.filter_In. split; [exact Hy |]. now apply String.eqb_eq. }
  rewrite Hf in Hin. exact Hin.
Qed.

Lemma df_loc_filter (rows : list A) (i : string) (dup : Exn) (r : A) :
  df_loc label rows i dup = Ok r <->
  List.filter (fun x => String.eqb (label x) i) rows = [r].
Proof.
  unfold df_loc.
  destruct (List.filter _ rows) as [| x [| y l]]; split; intros H;
    try discriminate; inversion H; reflexivity.
Qed.

Lemma df_loc_In (rows : list A) (i : string) (dup : Exn) (r : A) :
  df_loc label rows i dup = Ok r -> In r rows /\ label r = i.
Proof.
  intros H. apply df_loc_filter in H.
  assert (Hin : In r (List.filter (fun x => String.eqb (label x) i) rows))
    by (rewrite H; simpl; auto).
  apply List.filter_In in Hin as [Hin Heq]. split; [exact Hin |].
  now apply String.eqb_eq.
Qed.

Lemma df_loc_unique (rows : list A) (i : string) (dup : Exn) (r r' : A) :
  df_loc label rows i dup = Ok r -> In r' rows -> label r' = i -> r' = r.
Proof.
  intros H Hin Hl. apply df_loc_filter in H.
  assert (Hf : In r' (List.filter (fun x => String.eqb (label x) i) rows)).
  { apply List.filter_In. split; [exact Hin |]. now apply String.eqb_eq. }
  rewrite H in Hf. destruct Hf as [Hf | []]. now symmetry.
Qed.

Lemma df_loc_find (rows : list A) (i : string) (dup : Exn) (r : A) :
  df_loc label rows i dup = Ok r ->
  List.find (fun x => String.eqb (label x) i) rows = Some r.
Proof.
  intros H. apply df_loc_filter in H. revert H.
  induction rows as [| h t IH]; simpl; [discriminate |].
  destruct (String.eqb (label h) i); [| exact IH].
  now inversion 1.
Qed.

Lemma df_loc_NoDup (rows : list A) (dup : Exn) (r : A) :
  NoDup (map label rows) -> In r rows ->
  df_loc label rows (label r) dup = Ok r.
Proof.
  intros Hnd Hin. apply df_loc_filter. revert Hnd Hin.
  induction rows as [| h t IH]; simpl; intros Hnd Hin; [contradiction |].
  inversion Hnd as [| ? ? Hnotin Hnd']; subst.
  destruct Hin as [-> | Hin].
  - rewrite String.eqb_refl. f_equal. apply filter_label_nil.
    intros y Hy Hl. apply Hnotin. rewrite <- Hl.
    apply list_elem_of_In, in_map, Hy.
  - destruct (String.eqb_spec (label h) (label r)) as [Heq | Hne].
    + exfalso. apply Hnotin. rewrite Heq. apply list_elem_of_In, in_map, Hin.
    + now apply IH.
Qed.

(** A label that [df_loc] resolves occurs at one position only. *)
Lemma df_loc_position (rows : list A) (i : string) (dup : Exn) (r x y : A)
    (p q : nat) :
  df_loc label rows i dup = Ok r ->
  rows !! p = Some x -> label x = i ->
  rows !! q = Some y -> label y = i -> p = q.
Proof.
  intros H. apply df_loc_filter in H. revert p q H.
  induction rows as [| h t IH]; intros p q H Hp Hx Hq Hy; [discriminate |].
  simpl in H. destruct (String.eqb_spec (label h) i) as [Heq | Hne].
  - inversion H as [[Hh Ht]].
    destruct p as [| p]; destruct q as [| q]; try reflexivity; exfalso.
    + eapply (filter_label_nil_inv t i y Ht); [| exact Hy].
      eapply list_elem_of_In, list_elem_of_lookup_2, Hq.
    + eapply (filter_label_nil_inv t i x Ht); [| exact Hx].
      eapply list_elem_of_In, list_elem_of_lookup_2, Hp.
    + eapply (filter_label_nil_inv t i x Ht); [| exact Hx].
      eapply list_elem_of_In, list_elem_of_lookup_2, Hp.
  - destruct p as [| p]; [simpl in Hp; inversion Hp; subst; contradiction |].
    destruct q as [| q]; [simpl in Hq; inversion Hq; subst; contradiction |].
    f_equal. eapply IH; eauto.
Qed.

End Lookup.

(** ** The construction loop *)

Lemma index_loop_spec (tys : list TyRow) (inf tf : Z) (labels : list string)
    (evs : list TyRow) (tmp : Z) (tot : option Z) :
  Forall2 (fun i r => ty_loc tys i = Ok r) labels evs ->
  index_loop tys inf tf labels tmp tot =
    Ok (rows_from inf tf evs tmp, final_total inf tf evs tmp tot).
Proof.
  intros H. revert tmp tot.
  induction H as [| i r labels evs Hi _ IH]; intros tmp tot; [reflexivity |].
  simpl. unfold ty_loc in Hi. rewrite Hi. simpl.
  destruct (df_loc_In _ _ _ _ _ Hi) as [_ <-].
  fold (window_count inf tf r).
  replace (tmp + int_frames (frame_end inf tf r - time_of_issuing r) + 1)
    with (tmp + window_count inf tf r) by (unfold window_count; lia).
  rewrite IH. simpl. do 2 f_equal.
  unfold final_total, sum_counts. destruct evs; simpl; f_equal; lia.
Qed.

Lemma index_loop_inv (tys : list TyRow) (inf tf : Z) (labels : list string)
    (tmp : Z) (tot : option Z) (out : list IdxRow * option Z) :
  index_loop tys inf tf labels tmp tot = Ok out ->
  exists evs, Forall2 (fun i r => ty_loc tys i = Ok r) labels evs.
Proof.
  revert tmp tot out.
  induction labels as [| i labels IH]; intros tmp tot out H.
  - exists []. constructor.
  - simpl in H.
    destruct (df_loc en_name tys i (AttributeError "days")) as [r |] eqn:Hr;
      simpl in H; [| discriminate].
    match type of H with
    | bind ?m _ = _ => destruct m as [out' |] eqn:Hrest; simpl in H; [| discriminate]
    end.
    destruct (IH _ _ _ Hrest) as [evs Hevs].
    exists (r :: evs). constructor; assumption.
Qed.

Lemma rows_from_typhoon (inf tf : Z) (evs : list TyRow) (tmp : Z) :
  map typhoon (rows_from inf tf evs tmp) = map en_name evs.
Proof.
  revert tmp. induction evs as [| r evs IH]; intros tmp; simpl; [reflexivity |].
  now rewrite IH.
Qed.

Lemma rows_from_counts (inf tf : Z) (evs : list TyRow) (tmp : Z) :
  Forall2 (fun row r => typhoon row = en_name r /\
                        row_count row = window_count inf tf r /\
                        starting_time row = time_of_issuing r)
          (rows_from inf tf evs tmp) evs.
Proof.
  revert tmp. induction evs as [| r evs IH]; intros tmp; simpl; constructor.
  - unfold row_count. simpl. repeat split; lia.
  - apply IH.
Qed.

Lemma rows_from_contiguous (inf tf : Z) (evs : list TyRow) (tmp : Z) :
  Forall (fun r => 0 < window_count inf tf r) evs ->
  contiguous_from tmp (rows_from inf tf evs tmp) (tmp + sum_counts inf tf evs).
Proof.
  intros H. revert tmp.
  induction H as [| r evs Hr _ IH]; intros tmp; simpl.
  - unfold sum_counts. simpl. lia.
  - split; [reflexivity |]. split; [lia |].
    specialize (IH (tmp + window_count inf tf r)).
    unfold sum_counts in *. simpl.
    replace (tmp + window_count inf tf r - 1 + 1) with (tmp + window_count inf tf r) by lia.
    replace (tmp + (window_count inf tf r +
                    fold_right Z.add 0 (map (window_count inf tf) evs)))
      with (tmp + window_count inf tf r +
            fold_right Z.add 0 (map (window_count inf tf) evs)) by lia.
    exact IH.
Qed.

(** ** Contiguous tables and the scan *)

Lemma contiguous_bounds (s t : Z) (rows : list IdxRow) :
  contiguous_from s rows t ->
  s <= t /\ forall r, In r rows -> s <= starting_idx r /\ ending_idx r < t.
Proof.
  revert s. induction rows as [| h rows IH]; simpl; intros s H.
  - split; [lia | contradiction].
  - destruct H as (Hs & Hle & Hrest). destruct (IH _ Hrest) as [Hb Hall].
    split; [lia |]. intros r [-> | Hr]; [lia |].
    specialize (Hall r Hr). lia.
Qed.

Lemma first_row_contiguous (s t idx : Z) (rows : list IdxRow) :
  contiguous_from s rows t -> s <= idx < t ->
  exists r, first_row idx rows = Some r /\ In r rows /\
            starting_idx r <= idx <= ending_idx r.
Proof.
  revert s. induction rows as [| h rows IH]; simpl; intros s H Hidx; [lia |].
  destruct H as (Hs & Hle & Hrest).
  unfold first_row. simpl. destruct (Z.gtb_spec idx (ending_idx h)) as [Hgt | Hng]; simpl.
  - destruct (IH _ Hrest ltac:(lia)) as (r & Hf & Hin & Hr).
    exists r. auto.
  - exists h. split; [reflexivity |]. split; [auto | lia].
Qed.

Lemma first_row_containing (s t idx : Z) (rows : list IdxRow) (r : IdxRow) :
  contiguous_from s rows t -> In r rows ->
  starting_idx r <= idx <= ending_idx r ->
  first_row idx rows = Some r.
Proof.
  revert s. induction rows as [| h rows IH]; simpl; intros s H Hin Hr; [contradiction |].
  destruct H as (Hs & Hle & Hrest).
  unfold first_row. simpl. destruct (Z.gtb_spec idx (ending_idx h)) as [Hgt | Hng]; simpl.
  - destruct Hin as [-> | Hin]; [lia |]. eapply IH; eauto.
  - destruct Hin as [-> | Hin]; [reflexivity |].
    destruct (contiguous_bounds _ _ _ Hrest) as [_ Hall].
    specialize (Hall r Hin). lia.
Qed.

Lemma scan_first_row (df suf : list IdxRow) (idx : Z) :
  NoDup (map typhoon df) -> (forall r, In r suf -> In r df) ->
  scan df idx (map typhoon suf) =
    Ok (option_map (fun r => (typhoon r, idx - starting_idx r)) (first_row idx suf)).
Proof.
  intros Hnd. induction suf as [| h suf IH]; intros Hsub; [reflexivity |].
  simpl. rewrite (df_loc_NoDup typhoon df _ h Hnd) by (apply Hsub; simpl; auto).
  simpl. unfold first_row. simpl.
  destruct (idx >? ending_idx h); simpl; [| reflexivity].
  apply IH. intros r Hr. apply Hsub. simpl. auto.
Qed.

(** ** The seeded split *)

Lemma py_bound_le (n : nat) (k : Z) : (py_bound n k <= n)%nat.
Proof. unfold py_bound. destruct (Z.ltb_spec k 0); lia. Qed.

Lemma py_slice_prefix {A} (l : list A) (k : Z) :
  py_slice l (Some 0) (Some k) = take (py_bound (length l) k) l.
Proof.
  unfold py_slice. replace (py_bound (length l) 0) with 0%nat
    by (unfold py_bound; simpl; lia).
  rewrite drop_0. f_equal. lia.
Qed.

Lemma py_slice_suffix {A} (l : list A) (k : Z) :
  py_slice l (Some k) None = drop (py_bound (length l) k) l.
Proof.
  unfold py_slice. apply take_ge. rewrite length_drop. lia.
Qed.

(** [l[0:k]] and [l[k:]] cut [l] in two, whatever the integer [k]. *)
Lemma py_slice_split {A} (l : list A) (k : Z) :
  (py_slice l (Some 0) (Some k) ++ py_slice l (Some k) None)%list = l.
Proof. rewrite py_slice_prefix, py_slice_suffix. apply take_drop. Qed.

Lemma events_num_ok (rand_tys : list nat) (n : nat) (train_num : option Z) :
  match train_num with Some k => k <= Z.of_nat n | None => True end ->
  events_num rand_tys n true train_num =
    Ok (py_slice rand_tys (Some 0) (Some (split_point n train_num))) /\
  events_num rand_tys n false train_num =
    Ok (py_slice rand_tys (Some (split_point n train_num)) None).
Proof.
  unfold events_num. destruct train_num as [k |]; simpl; intros H.
  - destruct (Z.leb_spec k (Z.of_nat n)); [| lia]. simpl. auto.
  - auto.
Qed.

Lemma default_split_floor (n : nat) : default_split n = Z.of_nat n * 3 / 4.
Proof. unfold default_split. apply Z.quot_div_nonneg; lia. Qed.

Lemma events_num_sublist (rand_tys : list nat) (n : nat) (train : bool)
    (train_num : option Z) (ev : list nat) :
  events_num rand_tys n train train_num = Ok ev -> sublist ev rand_tys.
Proof.
  unfold events_num.
  destruct train, train_num as [k |]; simpl;
    try destruct (k <=? Z.of_nat n); simpl; intros H; inversion H; subst;
    rewrite ?py_slice_prefix, ?py_slice_suffix;
    first [apply sublist_take | apply sublist_drop].
Qed.

Lemma index_at_ok (tys : list TyRow) (ps : list nat) :
  (forall p, In p ps -> (p < length tys)%nat) ->
  index_at tys ps = Ok (map (label_at tys) ps).
Proof.
  unfold index_at. induction ps as [| p ps IH]; simpl; intros H; [reflexivity |].
  destruct (lookup_lt_is_Some_2 tys p (H p (or_introl eq_refl))) as [r Hr].
  unfold label_at at 1. rewrite Hr. simpl. rewrite IH by auto. reflexivity.
Qed.

Lemma index_at_inv (tys : list TyRow) (ps : list nat) (ls : list string) :
  index_at tys ps = Ok ls ->
  ls = map (label_at tys) ps /\ forall p, In p ps -> (p < length tys)%nat.
Proof.
  unfold index_at. revert ls. induction ps as [| p ps IH]; simpl; intros ls H.
  - inversion H. split; [reflexivity | contradiction].
  - destruct (tys !! p) as [r |] eqn:Hr; simpl in H; [| discriminate].
    match type of H with
    | bind ?m _ = _ => destruct m as [ls' |] eqn:Hrest; simpl in H; [| discriminate]
    end.
    inversion H; subst. destruct (IH _ eq_refl) as [-> Hlt].
    split.
    + unfold label_at at 2. now rewrite Hr.
    + intros q [-> | Hq]; [eapply lookup_lt_Some, Hr | auto].
Qed.

Lemma label_at_seq (tys : list TyRow) :
  map (label_at tys) (seq 0 (length tys)) = map en_name tys.
Proof.
  induction tys as [| r tys IH] using rev_ind; [reflexivity |].
  rewrite length_app. simpl. rewrite Nat.add_1_r, seq_S, !map_app. simpl.
  f_equal.
  - rewrite <- IH. apply map_ext_in. intros p Hp. apply in_seq in Hp.
    unfold label_at. rewrite lookup_app_l by lia. reflexivity.
  - unfold label_at. rewrite list_lookup_middle by reflexivity. reflexivity.
Qed.

(** Distinct positions whose labels all resolve carry distinct labels. *)
Lemma labels_NoDup (tys : list TyRow) (ps : list nat) :
  NoDup ps -> (forall p, In p ps -> (p < length tys)%nat) ->
  (forall p, In p ps -> exists r, ty_loc tys (label_at tys p) = Ok r) ->
  NoDup (map (label_at tys) ps).
Proof.
  induction 1 as [| p ps Hp Hnd IH]; simpl; intros Hlt Hres; constructor.
  - intros Hin. apply list_elem_of_In, in_map_iff in Hin as (q & Hq & Hqin).
    apply Hp. apply list_elem_of_In.
    destruct (Hres p (or_introl eq_refl)) as [r Hr].
    destruct (lookup_lt_is_Some_2 tys p (Hlt p (or_introl eq_refl))) as [x Hx].
    destruct (lookup_lt_is_Some_2 tys q (Hlt q (or_intror Hqin))) as [y Hy].
    assert (p = q); [| subst; exact Hqin].
    eapply (df_loc_position en_name tys _ _ r x y p q Hr Hx); [| exact Hy |].
    + unfold label_at. now rewrite Hx.
    + rewrite <- Hq. unfold label_at. now rewrite Hy.
  - apply IH; auto.
Qed.

Lemma Forall2_In_left {A B} (P : A -> B -> Prop) (l : list A) (k : list B) (x : A) :
  Forall2 P l k -> In x l -> exists y, In y k /\ P x y.
Proof.
  induction 1 as [| a b l k Hab _ IH]; simpl; [contradiction |].
  intros [-> | Hx]; [eauto |]. destruct (IH Hx) as (y & Hy & Hp). eauto.
Qed.

Lemma Forall2_In_right {A B} (P : A -> B -> Prop) (l : list A) (k : list B) (y : B) :
  Forall2 P l k -> In y k -> exists x, In x l /\ P x y.
Proof.
  induction 1 as [| a b l k Hab _ IH]; simpl; [contradiction |].
  intros [-> | Hy]; [eauto |]. destruct (IH Hy) as (x & Hx & Hp). eauto.
Qed.

Lemma NoDup_map_In_inj {A B} (f : A -> B) (l : list A) (x y : A) :
  NoDup (map f l) -> In x l -> In y l -> f x = f y -> x = y.
Proof.
  induction l as [| h l IH]; simpl; [contradiction |].
  intros Hnd Hx Hy Hf. inversion Hnd as [| ? ? Hnotin Hnd']; subst.
  destruct Hx as [-> | Hx], Hy as [-> | Hy]; auto.
  - exfalso. apply Hnotin. rewrite Hf. apply list_elem_of_In, in_map, Hy.
  - exfalso. apply Hnotin. rewrite <- Hf. apply list_elem_of_In, in_map, Hx.
Qed.

(** ** Construction of the dataset *)

Section Construction.

Context {px : Type} (E : Ext px).

Lemma resolved_events (tys : list TyRow) (labels : list string) (evs : list TyRow) :
  Forall2 (fun i r => ty_loc tys i = Ok r) labels evs ->
  map en_name evs = labels /\
  omap (fun i => List.find (fun r => String.eqb (en_name r) i) tys) labels = evs.
Proof.
  induction 1 as [| i r labels evs Hi _ [IH1 IH2]]; [split; reflexivity |].
  destruct (df_loc_In _ _ _ _ _ Hi) as [_ Hl].
  split; simpl.
  - now rewrite Hl, IH1.
  - rewrite (df_loc_find _ _ _ _ _ Hi). f_equal. exact IH2.
Qed.

Lemma seeded_NoDup (n : nat) : well_seeded E -> NoDup (choice E n).
Proof.
  intros H. rewrite (H n). apply NoDup_seq.
Qed.

Lemma seeded_lt (n p : nat) : well_seeded E -> In p (choice E n) -> (p < n)%nat.
Proof.
  intros H Hp. eapply Permutation_in in Hp; [| apply H].
  apply in_seq in Hp. lia.
Qed.

(** What a successful construction has built. *)
Lemma init_inv (a : Args E) (train : bool) (train_num : option Z)
    (tr : option (Transform px)) (ds : TyDataset E) :
  well_seeded E ->
  TyDataset_init E a train train_num tr = Ok ds ->
  exists tys ev evs,
    read_ty_list E (ty_list E a) = Ok tys /\
    events_num (choice E (length tys)) (length tys) train train_num = Ok ev /\
    Forall2 (fun i r => ty_loc tys i = Ok r) (map (label_at tys) ev) evs /\
    NoDup (map (label_at tys) ev) /\
    ds = {| args := a; self_ty_list := tys; transform := tr;
            events_list := map (label_at tys) ev;
            idx_df := rows_from (input_frames E a) (target_frames E a) evs 0;
            total_frames :=
              final_total (input_frames E a) (target_frames E a) evs 0 None;
            sample := None |}.
Proof.
  intros Hseed H. unfold TyDataset_init in H.
  destruct (read_ty_list E (ty_list E a)) as [tys |] eqn:Hread; simpl in H; [| discriminate].
  destruct (events_num _ _ train train_num) as [ev |] eqn:Hev; simpl in H; [| discriminate].
  destruct (index_at tys ev) as [evl |] eqn:Hat; simpl in H; [| discriminate].
  destruct (index_at_inv _ _ _ Hat) as [-> Hlt].
  destruct (index_loop _ _ _ _ _ _) as [out |] eqn:Hloop; simpl in H; [| discriminate].
  destruct (index_loop_inv _ _ _ _ _ _ _ Hloop) as [evs Hevs].
  rewrite (index_loop_spec _ _ _ _ _ _ _ Hevs) in Hloop.
  injection Hloop as <-. simpl in H. injection H as <-.
  exists tys, ev, evs. repeat split; auto.
  apply labels_NoDup; [| exact Hlt |].
  - eapply sublist_NoDup; [| eapply events_num_sublist, Hev].
    now apply seeded_NoDup.
  - intros p Hp.
    destruct (Forall2_In_left _ _ _ (label_at tys p) Hevs) as (r & _ & Hr); eauto.
    now apply in_map.
Qed.

Lemma positions_resolve (tys : list TyRow) (ps : list nat) :
  NoDup (map en_name tys) ->
  (forall p, In p ps -> (p < length tys)%nat) ->
  exists evs, Forall2 (fun i r => ty_loc tys i = Ok r) (map (label_at tys) ps) evs.
Proof.
  intros Hnd. induction ps as [| p ps IH]; intros Hlt.
  - exists []. constructor.
  - destruct IH as [evs Hevs]; [intros q Hq; apply Hlt; simpl; auto |].
    destruct (lookup_lt_is_Some_2 tys p (Hlt p (or_introl eq_refl))) as [r Hr].
    exists (r :: evs). constructor; [| exact Hevs].
    unfold label_at. rewrite Hr. apply df_loc_NoDup; [exact Hnd |].
    eapply list_elem_of_In, list_elem_of_lookup_2, Hr.
Qed.

(** A typhoon list keyed by distinct names and a count within range: the
    construction succeeds, whatever the times of the events. *)
Lemma init_ok (a : Args E) (train : bool) (train_num : option Z)
    (tr : option (Transform px)) (tys : list TyRow) :
  well_seeded E ->
  read_ty_list E (ty_list E a) = Ok tys ->
  NoDup (map en_name tys) ->
  match train_num with Some k => k <= Z.of_nat (length tys) | None => True end ->
  exists ds, TyDataset_init E a train train_num tr = Ok ds.
Proof.
  intros Hseed Hread Hnd Hk. unfold TyDataset_init. rewrite Hread. simpl.
  destruct (events_num_ok (choice E (length tys)) (length tys) train_num Hk) as [Ht Hf].
  assert (Hev : exists ev, events_num (choice E (length tys)) (length tys) train train_num = Ok ev)
    by (destruct train; eauto).
  destruct Hev as [ev Hev]. rewrite Hev. simpl.
  assert (Hlt : forall p, In p ev -> (p < length tys)%nat).
  { intros p Hp. apply seeded_lt; [exact Hseed |].
    apply list_elem_of_In. eapply elem_of_sublist; [| eapply events_num_sublist, Hev].
    now apply list_elem_of_In. }
  rewrite (index_at_ok _ _ Hlt). simpl.
  destruct (positions_resolve tys ev Hnd Hlt) as [evs Hevs].
  rewrite (index_loop_spec _ _ _ _ _ _ _ Hevs). simpl. eauto.
Qed.

Lemma resolve_first_row (ds : TyDataset E) (t idx : Z) :
  NoDup (map typhoon (idx_df E ds)) -> total_frames E ds = Some t -> idx < t ->
  resolve E ds idx =
    Ok (option_map (fun r => (typhoon r, idx - starting_idx r))
                   (first_row idx (idx_df E ds))).
Proof.
  intros Hnd Ht Hidx. unfold resolve, TyDataset_len. rewrite Ht. simpl.
  destruct (Z.ltb_spec idx t); [| lia]. simpl.
  apply scan_first_row; auto.
Qed.

Lemma resolve_out_of_range (ds : TyDataset E) (t idx : Z) :
  total_frames E ds = Some t -> t <= idx ->
  resolve E ds idx = Raise (AssertionError msg_index).
Proof.
  intros Ht Hidx. unfold resolve, TyDataset_len. rewrite Ht. simpl.
  destruct (Z.ltb_spec idx t); [lia | reflexivity].
Qed.

End Construction.

(** ** The index table and the resolution of indices *)

Section IndexTable.

Context {px : Type} (E : Ext px).

(** The table of a constructed dataset in terms of its selected events. *)
Lemma constructed_table (a : Args E) (train : bool) (train_num : option Z)
    (tr : option (Transform px)) (ds : TyDataset E) :
  well_seeded E ->
  TyDataset_init E a train train_num tr = Ok ds ->
  args E ds = a /\
  idx_df E ds =
    rows_from (input_frames E a) (target_frames E a) (selected_events ds) 0 /\
  total_frames E ds =
    final_total (input_frames E a) (target_frames E a) (selected_events ds) 0 None /\
  map en_name (selected_events ds) = events_list E ds /\
  NoDup (events_list E ds) /\
  sample E ds = None.
Proof.
  intros Hseed H.
  destruct (init_inv E a train train_num tr ds Hseed H)
    as (tys & ev & evs & Hread & Hev & Hevs & Hnd & ->).
  destruct (resolved_events tys _ _ Hevs) as [Hnames Hsel].
  unfold selected_events. simpl. rewrite Hsel. repeat split; auto.
Qed.

Lemma total_samples_sum (ds : TyDataset E) :
  total_samples ds =
    sum_counts (input_frames E (args E ds)) (target_frames E (args E ds))
               (selected_events ds).
Proof. reflexivity. Qed.

(** C1.  In a dataset constructed from a selection whose window counts are
    all positive, the rows of the index table follow the selection order
    and cover [0, total_samples) one after the other without overlap;
    every index of that range resolves to one pair of an event and a valid
    local offset, and resolution is one-to-one from the range onto these
    pairs. *)
Theorem index_table_bijection (a : Args E) (train : bool) (train_num : option Z)
    (tr : option (Transform px)) (ds : TyDataset E) :
  well_seeded E ->
  TyDataset_init E a train train_num tr = Ok ds ->
  Forall (fun r => 0 < count_of ds r) (selected_events ds) ->
  map typhoon (idx_df E ds) = events_list E ds /\
  contiguous_from 0 (idx_df E ds) (total_samples ds) /\
  (forall idx, 0 <= idx < total_samples ds <->
     exists r, In r (idx_df E ds) /\ starting_idx r <= idx <= ending_idx r) /\
  (forall idx r1 r2, In r1 (idx_df E ds) -> In r2 (idx_df E ds) ->
     starting_idx r1 <= idx <= ending_idx r1 ->
     starting_idx r2 <= idx <= ending_idx r2 -> r1 = r2) /\
  (events_list E ds <> [] -> total_frames E ds = Some (total_samples ds)) /\
  (forall idx, 0 <= idx < total_samples ds ->
     exists p, resolve E ds idx = Ok (Some p) /\ valid_pair ds p) /\
  (forall idx1 idx2 p, 0 <= idx1 < total_samples ds -> 0 <= idx2 < total_samples ds ->
     resolve E ds idx1 = Ok (Some p) -> resolve E ds idx2 = Ok (Some p) ->
     idx1 = idx2) /\
  (forall p, valid_pair ds p ->
     exists idx, 0 <= idx < total_samples ds /\ resolve E ds idx = Ok (Some p)).
Proof.
  intros Hseed Hinit Hpos.
  destruct (constructed_table a train train_num tr ds Hseed Hinit)
    as (Hargs & Hdf & Htot & Hnames & Hnd & _).
  unfold count_of in Hpos. rewrite total_samples_sum. rewrite Hargs in *.
  set (inf := input_frames E a) in *. set (tf := target_frames E a) in *.
  set (evs := selected_events ds) in *.
  set (total := sum_counts inf tf evs).
  assert (Hlab : map typhoon (idx_df E ds) = events_list E ds)
    by (rewrite Hdf, rows_from_typhoon; exact Hnames).
  assert (Hcont : contiguous_from 0 (idx_df E ds) total)
    by (rewrite Hdf; apply (rows_from_contiguous inf tf evs 0 Hpos)).
  assert (Hndf : NoDup (map typhoon (idx_df E ds))) by (rewrite Hlab; exact Hnd).
  assert (Hrows : Forall2 (fun row r => typhoon row = en_name r /\
                            row_count row = window_count inf tf r /\
                            starting_time row = time_of_issuing r)
                          (idx_df E ds) evs)
    by (rewrite Hdf; apply rows_from_counts).
  assert (Htotal : forall idx, 0 <= idx < total -> total_frames E ds = Some total).
  { intros idx Hidx. rewrite Htot. unfold final_total. fold evs.
    destruct evs; [unfold total, sum_counts in Hidx; simpl in Hidx; lia | reflexivity]. }
  assert (Hres : forall idx, 0 <= idx < total ->
            exists r, In r (idx_df E ds) /\ starting_idx r <= idx <= ending_idx r /\
                      resolve E ds idx = Ok (Some (typhoon r, idx - starting_idx r))).
  { intros idx Hidx.
    destruct (first_row_contiguous 0 total idx _ Hcont Hidx) as (r & Hf & Hin & Hr).
    exists r. split; [exact Hin |]. split; [exact Hr |].
    rewrite (resolve_first_row E ds total idx Hndf (Htotal idx Hidx)) by lia.
    now rewrite Hf. }
  split; [exact Hlab |]. split; [exact Hcont |]. split; [| split; [| split]].
  - intros idx. split.
    + intros Hidx. destruct (Hres idx Hidx) as (r & Hin & Hr & _). eauto.
    + intros (r & Hin & Hr).
      destruct (contiguous_bounds _ _ _ Hcont) as [_ Hall].
      specialize (Hall r Hin). lia.
  - intros idx r1 r2 H1 H2 Hr1 Hr2.
    pose proof (first_row_containing 0 total idx _ r1 Hcont H1 Hr1) as F1.
    pose proof (first_row_containing 0 total idx _ r2 Hcont H2 Hr2) as F2.
    congruence.
  - intros Hne. rewrite Htot. unfold final_total. fold evs.
    destruct evs; [| reflexivity]. simpl in Hnames. congruence.
  - split; [| split].
    + intros idx Hidx. destruct (Hres idx Hidx) as (r & Hin & Hr & Hresolve).
      exists (typhoon r, idx - starting_idx r). split; [exact Hresolve |].
      destruct (Forall2_In_left _ _ _ r Hrows Hin) as (ev & Hev & Hn & Hc & _).
      exists ev. unfold count_of. rewrite Hargs. fold inf tf. simpl.
      split; [exact Hev |]. split; [now symmetry |].
      unfold row_count in Hc. lia.
    + intros idx1 idx2 p H1 H2 R1 R2.
      destruct (Hres idx1 H1) as (r1 & Hin1 & Hr1 & Q1).
      destruct (Hres idx2 H2) as (r2 & Hin2 & Hr2 & Q2).
      rewrite Q1 in R1. rewrite Q2 in R2. rewrite <- R2 in R1.
      injection R1 as Hty Hoff.
      assert (r1 = r2) by (eapply NoDup_map_In_inj; eauto).
      subst r2. lia.
    + intros [i o] (ev & Hev & Hn & Ho). simpl in Hn, Ho.
      unfold count_of in Ho. rewrite Hargs in Ho. fold inf tf in Ho.
      destruct (Forall2_In_right _ _ _ ev Hrows Hev) as (r & Hin & Hty & Hc & _).
      destruct (contiguous_bounds _ _ _ Hcont) as [_ Hall].
      specialize (Hall r Hin). unfold row_count in Hc.
      exists (starting_idx r + o). split; [lia |].
      assert (Hidx : 0 <= starting_idx r + o < total) by lia.
      rewrite (resolve_first_row E ds total _ Hndf (Htotal _ Hidx)) by lia.
      rewrite (first_row_containing 0 total _ _ r Hcont Hin) by lia.
      simpl. do 3 f_equal; [congruence | lia].
Qed.

End IndexTable.

(** ** Concrete runs *)

Lemma world_well_seeded (tys : list TyRow) : well_seeded (world tys).
Proof. intros n. reflexivity. Qed.

Lemma dataset_AB_constructed (grid : bool) : demo_dataset grid = Ok (dataset_AB grid).
Proof. destruct grid; vm_compute; reflexivity. Qed.

Lemma dataset_short_constructed :
  TyDataset_init world_short (demo_args [event_short] false 100 0) true (Some 1) None
  = Ok dataset_short.
Proof. vm_compute. reflexivity. Qed.

Lemma index_table_bijection_witness :
  well_seeded world_AB /\
  demo_dataset true = Ok (dataset_AB true) /\
  Forall (fun r => 0 < count_of (dataset_AB true) r) (selected_events (dataset_AB true)) /\
  contiguous_from 0 (idx_df world_AB (dataset_AB true)) (total_samples (dataset_AB true)) /\
  forall idx, 0 <= idx < total_samples (dataset_AB true) ->
    exists p, resolve world_AB (dataset_AB true) idx = Ok (Some p) /\
              valid_pair (dataset_AB true) p.
Proof.
  assert (Hpos : Forall (fun r => 0 < count_of (dataset_AB true) r)
                        (selected_events (dataset_AB true)))
    by (repeat constructor).
  split; [apply world_well_seeded |]. split; [apply dataset_AB_constructed |].
  split; [exact Hpos |].
  pose proof (index_table_bijection world_AB _ true (Some 2) None (dataset_AB true)
                (world_well_seeded _) (dataset_AB_constructed true) Hpos) as H.
  split; [apply H | apply H].
Defined.

(** ** The window count *)

(** C2, as stated, fails for an event too short for the window: for the
    event cancelled 35 minutes after its issue and a window of five frames
    the code counts one window, [int] truncating -0.5 to 0, where the floor
    formula gives none. *)
Lemma window_count_35min_not_floor :
  window_count 3 2 event_35min = 1 /\
  (time_of_canceling event_35min - (3 + 2 - 1) * step
     - time_of_issuing event_35min) / step + 1 = 0 /\
  window_count 3 2 event_35min <>
  (time_of_canceling event_35min - (3 + 2 - 1) * step
     - time_of_issuing event_35min) / step + 1.
Proof. repeat split; vm_compute; congruence. Qed.

Lemma window_count_spanning (input_frames target_frames : Z) (r : TyRow) (m : Z) :
  time_of_canceling r = time_of_issuing r + timedelta_minutes m ->
  (input_frames + target_frames - 1) * 10 <= m ->
  window_count input_frames target_frames r =
    (m - (input_frames + target_frames - 1) * 10) / 10 + 1.
Proof.
  intros Hc Hm. unfold window_count, frame_end. rewrite Hc.
  rewrite int_frames_nonneg by (unfold timedelta_minutes, ns_per_second; nia).
  f_equal. unfold step, timedelta_minutes, ns_per_second.
  set (k := (input_frames + target_frames - 1) * 10) in *.
  replace (time_of_issuing r + m * 60 * 1000000000 - k * 60 * 1000000000
           - time_of_issuing r) with ((m - k) * (60 * 1000000000)) by lia.
  replace (10 * 60 * 1000000000) with (10 * (60 * 1000000000)) by lia.
  apply Z.div_mul_cancel_r; lia.
Qed.

(** C2 (amended).  For an event whose adjusted cancel time is not earlier
    than its issue time, the window count computed at construction is
    [floor((c - (L-1)*step - s) / step) + 1].  With three input and two
    target frames an event of two hours has 9 windows and one of one hour
    has 3; for events A and B the total is 12, index 9 resolves to B at
    offset 0 and index 11 to B at offset 2. *)
Theorem window_count_floor (input_frames target_frames : Z) (r : TyRow) :
  time_of_issuing r <=
    time_of_canceling r - (input_frames + target_frames - 1) * step ->
  window_count input_frames target_frames r =
    (time_of_canceling r - (input_frames + target_frames - 1) * step
       - time_of_issuing r) / step + 1 /\
  (forall e, time_of_canceling e = time_of_issuing e + timedelta_minutes 120 ->
             window_count 3 2 e = 9) /\
  (forall e, time_of_canceling e = time_of_issuing e + timedelta_minutes 60 ->
             window_count 3 2 e = 3) /\
  demo_dataset true = Ok (dataset_AB true) /\
  map row_count (idx_df world_AB (dataset_AB true)) = [9; 3] /\
  total_samples (dataset_AB true) = 12 /\
  TyDataset_len world_AB (dataset_AB true) = Ok 12 /\
  resolve world_AB (dataset_AB true) 9 = Ok (Some ("B", 0)) /\
  resolve world_AB (dataset_AB true) 11 = Ok (Some ("B", 2)).
Proof.
  intros H. split; [| split; [| split; [| split]]].
  - unfold window_count, frame_end.
    replace (timedelta_minutes ((input_frames + target_frames - 1) * 10))
      with ((input_frames + target_frames - 1) * step)
      by (unfold step, timedelta_minutes; lia).
    rewrite int_frames_nonneg by lia. reflexivity.
  - intros e He. now rewrite (window_count_spanning 3 2 e 120 He).
  - intros e He. now rewrite (window_count_spanning 3 2 e 60 He).
  - apply dataset_AB_constructed.
  - repeat split; vm_compute; reflexivity.
Qed.

Lemma window_count_floor_witness :
  time_of_issuing event_A <= time_of_canceling event_A - (3 + 2 - 1) * step /\
  window_count 3 2 event_A =
    (time_of_canceling event_A - (3 + 2 - 1) * step - time_of_issuing event_A) / step + 1.
Proof.
  assert (H : time_of_issuing event_A <=
              time_of_canceling event_A - (3 + 2 - 1) * step)
    by (vm_compute; discriminate).
  split; [exact H | exact (proj1 (window_count_floor 3 2 event_A H))].
Defined.

(** ** Events too short for the window *)




(** ** The train/test split *)

(** C5.  For a population of [n] events and a count that is absent (the
    default cut at three quarters) or not above [n], the positions selected
    for training and for testing cut the seeded permutation in two: no
    position is in both, every position is in one of them, and so for the
    names selected ([self.events_list] of the two datasets); the positions
    depend on the population through its size only. *)
Theorem split_is_partition {px : Type} (E : Ext px) (tys : list TyRow)
    (train_num : option Z) :
  well_seeded E ->
  match train_num with Some k => k <= Z.of_nat (length tys) | None => True end ->
  exists (tr te : list nat) (ltr lte : list string),
    events_num (choice E (length tys)) (length tys) true train_num = Ok tr /\
    events_num (choice E (length tys)) (length tys) false train_num = Ok te /\
    Permutation (tr ++ te)%list (seq 0 (length tys)) /\
    (forall p, In p tr -> In p te -> False) /\
    (forall p, (p < length tys)%nat <-> In p tr \/ In p te) /\
    (train_num = None ->
     tr = take (Z.to_nat (Z.of_nat (length tys) * 3 / 4)) (choice E (length tys))) /\
    index_at tys tr = Ok ltr /\ index_at tys te = Ok lte /\
    Permutation (ltr ++ lte)%list (map en_name tys) /\
    (NoDup (map en_name tys) -> forall i, In i ltr -> In i lte -> False) /\
    (forall (a : Args E) (t : option (Transform px)) (train : bool) (ds : TyDataset E),
        read_ty_list E (ty_list E a) = Ok tys ->
        TyDataset_init E a train train_num t = Ok ds ->
        events_list E ds = if train then ltr else lte) /\
    (forall (tys' : list TyRow) (train : bool),
        length tys' = length tys ->
        events_num (choice E (length tys')) (length tys') train train_num =
        events_num (choice E (length tys)) (length tys) train train_num).
Proof.
  intros Hseed Hk. set (n := length tys).
  destruct (events_num_ok (choice E n) n train_num Hk) as [Htr Hte].
  set (tr := py_slice (choice E n) (Some 0) (Some (split_point n train_num))) in *.
  set (te := py_slice (choice E n) (Some (split_point n train_num)) None) in *.
  assert (Happ : (tr ++ te)%list = choice E n) by apply py_slice_split.
  assert (Hperm : Permutation (tr ++ te)%list (seq 0 n)) by (rewrite Happ; apply Hseed).
  assert (Hnd : NoDup (tr ++ te)%list) by (rewrite Hperm; apply NoDup_seq).
  assert (Hlt : forall p, In p (tr ++ te)%list -> (p < n)%nat).
  { intros p Hp. eapply Permutation_in in Hp; [| exact Hperm].
    apply in_seq in Hp. lia. }
  assert (Hat : forall ps, (forall p, In p ps -> In p (tr ++ te)%list) ->
                           index_at tys ps = Ok (map (label_at tys) ps)).
  { intros ps Hps. apply index_at_ok. intros p Hp. apply Hlt, Hps, Hp. }
  assert (Hnames : Permutation (map (label_at tys) tr ++ map (label_at tys) te)%list
                               (map en_name tys)).
  { rewrite <- map_app, <- label_at_seq. apply Permutation_map. exact Hperm. }
  exists tr, te, (map (label_at tys) tr), (map (label_at tys) te).
  split; [exact Htr |]. split; [exact Hte |]. split; [exact Hperm |].
  split; [| split; [| split; [| split; [| split; [| split; [| split; [| split]]]]]]].
  - intros p H1 H2. apply NoDup_app in Hnd as (_ & Hdisj & _).
    apply (Hdisj p); now apply list_elem_of_In.
  - intros p. rewrite <- in_app_iff. split.
    + intros Hp. eapply Permutation_in; [symmetry; exact Hperm |].
      apply in_seq. lia.
    + apply Hlt.
  - intros ->. unfold tr. rewrite py_slice_prefix. simpl.
    rewrite default_split_floor. f_equal.
    assert (Hlen : length (choice E n) = n)
      by (rewrite (Permutation_length (Hseed n)); apply length_seq).
    rewrite Hlen. unfold py_bound.
    destruct (Z.ltb_spec (Z.of_nat n * 3 / 4) 0) as [Hneg | _].
    + exfalso. assert (0 <= Z.of_nat n * 3 / 4) by (apply Z.div_pos; lia). lia.
    + f_equal. apply Z.min_l. apply Z.div_le_upper_bound; lia.
  - apply Hat. intros p Hp. apply in_app_iff. auto.
  - apply Hat. intros p Hp. apply in_app_iff. auto.
  - exact Hnames.
  - intros Hn i H1 H2. rewrite <- Hnames in Hn.
    apply NoDup_app in Hn as (_ & Hdisj & _).
    apply (Hdisj i); now apply list_elem_of_In.
  - intros a t train ds Hread Hinit.
    destruct (init_inv E a train train_num t ds Hseed Hinit)
      as (tys' & ev & evs & Hread' & Hev & _ & _ & ->).
    rewrite Hread in Hread'. injection Hread' as <-. simpl.
    fold n in Hev. destruct train; congruence.
  - intros tys' train Hlen. now rewrite Hlen.
Qed.

Lemma split_is_partition_witness :
  exists tr te ltr lte,
    events_num (choice world_AB 2) 2 true (Some 1) = Ok tr /\
    events_num (choice world_AB 2) 2 false (Some 1) = Ok te /\
    Permutation (tr ++ te)%list (seq 0 2) /\
    index_at [event_A; event_B] tr = Ok ltr /\
    index_at [event_A; event_B] te = Ok lte /\
    Permutation (ltr ++ lte)%list ["A"; "B"].
Proof.
  destruct (split_is_partition world_AB [event_A; event_B] (Some 1))
    as (tr & te & ltr & lte & H1 & H2 & H3 & _ & _ & _ & H4 & H5 & H6 & _).
  - apply world_well_seeded.
  - simpl. lia.
  - exists tr, te, ltr, lte. repeat split; assumption.
Defined.

(** ** Indices outside the range *)

Lemma sum_counts_nonneg (inf tf : Z) (evs : list TyRow) :
  Forall (fun r => 0 < window_count inf tf r) evs -> 0 <= sum_counts inf tf evs.
Proof.
  unfold sum_counts. induction 1 as [| r evs Hr _ IH]; simpl; lia.
Qed.

(** C3, evaluated.  In a constructed dataset with a non-empty selection of
    events with positive counts, every index at or above [total_samples]
    fails the assertion of line 97, but a negative index passes it: the
    scan stops at the first event and yields the negative index as local
    offset.  In the world of events A and B, [__getitem__(-1)] returns a
    sample. *)
Theorem negative_index_is_resolved {px : Type} (E : Ext px) (a : Args E)
    (train : bool) (train_num : option Z) (tr : option (Transform px))
    (ds : TyDataset E) :
  well_seeded E ->
  TyDataset_init E a train train_num tr = Ok ds ->
  Forall (fun r => 0 < count_of ds r) (selected_events ds) ->
  events_list E ds <> [] ->
  (forall idx, total_samples ds <= idx ->
     resolve E ds idx = Raise (AssertionError msg_index)) /\
  (forall idx, idx < 0 ->
     exists i rest, events_list E ds = i :: rest /\
                    resolve E ds idx = Ok (Some (i, idx))) /\
  (exists s, TyDataset_getitem fexpr_ops world_AB (dataset_AB false) (-1) =
             (Ok (Some s), set_sample world_AB (dataset_AB false) (Some s))).
Proof.
  intros Hseed Hinit Hpos Hne.
  destruct (constructed_table E a train train_num tr ds Hseed Hinit)
    as (Hargs & Hdf & Htot & Hnames & Hnd & _).
  unfold count_of in Hpos. rewrite total_samples_sum. rewrite Hargs in *.
  set (inf := input_frames E a) in *. set (tf := target_frames E a) in *.
  destruct (selected_events ds) as [| r evs] eqn:Hevs;
    [simpl in Hnames; congruence |].
  assert (Ht : total_frames E ds = Some (sum_counts inf tf (r :: evs)))
    by (rewrite Htot; reflexivity).
  split; [| split].
  - intros idx Hidx. eapply resolve_out_of_range; [exact Ht | lia].
  - intros idx Hidx. exists (en_name r), (map en_name evs).
    split; [now rewrite <- Hnames |].
    pose proof (sum_counts_nonneg inf tf _ Hpos) as Hsum.
    rewrite (resolve_first_row E ds (sum_counts inf tf (r :: evs)) idx);
      [| rewrite Hdf, rows_from_typhoon, Hnames; exact Hnd | exact Ht | lia].
    rewrite Hdf. unfold first_row. simpl.
    inversion Hpos as [| ? ? Hr _]; subst.
    destruct (Z.gtb_spec idx (0 + window_count inf tf r - 1)); [lia |].
    simpl. do 3 f_equal. lia.
  - eexists. vm_compute. reflexivity.
Qed.

Lemma negative_index_is_resolved_witness :
  resolve world_AB (dataset_AB false) 12 = Raise (AssertionError msg_index) /\
  exists i rest, events_list world_AB (dataset_AB false) = i :: rest /\
                 resolve world_AB (dataset_AB false) (-1) = Ok (Some (i, -1)).
Proof.
  destruct (negative_index_is_resolved world_AB (demo_args [event_A; event_B] false 100 0)
              true (Some 2) None (dataset_AB false))
    as (Hhi & Hlo & _).
  - apply world_well_seeded.
  - apply dataset_AB_constructed.
  - repeat constructor.
  - discriminate.
  - split; [apply Hhi; vm_compute; discriminate | apply Hlo; reflexivity].
Defined.

(** ** The sample kept on the dataset object *)

(** C9, as stated, fails: after [__getitem__(0)] on the dataset of events
    A and B, whose [sample] attribute was unset, the attribute holds the
    sample that was returned. *)
Lemma getitem_leaves_sample_on_dataset :
  sample world_AB (dataset_AB false) = None /\
  exists s, fst (TyDataset_getitem fexpr_ops world_AB (dataset_AB false) 0) = Ok (Some s) /\
            sample world_AB (snd (TyDataset_getitem fexpr_ops world_AB (dataset_AB false) 0))
            = Some s.
Proof. split; [reflexivity |]. eexists. split; vm_compute; reflexivity. Qed.

(** C9 (amended).  A call of [__getitem__] that returns a sample writes
    one attribute of the dataset object, [sample], and leaves the returned
    sample in it; every other attribute is as before (there is no terrain
    cache). *)
Theorem getitem_keeps_sample {px : Type} (F : FloatOps px) (E : Ext px)
    (ds ds' : TyDataset E) (idx : Z) (s : Sample px) :
  TyDataset_getitem F E ds idx = (Ok (Some s), ds') ->
  sample E ds' = Some s /\ ds' = set_sample E ds (Some s).
Proof.
  unfold TyDataset_getitem. intros H.
  destruct (resolve E ds idx) as [[[i tmp_idx] |] |]; try discriminate.
  destruct (assemble F E ds i tmp_idx) as [s0 |]; [| discriminate].
  destruct (transform E ds) as [t |].
  - destruct (t s0) as [[s1 | e] s2]; [| discriminate].
    injection H as <- <-. split; reflexivity.
  - injection H as <- <-. split; reflexivity.
Qed.

Lemma getitem_keeps_sample_witness :
  exists s ds',
    TyDataset_getitem fexpr_ops world_AB (dataset_AB false) 0 = (Ok (Some s), ds') /\
    sample world_AB ds' = Some s.
Proof.
  eexists _, _. split.
  - vm_compute. reflexivity.
  - eapply (getitem_keeps_sample fexpr_ops world_AB (dataset_AB false) _ 0 _).
    vm_compute. reflexivity.
Defined.

(** ** Normalisation with a degenerate range *)

(** C8, as stated, fails: with [max_RAD = min_RAD = 7] the call does not
    stop at the statistics.  It divides by [7 - 7] and stores the quotient
    into the inputs and the radar map of the caller's sample; the exception
    it ends in is the [NameError] of line 249, not a rejection of the
    statistics. *)
Lemma normalize_degenerate_range_divides :
  subscript (world []) (max_values _ (nargs _ normalize_degenerate)) "RAD" = Ok (Lit 7) /\
  subscript (world []) (min_values _ (nargs _ normalize_degenerate)) "RAD" = Ok (Lit 7) /\
  fst (Normalize_call fexpr_ops (world []) normalize_degenerate one_cell_sample)
    = Raise (NameError "height") /\
  inputs (snd (Normalize_call fexpr_ops (world []) normalize_degenerate one_cell_sample))
    = [[[[Div (Sub (Lit 25) (Lit 7)) (Sub (Lit 7) (Lit 7))]]]] /\
  radar_map (snd (Normalize_call fexpr_ops (world []) normalize_degenerate one_cell_sample))
    = [[[Div (Sub (Lit 25) (Lit 7)) (Sub (Lit 7) (Lit 7))]]].
Proof. repeat split. Qed.

Lemma normalize_divides_unchecked_witness :
  get_channel
    (inputs (snd (Normalize_call fexpr_ops (world []) normalize_degenerate one_cell_sample)))
    0
  = Ok [[[Div (Sub (Lit 25) (Lit 7)) (Sub (Lit 7) (Lit 7))]]].
Proof.
  exact (proj2 (normalize_divides_unchecked fexpr_ops (world []) normalize_degenerate
                  one_cell_sample)
               (Lit 7) (Lit 7) [[[Lit 25]]] eq_refl eq_refl eq_refl).
Defined.

(** ** The radar map *)

Section RadarMap.

Context {px : Type} (F : FloatOps px) (E : Ext px).

Lemma broadcast_row_fits (w : Z) (r r' : list px) :
  length r = Z.to_nat w -> broadcast_row w r = Ok r' -> r' = r.
Proof.
  unfold broadcast_row. intros Hl.
  destruct (Z.eqb_spec (Z.of_nat (length r)) w) as [_ | Hne].
  - now inversion 1.
  - destruct r as [| x [| y r]]; try discriminate.
    simpl in Hl. exfalso. apply Hne. simpl. lia.
Qed.

Lemma broadcast_rows_fit (w : Z) (g rows : Grid px) :
  (forall r, In r g -> length r = Z.to_nat w) ->
  mapM (broadcast_row w) g = Ok rows -> rows = g.
Proof.
  revert rows. induction g as [| r g IH]; simpl; intros rows Hg H.
  - now inversion H.
  - destruct (broadcast_row w r) as [r' |] eqn:Hr; simpl in H; [| discriminate].
    destruct (mapM (broadcast_row w) g) as [rows' |] eqn:Hrows; simpl in H; [| discriminate].
    inversion H; subst.
    rewrite (broadcast_row_fits w r r') by auto.
    rewrite (IH rows') by auto. reflexivity.
Qed.

(** A value that already has the shape of the slot is stored as it is. *)
Lemma broadcast2_fits (h w : Z) (g g' : Grid px) :
  (forall r, In r g -> length r = Z.to_nat w) -> length g = Z.to_nat h ->
  broadcast2 h w g = Ok g' -> g' = g.
Proof.
  intros Hrows Hlen. unfold broadcast2.
  destruct (mapM (broadcast_row w) g) as [rows |] eqn:Hm; simpl; [| discriminate].
  apply broadcast_rows_fit in Hm; [| exact Hrows]. subst rows.
  destruct (Z.eqb_spec (Z.of_nat (length g)) h) as [_ | Hne].
  - now inversion 1.
  - destruct g as [| r [| r' g]]; try discriminate.
    simpl in Hlen. exfalso. apply Hne. simpl. lia.
Qed.

Lemma py_range_length (n : Z) : length (py_range n) = Z.to_nat n.
Proof. unfold py_range. now rewrite length_map, length_seq. Qed.

Lemma meshgrid_shape (w h : Z) :
  let (gx, gy) := meshgrid F w h in
  ((forall r, In r gx -> length r = Z.to_nat w) /\ length gx = Z.to_nat h) /\
  ((forall r, In r gy -> length r = Z.to_nat w) /\ length gy = Z.to_nat h).
Proof.
  unfold meshgrid. repeat split.
  - intros r Hr. apply repeat_spec in Hr. subst.
    now rewrite length_map, py_range_length.
  - apply repeat_length.
  - intros r Hr. apply in_map_iff in Hr as (y & <- & _). apply repeat_length.
  - now rewrite length_map, py_range_length.
Qed.

Lemma set_slot_inv (a a' : list (Grid px)) (c h w : Z) (v : Grid px) :
  set_slot a c h w v = Ok a' ->
  exists v', broadcast2 h w v = Ok v' /\ a' = <[Z.to_nat c := v']> a /\
             (Z.to_nat c < length a)%nat.
Proof.
  unfold set_slot.
  destruct (Z.leb_spec 0 c); simpl; [| discriminate].
  destruct (Z.ltb_spec c (Z.of_nat (length a))); simpl; [| discriminate].
  destruct (broadcast2 h w v) as [v' |]; simpl; [| discriminate].
  inversion 1. exists v'. repeat split. lia.
Qed.

(** Lines 133-144 with grid channels: the first grid is stored over the
    radar field. *)
Lemma radar_map_of_grid (a : Args E) (r : IdxRow) (ty_name : string) (tmp_idx : Z)
    (rm0 rm : list (Grid px)) :
  input_with_grid E a = true ->
  radar_map_of F E a r ty_name tmp_idx rm0 = Ok rm ->
  rm !! 0%nat = Some (fst (meshgrid F (fst (O_shape E a)) (snd (O_shape E a)))) /\
  rm !! 1%nat = Some (snd (meshgrid F (fst (O_shape E a)) (snd (O_shape E a)))) /\
  forall c, (2 <= c)%nat -> rm !! c = rm0 !! c.
Proof.
  intros Hgrid H. unfold radar_map_of in H. rewrite Hgrid in H. cbv zeta in H.
  pose proof (meshgrid_shape (fst (O_shape E a)) (snd (O_shape E a))) as Hshape.
  destruct (meshgrid F (fst (O_shape E a)) (snd (O_shape E a))) as [gx gy].
  destruct Hshape as [[Hxr Hxl] [Hyr Hyl]].
  destruct (read_pickle E _ _) as [df |]; simpl in H; [| discriminate].
  match type of H with
  | bind ?m _ = _ => destruct m as [rm1 |] eqn:H1; simpl in H; [| discriminate]
  end.
  match type of H with
  | bind ?m _ = _ => destruct m as [rm2 |] eqn:H2; simpl in H; [| discriminate]
  end.
  match type of H with
  | bind ?m _ = _ => destruct m as [rm3 |] eqn:H3; simpl in H; [| discriminate]
  end.
  injection H as <-.
  apply set_slot_inv in H1 as (v1 & _ & -> & L1).
  apply set_slot_inv in H2 as (v2 & B2 & -> & L2).
  apply set_slot_inv in H3 as (v3 & B3 & -> & L3).
  apply broadcast2_fits in B2; [| assumption | assumption].
  apply broadcast2_fits in B3; [| assumption | assumption].
  subst v2 v3. simpl in *. rewrite !length_insert in *.
  split; [| split].
  - rewrite list_lookup_insert_ne by discriminate.
    now rewrite list_lookup_insert_eq by (rewrite length_insert; lia).
  - now rewrite list_lookup_insert_eq by (rewrite !length_insert; lia).
  - intros c Hc. rewrite !list_lookup_insert_ne by lia. reflexivity.
Qed.

Lemma lookup_repeat_lt {A} (x : A) (n c : nat) :
  (c < n)%nat -> repeat x n !! c = Some x.
Proof.
  revert c. induction n as [| n IH]; intros c Hc; [lia |].
  destruct c as [| c]; simpl; [reflexivity | apply IH; lia].
Qed.

Lemma np_zeros3_inv (c h w : Z) (a : list (Grid px)) :
  np_zeros3 F c h w = Ok a -> a = repeat (zeros2 F h w) (Z.to_nat c).
Proof.
  unfold np_zeros3. destruct (check_dims [c; h; w]); simpl; now inversion 1.
Qed.

(** C6, evaluated.  With grid channels enabled, the radar map of every
    assembled sample has the X grid in channel 0, the Y grid in channel 1
    and the zeros of [np.zeros] in the channels from 2 on: the radar field
    read for the last input time stamp is overwritten by the X grid,
    because the counter [c] is not advanced after line 137 (as it is after
    line 123 for the input frames). *)
Theorem radar_map_first_channel_is_grid (ds : TyDataset E) (i : string)
    (tmp_idx : Z) (s : Sample px) :
  input_with_grid E (args E ds) = true ->
  assemble F E ds i tmp_idx = Ok s ->
  let w := fst (O_shape E (args E ds)) in
  let h := snd (O_shape E (args E ds)) in
  radar_map s !! 0%nat = Some (fst (meshgrid F w h)) /\
  radar_map s !! 1%nat = Some (snd (meshgrid F w h)) /\
  forall c, (2 <= c < Z.to_nat (input_channels E (args E ds)))%nat ->
            radar_map s !! c = Some (zeros2 F h w).
Proof.
  intros Hgrid H. unfold assemble in H. cbv zeta in H.
  cbv beta iota delta [bind] in H.
  repeat match type of H with
         | match ?m with Ok _ => _ | Raise _ => _ end = Ok _ =>
           let Hm := fresh "Hm" in destruct m eqn:Hm; [| discriminate]
         end.
  injection H as <-. simpl.
  match goal with
  | Hz : np_zeros3 _ _ _ _ = Ok ?rm0, Hr : radar_map_of _ _ _ _ _ _ ?rm0 = Ok _ |- _ =>
    apply np_zeros3_inv in Hz; subst rm0;
    destruct (radar_map_of_grid _ _ _ _ _ _ Hgrid Hr) as (H0 & H1 & H2)
  end.
  split; [exact H0 |]. split; [exact H1 |].
  intros c Hc. rewrite H2 by lia. apply lookup_repeat_lt. lia.
Qed.

End RadarMap.

Lemma radar_map_first_channel_is_grid_witness :
  exists s,
    assemble fexpr_ops world_AB (dataset_AB true) "A" 0 = Ok s /\
    to_numpy world_AB [[Lit 25; Lit 25]; [Lit 25; Lit 25]] = [[Lit 25; Lit 25]; [Lit 25; Lit 25]] /\
    radar_map s = [[[Lit 0; Lit 1]; [Lit 0; Lit 1]];
                   [[Lit 0; Lit 0]; [Lit 1; Lit 1]];
                   [[Lit 0; Lit 0]; [Lit 0; Lit 0]]] /\
    radar_map s !! 0%nat = Some (fst (meshgrid fexpr_ops 2 2)).
Proof.
  eexists. split; [vm_compute; reflexivity |]. split; [reflexivity |].
  split; [reflexivity |].
  apply (radar_map_first_channel_is_grid fexpr_ops world_AB (dataset_AB true) "A" 0 _
           eq_refl).
  vm_compute. reflexivity.
Defined.

(** * Further properties of the code *)

(** ** Construction: counts out of range, empty selections, sizes *)

Lemma seeded_length {px : Type} (E : Ext px) (n : nat) :
  well_seeded E -> length (choice E n) = n.
Proof. intros H. rewrite (Permutation_length (H n)). apply length_seq. Qed.



(** X2.  When the count equals the number of events, the testing selection
    is empty: the construction still succeeds, but [self.total_frames] is
    never assigned, so [__len__] and every [__getitem__] raise
    [AttributeError], and the dataset object is left as it was. *)
Theorem full_count_leaves_empty_test_set {px : Type} (F : FloatOps px)
    (E : Ext px) (a : Args E) (tr : option (Transform px)) (tys : list TyRow) :
  well_seeded E ->
  read_ty_list E (ty_list E a) = Ok tys ->
  NoDup (map en_name tys) ->
  exists ds,
    TyDataset_init E a false (Some (Z.of_nat (length tys))) tr = Ok ds /\
    events_list E ds = [] /\ idx_df E ds = [] /\
    TyDataset_len E ds = Raise (AttributeError "total_frames") /\
    forall idx, TyDataset_getitem F E ds idx =
                (Raise (AttributeError "total_frames"), ds).
Proof.
  intros Hseed Hread Hnd.
  destruct (init_ok E a false (Some (Z.of_nat (length tys))) tr tys Hseed Hread Hnd)
    as [ds Hds]; [simpl; lia |].
  exists ds. split; [exact Hds |].
  destruct (init_inv E a false _ tr ds Hseed Hds)
    as (tys' & ev & evs & Hread' & Hev & Hevs & _ & ->).
  rewrite Hread in Hread'. injection Hread' as <-.
  assert (Hnil : ev = []).
  { unfold events_num in Hev. simpl in Hev.
    destruct (Z.leb_spec (Z.of_nat (length tys)) (Z.of_nat (length tys))); [| lia].
    simpl in Hev. injection Hev as <-. rewrite py_slice_suffix.
    apply drop_ge. rewrite seeded_length by exact Hseed.
    unfold py_bound. destruct (Z.ltb_spec (Z.of_nat (length tys)) 0); lia. }
  subst ev. simpl in Hevs. inversion Hevs; subst. simpl.
  repeat split.
Qed.

Lemma full_count_leaves_empty_test_set_witness :
  exists ds,
    TyDataset_init world_AB (demo_args [event_A; event_B] false 100 0)
                   false (Some 2) None = Ok ds /\
    TyDataset_len world_AB ds = Raise (AttributeError "total_frames").
Proof.
  destruct (full_count_leaves_empty_test_set fexpr_ops world_AB
              (demo_args [event_A; event_B] false 100 0) None [event_A; event_B])
    as (ds & Hds & _ & _ & Hlen & _).
  - apply world_well_seeded.
  - reflexivity.
  - repeat constructor; simpl; rewrite ?list_elem_of_In; simpl; intuition discriminate.
  - exists ds. split; assumption.
Defined.

Lemma events_num_length (rand_tys : list nat) (n : nat) (train : bool)
    (train_num : option Z) (ev : list nat) :
  length rand_tys = n ->
  events_num rand_tys n train train_num = Ok ev ->
  let m := match train_num with
           | None => Z.of_nat n * 3 / 4
           | Some k => if k <? 0 then Z.max 0 (Z.of_nat n + k) else k
           end in
  0 <= m <= Z.of_nat n /\
  Z.of_nat (length ev) = if train then m else Z.of_nat n - m.
Proof.
  intros Hlen Hev.
  assert (Hb : exists k, (match train_num with Some k => k <= Z.of_nat n | None => True end) /\
                 k = split_point n train_num /\
                 ev = if train then py_slice rand_tys (Some 0) (Some k)
                      else py_slice rand_tys (Some k) None).
  { exists (split_point n train_num). unfold events_num in Hev.
    destruct train, train_num as [k |]; simpl in *;
      try (destruct (Z.leb_spec k (Z.of_nat n)); simpl in Hev; [| discriminate]);
      injection Hev as <-; auto. }
  destruct Hb as (k & Hk & -> & ->).
  assert (Hm : Z.of_nat (py_bound n (split_point n train_num)) =
               match train_num with
               | None => Z.of_nat n * 3 / 4
               | Some k => if k <? 0 then Z.max 0 (Z.of_nat n + k) else k
               end).
  { unfold py_bound, split_point. destruct train_num as [k |].
    - destruct (Z.ltb_spec k 0); lia.
    - rewrite default_split_floor.
      assert (0 <= Z.of_nat n * 3 / 4) by (apply Z.div_pos; lia).
      assert (Z.of_nat n * 3 / 4 <= Z.of_nat n) by (apply Z.div_le_upper_bound; lia).
      destruct (Z.ltb_spec (Z.of_nat n * 3 / 4) 0); lia. }
  cbv zeta. rewrite <- Hm.
  pose proof (py_bound_le n (split_point n train_num)) as Hle.
  split; [lia |].
  destruct train.
  - rewrite py_slice_prefix, length_take, Hlen. lia.
  - rewrite py_slice_suffix, length_drop, Hlen. lia.
Qed.

(** X3.  The sizes of the two selections.  With [n] events, the training
    selection of a constructed dataset has [m] events and the testing
    selection [n - m], where [m] is [floor(3n/4)] without a count, the
    count [k] itself when [0 <= k], and [max(0, n + k)] for a negative
    count (which Python's slices read from the end). *)
Theorem split_sizes {px : Type} (E : Ext px) (a : Args E) (train : bool)
    (train_num : option Z) (tr : option (Transform px)) (ds : TyDataset E) :
  well_seeded E ->
  TyDataset_init E a train train_num tr = Ok ds ->
  let n := Z.of_nat (length (self_ty_list E ds)) in
  let m := match train_num with
           | None => n * 3 / 4
           | Some k => if k <? 0 then Z.max 0 (n + k) else k
           end in
  0 <= m <= n /\
  Z.of_nat (length (events_list E ds)) = if train then m else n - m.
Proof.
  intros Hseed Hinit.
  destruct (init_inv E a train train_num tr ds Hseed Hinit)
    as (tys & ev & evs & _ & Hev & _ & _ & ->).
  simpl. rewrite length_map.
  apply (events_num_length (choice E (length tys)) (length tys) train train_num ev);
    [now apply seeded_length | exact Hev].
Qed.

Lemma split_sizes_witness :
  Z.of_nat (length (events_list world_AB (dataset_AB false))) = 2.
Proof.
  exact (proj2 (split_sizes world_AB (demo_args [event_A; event_B] false 100 0)
                  true (Some 2) None (dataset_AB false)
                  (world_well_seeded _) (dataset_AB_constructed false))).
Defined.

(** ** Windows and the life of an event *)

(** X4.  For an event whose adjusted cancel time is not before its issue
    time there is at least one window, the last frame of every counted
    window (offset [o], frame [o + L - 1]) is not after the cancel time,
    and the window at the next offset would end after it: the count is the
    number of windows that fit. *)
Theorem windows_fit_inside_event (input_frames target_frames : Z) (r : TyRow) :
  time_of_issuing r <= frame_end input_frames target_frames r ->
  1 <= window_count input_frames target_frames r /\
  (forall o, 0 <= o < window_count input_frames target_frames r ->
     time_of_issuing r + (o + input_frames + target_frames - 1) * step
     <= time_of_canceling r) /\
  time_of_canceling r <
    time_of_issuing r
    + (window_count input_frames target_frames r + input_frames + target_frames - 1) * step.
Proof.
  intros H. unfold window_count. rewrite int_frames_nonneg by lia.
  unfold frame_end in *.
  replace (timedelta_minutes ((input_frames + target_frames - 1) * 10))
    with ((input_frames + target_frames - 1) * step) in *
    by (unfold step, timedelta_minutes; lia).
  set (L := input_frames + target_frames - 1) in *.
  set (d := time_of_canceling r - L * step - time_of_issuing r) in *.
  assert (Hstep : 0 < step) by (unfold step, timedelta_minutes, ns_per_second; lia).
  assert (Hd : 0 <= d) by (unfold d; lia).
  pose proof (Z.mul_div_le d step Hstep) as Hlo.
  pose proof (Z.mul_succ_div_gt d step Hstep) as Hhi.
  assert (Hq : 0 <= d / step) by (apply Z.div_pos; lia).
  split; [lia |]. split.
  - intros o Ho.
    assert (step * o <= step * (d / step)) by (apply Z.mul_le_mono_nonneg_l; lia).
    replace (o + input_frames + target_frames - 1) with (o + L) by (unfold L; lia).
    unfold d in *. lia.
  - replace (d / step + 1 + input_frames + target_frames - 1) with (Z.succ (d / step) + L)
      by (unfold L; lia).
    unfold d in *. lia.
Qed.

Lemma windows_fit_inside_event_witness :
  1 <= window_count 3 2 event_A /\
  time_of_canceling event_A <
    time_of_issuing event_A + (window_count 3 2 event_A + 3 + 2 - 1) * step.
Proof.
  assert (H : time_of_issuing event_A <= frame_end 3 2 event_A)
    by (vm_compute; discriminate).
  pose proof (windows_fit_inside_event 3 2 event_A H) as (H1 & _ & H3).
  split; [exact H1 | exact H3].
Defined.

(** ** More on the resolution of indices *)

Lemma first_row_rows_from (inf tf : Z) (evs : list TyRow) (tmp idx : Z) :
  Forall (fun r => 0 <= window_count inf tf r) evs ->
  tmp <= idx < tmp + sum_counts inf tf evs ->
  exists row, first_row idx (rows_from inf tf evs tmp) = Some row /\
              In row (rows_from inf tf evs tmp) /\
              starting_idx row <= idx <= ending_idx row.
Proof.
  intros H. revert tmp.
  induction H as [| r evs Hr _ IH]; intros tmp Hidx.
  - unfold sum_counts in Hidx. simpl in Hidx. lia.
  - unfold sum_counts in Hidx. simpl in Hidx. fold (sum_counts inf tf evs) in Hidx.
    simpl. unfold first_row. simpl.
    destruct (Z.gtb_spec idx (tmp + window_count inf tf r - 1)) as [Hgt | Hle]; simpl.
    + destruct (IH (tmp + window_count inf tf r) ltac:(lia)) as (row & Hf & Hin & Hb).
      exists row. auto.
    + eexists. split; [reflexivity |]. split; [left; reflexivity |]. simpl. lia.
Qed.

(** X5.  Events without any window are passed over.  In a constructed
    dataset whose window counts are all non-negative, every index of
    [0, total_samples) resolves to an event with a positive count and to an
    offset below that count. *)
Theorem resolve_skips_empty_events {px : Type} (E : Ext px) (a : Args E)
    (train : bool) (train_num : option Z) (tr : option (Transform px))
    (ds : TyDataset E) :
  well_seeded E ->
  TyDataset_init E a train train_num tr = Ok ds ->
  Forall (fun r => 0 <= count_of ds r) (selected_events ds) ->
  forall idx, 0 <= idx < total_samples ds ->
    exists i o ev,
      resolve E ds idx = Ok (Some (i, o)) /\
      In ev (selected_events ds) /\ en_name ev = i /\
      0 <= o < count_of ds ev.
Proof.
  intros Hseed Hinit Hpos idx Hidx.
  destruct (constructed_table E a train train_num tr ds Hseed Hinit)
    as (Hargs & Hdf & Htot & Hnames & Hnd & _).
  unfold count_of in *. rewrite total_samples_sum in Hidx. rewrite Hargs in *.
  set (inf := input_frames E a) in *. set (tf := target_frames E a) in *.
  set (evs := selected_events ds) in *.
  assert (Ht : total_frames E ds = Some (sum_counts inf tf evs)).
  { rewrite Htot. unfold final_total. fold evs.
    destruct evs; [unfold sum_counts in Hidx; simpl in Hidx; lia | reflexivity]. }
  destruct (first_row_rows_from inf tf evs 0 idx Hpos ltac:(lia)) as (row & Hf & Hin & Hb).
  destruct (Forall2_In_left _ _ _ row (rows_from_counts inf tf evs 0) Hin)
    as (ev & Hev & Hty & Hc & _).
  exists (typhoon row), (idx - starting_idx row), ev.
  split.
  - assert (Hndf : NoDup (map typhoon (idx_df E ds)))
      by (rewrite Hdf, rows_from_typhoon, Hnames; exact Hnd).
    rewrite (resolve_first_row E ds _ idx Hndf Ht) by lia.
    rewrite Hdf, Hf. reflexivity.
  - split; [exact Hev |]. split; [now symmetry |].
    unfold row_count in Hc. lia.
Qed.

Lemma resolve_skips_empty_events_witness :
  exists ds,
    TyDataset_init world_AZB (demo_args [event_A; event_30min; event_B] false 100 0)
                   true (Some 3) None = Ok ds /\
    map row_count (idx_df world_AZB ds) = [9; 0; 3] /\
    exists i o ev,
      resolve world_AZB ds 9 = Ok (Some (i, o)) /\
      In ev (selected_events ds) /\ en_name ev = i /\
      0 <= o < count_of ds ev.
Proof.
  eexists. split; [vm_compute; reflexivity |]. split; [reflexivity |].
  apply (resolve_skips_empty_events world_AZB
           (demo_args [event_A; event_30min; event_B] false 100 0)
           true (Some 3) None _ (world_well_seeded _)).
  - vm_compute. reflexivity.
  - repeat constructor; vm_compute; discriminate.
  - vm_compute. split; [discriminate | reflexivity].
Defined.

(** A constructed table with positive counts, ready for use. *)
Lemma positive_table {px : Type} (E : Ext px) (a : Args E) (train : bool)
    (train_num : option Z) (tr : option (Transform px)) (ds : TyDataset E) :
  well_seeded E ->
  TyDataset_init E a train train_num tr = Ok ds ->
  Forall (fun r => 0 < count_of ds r) (selected_events ds) ->
  contiguous_from 0 (idx_df E ds) (total_samples ds) /\
  NoDup (map typhoon (idx_df E ds)) /\
  Forall2 (fun row r => typhoon row = en_name r /\ row_count row = count_of ds r)
          (idx_df E ds) (selected_events ds) /\
  (forall idx, 0 <= idx < total_samples ds ->
     exists row, In row (idx_df E ds) /\
                 starting_idx row <= idx <= ending_idx row /\
                 resolve E ds idx = Ok (Some (typhoon row, idx - starting_idx row))).
Proof.
  intros Hseed Hinit Hpos.
  destruct (constructed_table E a train train_num tr ds Hseed Hinit)
    as (Hargs & Hdf & Htot & Hnames & Hnd & _).
  unfold count_of in *. rewrite total_samples_sum. rewrite Hargs in *.
  set (inf := input_frames E a) in *. set (tf := target_frames E a) in *.
  set (evs := selected_events ds) in *.
  assert (Hcont : contiguous_from 0 (idx_df E ds) (sum_counts inf tf evs))
    by (rewrite Hdf; apply (rows_from_contiguous inf tf evs 0 Hpos)).
  assert (Hndf : NoDup (map typhoon (idx_df E ds)))
    by (rewrite Hdf, rows_from_typhoon, Hnames; exact Hnd).
  split; [exact Hcont |]. split; [exact Hndf |]. split.
  - rewrite Hdf. eapply Forall2_impl; [apply rows_from_counts |].
    simpl. intros row r (H1 & H2 & _). auto.
  - intros idx Hidx.
    assert (Ht : total_frames E ds = Some (sum_counts inf tf evs)).
    { rewrite Htot. unfold final_total. fold evs.
      destruct evs; [unfold sum_counts in Hidx; simpl in Hidx; lia | reflexivity]. }
    destruct (first_row_contiguous 0 _ idx _ Hcont Hidx) as (row & Hf & Hin & Hb).
    exists row. split; [exact Hin |]. split; [exact Hb |].
    rewrite (resolve_first_row E ds _ idx Hndf Ht) by lia.
    now rewrite Hf.
Qed.

(** X6.  Consecutive indices walk through the events in order.  With
    positive counts, if [idx] resolves to event [i] at offset [o] and
    [idx + 1] is still in range, then [idx + 1] resolves to [i] at offset
    [o + 1] when that offset is below the count of [i], and otherwise to
    offset 0 of another event. *)
Theorem resolve_successor {px : Type} (E : Ext px) (a : Args E)
    (train : bool) (train_num : option Z) (tr : option (Transform px))
    (ds : TyDataset E) (idx : Z) (i : string) (o : Z) :
  well_seeded E ->
  TyDataset_init E a train train_num tr = Ok ds ->
  Forall (fun r => 0 < count_of ds r) (selected_events ds) ->
  0 <= idx -> idx + 1 < total_samples ds ->
  resolve E ds idx = Ok (Some (i, o)) ->
  exists ev, In ev (selected_events ds) /\ en_name ev = i /\
    ((o + 1 < count_of ds ev /\ resolve E ds (idx + 1) = Ok (Some (i, o + 1))) \/
     (o + 1 = count_of ds ev /\
      exists i', i' <> i /\ resolve E ds (idx + 1) = Ok (Some (i', 0)))).
Proof.
  intros Hseed Hinit Hpos H0 H1 Hres.
  destruct (positive_table E a train train_num tr ds Hseed Hinit Hpos)
    as (Hcont & Hnd & Hrows & Hin_range).
  destruct (Hin_range idx ltac:(lia)) as (r & Hr & Hb & Q).
  rewrite Q in Hres. injection Hres as <- <-.
  destruct (Forall2_In_left _ _ _ r Hrows Hr) as (ev & Hev & Hty & Hc).
  unfold row_count in Hc.
  exists ev. split; [exact Hev |]. split; [now symmetry |].
  destruct (Hin_range (idx + 1) ltac:(lia)) as (r' & Hr' & Hb' & Q').
  destruct (Z.le_gt_cases (idx + 1) (ending_idx r)) as [Hle | Hgt].
  - left. split; [lia |].
    assert (r' = r).
    { pose proof (first_row_containing 0 _ (idx + 1) _ r Hcont Hr ltac:(lia)) as F1.
      pose proof (first_row_containing 0 _ (idx + 1) _ r' Hcont Hr' Hb') as F2.
      congruence. }
    subst r'. rewrite Q'. do 3 f_equal. lia.
  - right. split; [lia |].
    assert (Hne : r' <> r) by (intros ->; lia).
    assert (Hstart : starting_idx r' = idx + 1).
    { destruct (Z.le_gt_cases (starting_idx r') idx) as [Hs | Hs]; [| lia].
      exfalso. apply Hne.
      pose proof (first_row_containing 0 _ idx _ r Hcont Hr Hb) as F1.
      pose proof (first_row_containing 0 _ idx _ r' Hcont Hr' ltac:(lia)) as F2.
      congruence. }
    exists (typhoon r'). split.
    + intros Heq. apply Hne. eapply NoDup_map_In_inj; eauto.
    + rewrite Q'. do 3 f_equal. lia.
Qed.

Lemma resolve_successor_witness :
  exists ev, In ev (selected_events (dataset_AB false)) /\ en_name ev = "A" /\
    ((8 + 1 < count_of (dataset_AB false) ev /\
      resolve world_AB (dataset_AB false) (8 + 1) = Ok (Some ("A", 8 + 1))) \/
     (8 + 1 = count_of (dataset_AB false) ev /\
      exists i', i' <> "A" /\
                 resolve world_AB (dataset_AB false) (8 + 1) = Ok (Some (i', 0)))).
Proof.
  apply (resolve_successor world_AB (demo_args [event_A; event_B] false 100 0)
           true (Some 2) None (dataset_AB false) 8 "A" 8
           (world_well_seeded _) (dataset_AB_constructed false)).
  - repeat constructor.
  - lia.
  - vm_compute. reflexivity.
  - vm_compute. reflexivity.
Defined.

Lemma scan_none (df : list IdxRow) (idx : Z) (labels : list string) :
  scan df idx labels = Ok None ->
  forall i, In i labels ->
    exists r, df_loc typhoon df i
                (ValueError "The truth value of a Series is ambiguous.") = Ok r /\
              idx > ending_idx r.
Proof.
  induction labels as [| l labels IH]; simpl; intros H i Hi; [contradiction |].
  destruct (df_loc typhoon df l _) as [r |] eqn:Hr; simpl in H; [| discriminate].
  destruct (Z.gtb_spec idx (ending_idx r)) as [Hgt | Hle]; [| discriminate].
  destruct Hi as [<- | Hi]; [| now apply IH].
  exists r. split; [exact Hr | lia].
Qed.

Lemma rows_from_final (inf tf : Z) (evs : list TyRow) (tmp : Z) :
  evs <> [] ->
  exists row, In row (rows_from inf tf evs tmp) /\
              ending_idx row = tmp + sum_counts inf tf evs - 1.
Proof.
  revert tmp. induction evs as [| r evs IH]; intros tmp Hne; [congruence |].
  destruct evs as [| r' evs'].
  - eexists. split; [left; reflexivity |]. unfold sum_counts. simpl. lia.
  - destruct (IH (tmp + window_count inf tf r) ltac:(discriminate)) as (row & Hin & He).
    exists row. split; [right; exact Hin |].
    rewrite He. unfold sum_counts. simpl. lia.
Qed.

(** X7.  The loop of [__getitem__] never runs out of events on a
    constructed dataset: whatever the index and whatever the signs of the
    counts, the call raises or returns a sample, never [None]. *)
Theorem getitem_never_returns_none {px : Type} (F : FloatOps px) (E : Ext px)
    (a : Args E) (train : bool) (train_num : option Z)
    (tr : option (Transform px)) (ds : TyDataset E) (idx : Z) :
  well_seeded E ->
  TyDataset_init E a train train_num tr = Ok ds ->
  resolve E ds idx <> Ok None /\
  fst (TyDataset_getitem F E ds idx) <> Ok None.
Proof.
  intros Hseed Hinit.
  assert (Hres : resolve E ds idx <> Ok None).
  { intros H.
    destruct (constructed_table E a train train_num tr ds Hseed Hinit)
      as (Hargs & Hdf & Htot & Hnames & Hnd & _).
    unfold resolve, TyDataset_len in H.
    destruct (total_frames E ds) as [t |] eqn:Ht; simpl in H; [| discriminate].
    destruct (Z.ltb_spec idx t) as [Hlt | Hge]; simpl in H; [| discriminate].
    destruct (selected_events ds) as [| r evs] eqn:Hevs; [discriminate |].
    unfold final_total in Htot. injection Htot as ->.
    destruct (rows_from_final (input_frames E a) (target_frames E a) (r :: evs) 0)
      as (row & Hin & He); [discriminate |].
    rewrite <- Hdf in Hin.
    destruct (scan_none _ _ _ H (typhoon row) (in_map typhoon _ _ Hin))
      as (r0 & Hr0 & Hgt).
    rewrite (df_loc_unique typhoon _ _ _ r0 row Hr0 Hin eq_refl) in He. lia. }
  split; [exact Hres |].
  unfold TyDataset_getitem.
  destruct (resolve E ds idx) as [[[i tmp_idx] |] |]; simpl; try congruence.
  destruct (assemble F E ds i tmp_idx) as [s |]; simpl; [| discriminate].
  destruct (transform E ds) as [t |]; simpl; [| discriminate].
  destruct (t s) as [[s' | e] s1]; simpl; discriminate.
Qed.

Lemma getitem_never_returns_none_witness :
  resolve world_short dataset_short (-5) <> Ok None /\
  fst (TyDataset_getitem fexpr_ops world_short dataset_short (-5)) <> Ok None.
Proof.
  exact (getitem_never_returns_none fexpr_ops world_short
           (demo_args [event_short] false 100 0) true (Some 1) None dataset_short (-5)
           (world_well_seeded _) dataset_short_constructed).
Defined.

(** ** What [__getitem__] writes *)

(** X8.  Whatever its outcome, [__getitem__] writes at most the attribute
    [sample] of the dataset object.  A call that raises on a dataset
    without transform writes nothing at all, and an index at or above
    [self.total_frames] is refused by the assertion of line 97 before
    anything is read or written. *)
Theorem getitem_writes_only_sample {px : Type} (F : FloatOps px) (E : Ext px)
    (ds : TyDataset E) (idx : Z) :
  (forall r ds', TyDataset_getitem F E ds idx = (r, ds') ->
     ds' = ds \/ exists s, ds' = set_sample E ds (Some s)) /\
  (forall e ds', TyDataset_getitem F E ds idx = (Raise e, ds') ->
     transform E ds = None -> ds' = ds) /\
  (forall t, total_frames E ds = Some t -> t <= idx ->
     TyDataset_getitem F E ds idx = (Raise (AssertionError msg_index), ds)).
Proof.
  split; [| split].
  - intros r ds'. unfold TyDataset_getitem.
    destruct (resolve E ds idx) as [[[i tmp_idx] |] |];
      try (injection 1 as <- <-; now left).
    destruct (assemble F E ds i tmp_idx) as [s |];
      try (injection 1 as <- <-; now left).
    destruct (transform E ds) as [t |].
    + destruct (t s) as [[s' | e] s1]; injection 1 as <- <-; right; eauto.
    + injection 1 as <- <-. right; eauto.
  - intros e ds'. unfold TyDataset_getitem. intros H Htr. rewrite Htr in H.
    destruct (resolve E ds idx) as [[[i tmp_idx] |] |];
      try (injection H as <- <-; reflexivity); try discriminate.
    destruct (assemble F E ds i tmp_idx) as [s |];
      [discriminate | injection H as <- <-; reflexivity].
  - intros t Ht Hidx. unfold TyDataset_getitem.
    now rewrite (resolve_out_of_range E ds t idx Ht Hidx).
Qed.

Lemma getitem_writes_only_sample_witness :
  TyDataset_getitem fexpr_ops world_AB (dataset_AB false) 12 =
  (Raise (AssertionError msg_index), dataset_AB false).
Proof.
  apply (proj2 (proj2 (getitem_writes_only_sample fexpr_ops world_AB
                         (dataset_AB false) 12)) 12 eq_refl).
  lia.
Defined.

(** ** The assembled sample *)

Section Assembly.

Context {px : Type} (F : FloatOps px) (E : Ext px).

(** A loop over distinct positions whose body replaces the slot of its
    position: afterwards every visited slot holds what the body put there,
    the other slots are untouched, and a property of all slots that the
    body maintains still holds. *)
Lemma for_each_updates {X} (body : Z -> list X -> result (list X))
    (P : nat -> X -> Prop) (Inv : X -> Prop) :
  (forall (j : nat) a a', body (Z.of_nat j) a = Ok a' -> Forall Inv a ->
     exists x, a' = <[j := x]> a /\ (j < length a)%nat /\ P j x /\ Inv x) ->
  forall (l : list nat) (a0 a : list X),
    NoDup l -> Forall Inv a0 ->
    for_each (map Z.of_nat l) body a0 = Ok a ->
    length a = length a0 /\ Forall Inv a /\
    (forall j, In j l -> exists x, a !! j = Some x /\ P j x) /\
    (forall j, ~ In j l -> a !! j = a0 !! j).
Proof.
  intros Hbody l. induction l as [| x l IH]; intros a0 a Hnd Hinv H.
  - simpl in H. injection H as <-. repeat split; auto. intros j [].
  - simpl in H. destruct (body (Z.of_nat x) a0) as [a1 |] eqn:H1; simpl in H; [| discriminate].
    destruct (Hbody x a0 a1 H1 Hinv) as (v & -> & Hlt & Hp & Hv).
    inversion Hnd as [| ? ? Hx Hnd']; subst.
    destruct (IH _ _ Hnd' (Forall_insert _ _ _ _ Hinv Hv) H) as (Hlen & Hall & Hin & Hout).
    rewrite length_insert in Hlen.
    split; [exact Hlen |]. split; [exact Hall |]. split.
    + intros j [<- | Hj]; [| now apply Hin].
      exists v. split; [| exact Hp].
      rewrite Hout by (rewrite <- list_elem_of_In; exact Hx).
      now apply list_lookup_insert_eq.
    + intros j Hj. rewrite Hout by (intros Hj'; apply Hj; now right).
      apply list_lookup_insert_ne. intros ->. apply Hj. now left.
Qed.

Lemma broadcast_row_length (w : Z) (r r' : list px) :
  broadcast_row w r = Ok r' -> length r' = Z.to_nat w.
Proof.
  unfold broadcast_row. destruct (Z.eqb_spec (Z.of_nat (length r)) w) as [Heq | Hne].
  - injection 1 as <-. lia.
  - destruct r as [| x [| y r]]; try discriminate.
    injection 1 as <-. apply repeat_length.
Qed.

Lemma broadcast_rows_length (w : Z) (g rows : Grid px) :
  mapM (broadcast_row w) g = Ok rows ->
  forall r, In r rows -> length r = Z.to_nat w.
Proof.
  revert rows. induction g as [| r0 g IH]; simpl; intros rows H r Hr.
  - injection H as <-. contradiction.
  - destruct (broadcast_row w r0) as [r0' |] eqn:H0; simpl in H; [| discriminate].
    destruct (mapM (broadcast_row w) g) as [rows' |] eqn:Hg; simpl in H; [| discriminate].
    injection H as <-. destruct Hr as [<- | Hr].
    + eapply broadcast_row_length, H0.
    + eapply IH; eauto.
Qed.

(** What is stored into a slot has the shape of the slot. *)
Lemma broadcast2_shape (h w : Z) (v v' : Grid px) :
  broadcast2 h w v = Ok v' -> shape_is h w v'.
Proof.
  unfold broadcast2, shape_is.
  destruct (mapM (broadcast_row w) v) as [rows |] eqn:Hm; simpl; [| discriminate].
  pose proof (broadcast_rows_length w v rows Hm) as Hrows.
  destruct (Z.eqb_spec (Z.of_nat (length rows)) h) as [Heq | Hne].
  - injection 1 as <-. split; [lia | exact Hrows].
  - destruct rows as [| r [| r' rows]]; try discriminate.
    injection 1 as <-. split; [apply repeat_length |].
    intros r0 Hr0. apply repeat_spec in Hr0. subst. apply Hrows. now left.
Qed.

Lemma zeros2_shape (h w : Z) : shape_is h w (zeros2 F h w).
Proof.
  unfold shape_is, zeros2. split; [apply repeat_length |].
  intros r Hr. apply repeat_spec in Hr. subst. apply repeat_length.
Qed.

Lemma set_slot4_inv (a a' : list (list (Grid px))) (j c h w : Z) (v : Grid px) :
  0 <= j ->
  set_slot4 a j c h w v = Ok a' ->
  exists frame v',
    a !! Z.to_nat j = Some frame /\ broadcast2 h w v = Ok v' /\
    (Z.to_nat c < length frame)%nat /\
    a' = <[Z.to_nat j := <[Z.to_nat c := v']> frame]> a.
Proof.
  intros Hj. unfold set_slot4.
  destruct ((0 <=? j) && (j <? Z.of_nat (length a))); [| discriminate].
  destruct (a !! Z.to_nat j) as [frame |] eqn:Hf; [| discriminate].
  destruct (set_slot frame c h w v) as [frame' |] eqn:Hs; simpl; [| discriminate].
  injection 1 as <-.
  apply set_slot_inv in Hs as (v' & Hb & -> & Hlt).
  exists frame, v'. auto.
Qed.

(** The steps of a successful [assemble], one by one. *)
Lemma assemble_inv (ds : TyDataset E) (i : string) (tmp_idx : Z) (s : Sample px) :
  assemble F E ds i tmp_idx = Ok s ->
  let a := args E ds in
  exists r input0 rm0 table tg0 df lo hi lo',
    df_loc typhoon (idx_df E ds) i (TypeError "unsupported operand") = Ok r /\
    np_zeros4 F (input_frames E a) (input_channels E a)
              (snd (I_shape E a)) (fst (I_shape E a)) = Ok input0 /\
    np_zeros3 F (input_channels E a) (snd (O_shape E a)) (fst (O_shape E a)) = Ok rm0 /\
    for_each (py_range (input_frames E a))
             (input_frame F E a r (ty_name_of E r) tmp_idx) input0 = Ok (inputs s) /\
    radar_map_of F E a r (ty_name_of E r) tmp_idx rm0 = Ok (radar_map s) /\
    read_ty_infos E (path_join E [ty_info_wrangled_data_folder E a;
                                  String.append (ty_name_of E r) ".csv"]) = Ok table /\
    (if catcher_location E a
     then columns_0_1_last
            (loc_time E table (frame_time E r (tmp_idx + input_frames E a))
               (frame_time E r (tmp_idx + input_frames E a + target_frames E a - 1)))
     else Ok (columns_but_last
                (loc_time E table (frame_time E r (tmp_idx + input_frames E a))
                   (frame_time E r (tmp_idx + input_frames E a + target_frames E a - 1)))))
    = Ok (ty_infos s) /\
    np_zeros3 F (target_frames E a) (snd (F_shape E a)) (fst (F_shape E a)) = Ok tg0 /\
    for_each (py_range (target_frames E a))
             (target_frame E a r (ty_name_of E r) (if target_RAD E a then "RAD" else "QPE")
                           (tmp_idx + input_frames E a)) tg0 = Ok (targets s) /\
    read_pickle E (path_join E [radar_folder E a; "height.pkl"]) "bz2" = Ok df /\
    np_reduce (fmin F) (to_numpy E (loc_box E df (I_y E a) (I_x E a))) = Ok lo /\
    np_reduce (fmax F) (to_numpy E (loc_box E df (I_y E a) (I_x E a))) = Ok hi /\
    np_reduce (fmin F) (to_numpy E (loc_box E df (I_y E a) (I_x E a))) = Ok lo' /\
    height s = grid_map (fun x => fdiv F (fsub F x lo) (fsub F hi lo'))
                        (to_numpy E (loc_box E df (I_y E a) (I_x E a))) /\
    current_time s = frame_time E r (tmp_idx + input_frames E a - 1).
Proof.
  intros H a. unfold assemble in H. cbv zeta in H. fold a in H.
  destruct (df_loc typhoon (idx_df E ds) i _) as [r |] eqn:Hr; simpl in H; [| discriminate].
  assert (Hty : String.append (year_str E (starting_time r)) (String.append "." i)
                = ty_name_of E r).
  { unfold ty_name_of. now destruct (df_loc_In _ _ _ _ _ Hr) as [_ ->]. }
  rewrite Hty in H.
  cbv beta iota delta [bind] in H.
  repeat match type of H with
         | match ?m with Ok _ => _ | Raise _ => _ end = Ok _ =>
           let Hm := fresh "Hm" in destruct m eqn:Hm; [| discriminate]
         end.
  injection H as <-. simpl.
  repeat eexists; eauto.
Qed.

Ltac inv_ok H x Hx :=
  match type of H with
  | match ?m with Ok _ => _ | Raise _ => _ end = Ok _ =>
    destruct m as [x |] eqn:Hx; [cbv beta iota in H | discriminate]
  end.

Lemma meshgrid_stored (w h : Z) (g : Grid px) :
  (broadcast2 h w (fst (meshgrid F w h)) = Ok g -> g = fst (meshgrid F w h)) /\
  (broadcast2 h w (snd (meshgrid F w h)) = Ok g -> g = snd (meshgrid F w h)).
Proof.
  pose proof (meshgrid_shape F w h) as Hs.
  destruct (meshgrid F w h) as [gx gy]. destruct Hs as [[Hx1 Hx2] [Hy1 Hy2]].
  split; intros H; eapply broadcast2_fits; eauto.
Qed.

(** One input frame: what lines 119-131 leave in slot [j]. *)
Lemma input_frame_step (a : Args E) (r : IdxRow) (ty_name : string) (tmp_idx : Z)
    (j : nat) (inp inp' : list (list (Grid px))) :
  input_frame F E a r ty_name tmp_idx (Z.of_nat j) inp = Ok inp' ->
  Forall (fun frame => length frame = Z.to_nat (input_channels E a) /\
                       Forall (shape_is (snd (I_shape E a)) (fst (I_shape E a))) frame)
         inp ->
  exists frame,
    inp' = <[j := frame]> inp /\ (j < length inp)%nat /\
    (exists df v,
        read_pickle E (radar_path E a "RAD" ty_name
                         (frame_time E r (tmp_idx + Z.of_nat j)))
                    (compression E a) = Ok df /\
        broadcast2 (snd (I_shape E a)) (fst (I_shape E a))
                   (to_numpy E (loc_box E df (I_y E a) (I_x E a))) = Ok v /\
        frame !! 0%nat = Some v /\
        (input_with_grid E a = true ->
         frame !! 1%nat = Some (fst (meshgrid F (fst (I_shape E a)) (snd (I_shape E a)))) /\
         frame !! 2%nat = Some (snd (meshgrid F (fst (I_shape E a)) (snd (I_shape E a)))))) /\
    (length frame = Z.to_nat (input_channels E a) /\
     Forall (shape_is (snd (I_shape E a)) (fst (I_shape E a))) frame).
Proof.
  intros H Hinv. unfold input_frame in H. cbv zeta in H.
  cbv beta iota delta [bind] in H.
  inv_ok H df Hdf.
  inv_ok H inp1 H1.
  apply set_slot4_inv in H1 as (f0 & v & Hf0 & Hv & Hc0 & ->); [| lia].
  rewrite Nat2Z.id in *.
  assert (Hj : (j < length inp)%nat) by (eapply lookup_lt_Some, Hf0).
  destruct (Forall_lookup_1 _ _ _ _ Hinv Hf0) as [Hlen0 Hsh0].
  pose proof (broadcast2_shape _ _ _ _ Hv) as Hvs.
  destruct (input_with_grid E a) eqn:Hgrid.
  - pose proof (meshgrid_stored (fst (I_shape E a)) (snd (I_shape E a))) as Hms.
    destruct (meshgrid F (fst (I_shape E a)) (snd (I_shape E a))) as [gx gy] eqn:Hmesh.
    cbv beta iota in H.
    inv_ok H inp2 H2.
    apply set_slot4_inv in H2 as (f1 & v1 & Hf1 & Hv1 & Hc1 & ->); [| lia].
    rewrite Nat2Z.id in *.
    rewrite list_lookup_insert_eq in Hf1 by exact Hj. injection Hf1 as <-.
    apply set_slot4_inv in H as (f2 & v2 & Hf2 & Hv2 & Hc2 & ->); [| lia].
    rewrite Nat2Z.id in *.
    rewrite list_lookup_insert_eq in Hf2 by (rewrite length_insert; exact Hj).
    injection Hf2 as <-.
    pose proof (broadcast2_shape _ _ _ _ Hv1) as Hv1s.
    pose proof (broadcast2_shape _ _ _ _ Hv2) as Hv2s.
    apply (proj1 (Hms v1)) in Hv1. apply (proj2 (Hms v2)) in Hv2. simpl in Hv1, Hv2.
    subst v1 v2.
    change (Z.to_nat 0) with 0%nat in *. change (Z.to_nat (0 + 1)) with 1%nat in *.
    change (Z.to_nat (0 + 1 + 1)) with 2%nat in *.
    rewrite !length_insert in *.
    eexists. split; [now rewrite !list_insert_insert_eq |].
    split; [exact Hj |]. split.
    + exists df, v. split; [reflexivity |]. split; [exact Hv |]. split.
      * rewrite !list_lookup_insert_ne by discriminate.
        now apply list_lookup_insert_eq.
      * intros _. split.
        -- rewrite list_lookup_insert_ne by discriminate.
           apply list_lookup_insert_eq. rewrite length_insert. exact Hc1.
        -- apply list_lookup_insert_eq. rewrite !length_insert. exact Hc2.
    + split; [now rewrite !length_insert |].
      repeat apply Forall_insert; assumption.
  - injection H as <-. change (Z.to_nat 0) with 0%nat in *.
    eexists. split; [reflexivity |]. split; [exact Hj |]. split.
    + exists df, v. split; [reflexivity |]. split; [exact Hv |]. split.
      * now apply list_lookup_insert_eq.
      * discriminate.
    + split; [now rewrite length_insert |]. now apply Forall_insert.
Qed.

Lemma np_zeros4_inv (n c h w : Z) (a : list (list (Grid px))) :
  np_zeros4 F n c h w = Ok a ->
  a = repeat (repeat (zeros2 F h w) (Z.to_nat c)) (Z.to_nat n).
Proof.
  unfold np_zeros4. destruct (check_dims [n; c; h; w]); simpl; now inversion 1.
Qed.

Lemma Forall_repeat {A} (P : A -> Prop) (x : A) (n : nat) : P x -> Forall P (repeat x n).
Proof. induction n; simpl; constructor; auto. Qed.

(** X9.  The input frames of an assembled sample.  There are
    [input_frames] of them; frame [j] has in channel 0 the radar field of
    the file of time [tmp_idx + j], cropped to the input window (every
    such file was read), and with grid channels the X grid in channel 1
    and the Y grid in channel 2. *)
Theorem input_frames_layout (ds : TyDataset E) (i : string) (tmp_idx : Z)
    (s : Sample px) :
  assemble F E ds i tmp_idx = Ok s ->
  let a := args E ds in
  exists r,
    In r (idx_df E ds) /\ typhoon r = i /\
    length (inputs s) = Z.to_nat (input_frames E a) /\
    forall j : nat, (j < Z.to_nat (input_frames E a))%nat ->
      exists frame df v,
        inputs s !! j = Some frame /\
        read_pickle E (radar_path E a "RAD" (ty_name_of E r)
                         (frame_time E r (tmp_idx + Z.of_nat j)))
                    (compression E a) = Ok df /\
        broadcast2 (snd (I_shape E a)) (fst (I_shape E a))
                   (to_numpy E (loc_box E df (I_y E a) (I_x E a))) = Ok v /\
        frame !! 0%nat = Some v /\
        (input_with_grid E a = true ->
         frame !! 1%nat = Some (fst (meshgrid F (fst (I_shape E a)) (snd (I_shape E a)))) /\
         frame !! 2%nat = Some (snd (meshgrid F (fst (I_shape E a)) (snd (I_shape E a))))).
Proof.
  intros H a.
  destruct (assemble_inv ds i tmp_idx s H)
    as (r & input0 & rm0 & table & tg0 & df & lo & hi & lo' &
        Hr & Hz & _ & Hloop & _).
  fold a in Hz, Hloop.
  destruct (df_loc_In _ _ _ _ _ Hr) as [Hin Hty].
  exists r. split; [exact Hin |]. split; [exact Hty |].
  apply np_zeros4_inv in Hz. subst input0.
  unfold py_range in Hloop.
  destruct (for_each_updates _ _ _ (input_frame_step a r (ty_name_of E r) tmp_idx)
              _ _ _ (NoDup_seq 0 _) ltac:(apply Forall_repeat; split;
                  [apply repeat_length | apply Forall_repeat, zeros2_shape]) Hloop)
    as (Hlen & _ & Hvisited & _).
  rewrite repeat_length in Hlen. split; [exact Hlen |].
  intros j Hj.
  destruct (Hvisited j ltac:(apply in_seq; lia)) as (frame & Hf & dfj & v & H1 & H2 & H3 & H4).
  exists frame, dfj, v. auto.
Qed.

(** The radar map: what lines 133-144 do to the array. *)
Lemma radar_map_of_inv (a : Args E) (r : IdxRow) (ty_name : string) (tmp_idx : Z)
    (rm0 rm : list (Grid px)) :
  radar_map_of F E a r ty_name tmp_idx rm0 = Ok rm ->
  exists df v,
    read_pickle E (radar_path E a "RAD" ty_name
                     (frame_time E r (tmp_idx + input_frames E a - 1)))
                (compression E a) = Ok df /\
    broadcast2 (snd (O_shape E a)) (fst (O_shape E a)) (to_numpy E df) = Ok v /\
    (0 < length rm0)%nat /\ length rm = length rm0 /\
    (Forall (shape_is (snd (O_shape E a)) (fst (O_shape E a))) rm0 ->
     Forall (shape_is (snd (O_shape E a)) (fst (O_shape E a))) rm) /\
    (input_with_grid E a = false -> rm = <[0%nat := v]> rm0).
Proof.
  intros H. unfold radar_map_of in H. cbv zeta in H.
  cbv beta iota delta [bind] in H.
  inv_ok H df Hdf. inv_ok H rm1 H1.
  apply set_slot_inv in H1 as (v & Hv & -> & L1).
  change (Z.to_nat 0) with 0%nat in *.
  pose proof (broadcast2_shape _ _ _ _ Hv) as Hvs.
  exists df, v. split; [reflexivity |]. split; [exact Hv |]. split; [exact L1 |].
  destruct (input_with_grid E a).
  - destruct (meshgrid F (fst (O_shape E a)) (snd (O_shape E a))) as [gx gy].
    cbv beta iota in H. inv_ok H rm2 H2. inv_ok H rm3 H3. injection H as <-.
    apply set_slot_inv in H2 as (v2 & Hv2 & -> & L2).
    apply set_slot_inv in H3 as (v3 & Hv3 & -> & L3).
    apply broadcast2_shape in Hv2, Hv3.
    split; [now rewrite !length_insert |]. split; [| discriminate].
    intros Hall. repeat apply Forall_insert; assumption.
  - injection H as <-. split; [now rewrite length_insert |].
    split; [| reflexivity]. intros Hall. now apply Forall_insert.
Qed.

(** X10.  Without grid channels, channel 0 of the radar map is the radar
    field of the file of the last input time [tmp_idx + input_frames - 1],
    taken whole (no crop), the other channels stay zero, and
    [current_time] is the stamp of that same time. *)
Theorem radar_map_without_grid (ds : TyDataset E) (i : string) (tmp_idx : Z)
    (s : Sample px) :
  assemble F E ds i tmp_idx = Ok s ->
  input_with_grid E (args E ds) = false ->
  let a := args E ds in
  exists r df v,
    In r (idx_df E ds) /\ typhoon r = i /\
    read_pickle E (radar_path E a "RAD" (ty_name_of E r)
                     (frame_time E r (tmp_idx + input_frames E a - 1)))
                (compression E a) = Ok df /\
    broadcast2 (snd (O_shape E a)) (fst (O_shape E a)) (to_numpy E df) = Ok v /\
    radar_map s !! 0%nat = Some v /\
    (forall c, (1 <= c < Z.to_nat (input_channels E a))%nat ->
       radar_map s !! c = Some (zeros2 F (snd (O_shape E a)) (fst (O_shape E a)))) /\
    current_time s = frame_time E r (tmp_idx + input_frames E a - 1).
Proof.
  intros H Hgrid a.
  destruct (assemble_inv ds i tmp_idx s H)
    as (r & input0 & rm0 & table & tg0 & df0 & lo & hi & lo' &
        Hr & _ & Hz & _ & Hrm & Hrest).
  fold a in Hz, Hrm.
  destruct (df_loc_In _ _ _ _ _ Hr) as [Hin Hty].
  destruct (radar_map_of_inv _ _ _ _ _ _ Hrm) as (df & v & Hdf & Hv & L & _ & _ & Heq).
  specialize (Heq Hgrid). apply np_zeros3_inv in Hz. subst rm0.
  exists r, df, v.
  split; [exact Hin |]. split; [exact Hty |]. split; [exact Hdf |]. split; [exact Hv |].
  rewrite Heq. split; [now apply list_lookup_insert_eq |]. split.
  - intros c Hc. rewrite list_lookup_insert_ne by lia. apply lookup_repeat_lt. lia.
  - apply Hrest.
Qed.

(** One target frame: what lines 171-174 leave in slot [j]. *)
Lemma target_frame_step (a : Args E) (r : IdxRow) (ty_name datatype : string)
    (tmp_idx : Z) (j : nat) (tg tg' : list (Grid px)) :
  target_frame E a r ty_name datatype tmp_idx (Z.of_nat j) tg = Ok tg' ->
  Forall (shape_is (snd (F_shape E a)) (fst (F_shape E a))) tg ->
  exists v,
    tg' = <[j := v]> tg /\ (j < length tg)%nat /\
    (exists df,
        read_pickle E (radar_path E a datatype ty_name
                         (frame_time E r (tmp_idx + Z.of_nat j)))
                    (compression E a) = Ok df /\
        broadcast2 (snd (F_shape E a)) (fst (F_shape E a))
                   (to_numpy E (loc_box E df (F_y E a) (F_x E a))) = Ok v) /\
    shape_is (snd (F_shape E a)) (fst (F_shape E a)) v.
Proof.
  intros H _. unfold target_frame in H. cbv zeta in H.
  cbv beta iota delta [bind] in H. inv_ok H df Hdf.
  apply set_slot_inv in H as (v & Hv & -> & L). rewrite Nat2Z.id in *.
  exists v. split; [reflexivity |]. split; [exact L |]. split.
  - exists df. split; [reflexivity | exact Hv].
  - eapply broadcast2_shape, Hv.
Qed.

(** X11.  The target frames of an assembled sample.  There are
    [target_frames] of them; frame [j] is the field of the file of time
    [tmp_idx + input_frames + j], of kind RAD when [target_RAD] is set and
    QPE otherwise, cropped to the forecast window (every such file was
    read). *)
Theorem target_frames_layout (ds : TyDataset E) (i : string) (tmp_idx : Z)
    (s : Sample px) :
  assemble F E ds i tmp_idx = Ok s ->
  let a := args E ds in
  exists r,
    In r (idx_df E ds) /\ typhoon r = i /\
    length (targets s) = Z.to_nat (target_frames E a) /\
    forall j : nat, (j < Z.to_nat (target_frames E a))%nat ->
      exists df v,
        targets s !! j = Some v /\
        read_pickle E (radar_path E a (if target_RAD E a then "RAD" else "QPE")
                         (ty_name_of E r)
                         (frame_time E r (tmp_idx + input_frames E a + Z.of_nat j)))
                    (compression E a) = Ok df /\
        broadcast2 (snd (F_shape E a)) (fst (F_shape E a))
                   (to_numpy E (loc_box E df (F_y E a) (F_x E a))) = Ok v.
Proof.
  intros H a.
  destruct (assemble_inv ds i tmp_idx s H)
    as (r & input0 & rm0 & table & tg0 & df0 & lo & hi & lo' &
        Hr & _ & _ & _ & _ & _ & _ & Hz & Hloop & _).
  fold a in Hz, Hloop.
  destruct (df_loc_In _ _ _ _ _ Hr) as [Hin Hty].
  exists r. split; [exact Hin |]. split; [exact Hty |].
  apply np_zeros3_inv in Hz. subst tg0. unfold py_range in Hloop.
  destruct (for_each_updates _ _ _
              (target_frame_step a r (ty_name_of E r)
                 (if target_RAD E a then "RAD" else "QPE") (tmp_idx + input_frames E a))
              _ _ _ (NoDup_seq 0 _) ltac:(apply Forall_repeat, zeros2_shape) Hloop)
    as (Hlen & _ & Hvisited & _).
  rewrite repeat_length in Hlen. split; [exact Hlen |].
  intros j Hj.
  destruct (Hvisited j ltac:(apply in_seq; lia)) as (v & Hv & df & H1 & H2).
  exists df, v. auto.
Qed.

(** [row[0:-1]] is the row without its last element. *)
Lemma py_slice_but_last {A} (row : list A) :
  py_slice row (Some 0) (Some (-1)) = removelast row.
Proof.
  rewrite py_slice_prefix, removelast_firstn_len. f_equal.
  unfold py_bound. simpl. lia.
Qed.

Lemma last_default {A} (l : list A) (x d d' : A) :
  List.last (x :: l) d = List.last (x :: l) d'.
Proof.
  revert x. induction l as [| y l IH]; intros x; [reflexivity |].
  change (List.last (y :: l) d = List.last (y :: l) d'). apply IH.
Qed.

Lemma mapM_Forall2 {A B} (f : A -> result B) (l : list A) (l' : list B) :
  mapM f l = Ok l' -> Forall2 (fun y x => f x = Ok y) l' l.
Proof.
  revert l'. induction l as [| x l IH]; simpl; intros l' H.
  - injection H as <-. constructor.
  - destruct (f x) as [y |] eqn:Hx; simpl in H; [| discriminate].
    destruct (mapM f l) as [ys |] eqn:Hl; simpl in H; [| discriminate].
    injection H as <-. constructor; auto.
Qed.

(** X12.  The rows of [ty_infos] are the rows of the ty-info table between
    the time stamps of the first and of the last target frame.  Without
    [catcher_location] each row loses its last column; with it each row is
    reduced to its first, second and last column, which needs two columns
    at least. *)
Theorem ty_infos_columns (ds : TyDataset E) (i : string) (tmp_idx : Z)
    (s : Sample px) :
  assemble F E ds i tmp_idx = Ok s ->
  let a := args E ds in
  exists r table,
    In r (idx_df E ds) /\ typhoon r = i /\
    read_ty_infos E (path_join E [ty_info_wrangled_data_folder E a;
                                  String.append (ty_name_of E r) ".csv"]) = Ok table /\
    let rows := loc_time E table
                  (frame_time E r (tmp_idx + input_frames E a))
                  (frame_time E r (tmp_idx + input_frames E a + target_frames E a - 1)) in
    (catcher_location E a = false -> ty_infos s = map (@removelast px) rows) /\
    (catcher_location E a = true ->
     Forall2 (fun out row => exists x0 x1 rest,
                  row = x0 :: x1 :: rest /\ out = [x0; x1; List.last row x0])
             (ty_infos s) rows).
Proof.
  intros H a.
  destruct (assemble_inv ds i tmp_idx s H)
    as (r & input0 & rm0 & table & tg0 & df0 & lo & hi & lo' &
        Hr & _ & _ & _ & _ & Htable & Hcols & _).
  fold a in Htable, Hcols.
  destruct (df_loc_In _ _ _ _ _ Hr) as [Hin Hty].
  exists r, table. split; [exact Hin |]. split; [exact Hty |]. split; [exact Htable |].
  cbv zeta. split; intros Hc; rewrite Hc in Hcols.
  - injection Hcols as <-. unfold columns_but_last. apply map_ext.
    intros row. apply py_slice_but_last.
  - unfold columns_0_1_last in Hcols. apply mapM_Forall2 in Hcols.
    eapply Forall2_impl; [exact Hcols |]. simpl. intros out row Hrow.
    destruct row as [| x0 [| x1 rest]]; try discriminate.
    injection Hrow as <-. exists x0, x1, rest. split; [reflexivity |].
    do 3 f_equal. destruct rest as [| p rest]; [reflexivity |].
    change (List.last (p :: rest) x1 = List.last (p :: rest) x0). apply last_default.
Qed.

(** X13.  An assembled sample has the configured shape: [input_frames]
    input frames of [input_channels] channels of [I_shape[1]] rows by
    [I_shape[0]] cells, a radar map of [input_channels] channels of the
    output shape, and [target_frames] targets of the forecast shape; none
    of these numbers is negative. *)
Theorem assembled_sample_shapes (ds : TyDataset E) (i : string) (tmp_idx : Z)
    (s : Sample px) :
  assemble F E ds i tmp_idx = Ok s ->
  let a := args E ds in
  (0 <= input_frames E a /\ 0 <= target_frames E a /\ 0 <= input_channels E a) /\
  length (inputs s) = Z.to_nat (input_frames E a) /\
  Forall (fun frame => length frame = Z.to_nat (input_channels E a) /\
                       Forall (shape_is (snd (I_shape E a)) (fst (I_shape E a))) frame)
         (inputs s) /\
  length (radar_map s) = Z.to_nat (input_channels E a) /\
  Forall (shape_is (snd (O_shape E a)) (fst (O_shape E a))) (radar_map s) /\
  length (targets s) = Z.to_nat (target_frames E a) /\
  Forall (shape_is (snd (F_shape E a)) (fst (F_shape E a))) (targets s).
Proof.
  intros H a.
  destruct (assemble_inv ds i tmp_idx s H)
    as (r & input0 & rm0 & table & tg0 & df0 & lo & hi & lo' &
        Hr & Hz4 & Hz3 & Hloop & Hrm & _ & _ & Hzt & Hloopt & _).
  fold a in Hz4, Hz3, Hloop, Hrm, Hzt, Hloopt.
  assert (Hdims : 0 <= input_frames E a /\ 0 <= target_frames E a /\
                  0 <= input_channels E a).
  { unfold np_zeros4, np_zeros3, check_dims in Hz4, Hzt. simpl in Hz4, Hzt.
    destruct (Z.leb_spec 0 (input_frames E a)); simpl in Hz4; [| discriminate].
    destruct (Z.leb_spec 0 (input_channels E a)); simpl in Hz4; [| discriminate].
    destruct (Z.leb_spec 0 (target_frames E a)); simpl in Hzt; [| discriminate].
    auto. }
  split; [exact Hdims |].
  apply np_zeros4_inv in Hz4. apply np_zeros3_inv in Hz3, Hzt. subst input0 rm0 tg0.
  unfold py_range in Hloop, Hloopt.
  destruct (for_each_updates _ _ _ (input_frame_step a r (ty_name_of E r) tmp_idx)
              _ _ _ (NoDup_seq 0 _) ltac:(apply Forall_repeat; split;
                  [apply repeat_length | apply Forall_repeat, zeros2_shape]) Hloop)
    as (Hlen & Hall & _ & _).
  destruct (for_each_updates _ _ _
              (target_frame_step a r (ty_name_of E r)
                 (if target_RAD E a then "RAD" else "QPE") (tmp_idx + input_frames E a))
              _ _ _ (NoDup_seq 0 _) ltac:(apply Forall_repeat, zeros2_shape) Hloopt)
    as (Hlent & Hallt & _ & _).
  destruct (radar_map_of_inv _ _ _ _ _ _ Hrm) as (df & v & _ & _ & _ & Hlenr & Hallr & _).
  rewrite repeat_length in Hlen, Hlent, Hlenr.
  repeat split; auto. apply Hallr, Forall_repeat, zeros2_shape.
Qed.

End Assembly.

Lemma input_frames_layout_witness :
  exists s frame,
    assemble fexpr_ops world_AB (dataset_AB true) "B" 2 = Ok s /\
    inputs s !! 1%nat = Some frame /\
    frame = [[[Lit 25; Lit 25]; [Lit 25; Lit 25]];
             [[Lit 0; Lit 1]; [Lit 0; Lit 1]];
             [[Lit 0; Lit 0]; [Lit 1; Lit 1]]] /\
    length (inputs s) = 3%nat.
Proof.
  eexists _, _. split; [vm_compute; reflexivity |].
  split; [reflexivity |]. split; [reflexivity |].
  destruct (input_frames_layout fexpr_ops world_AB (dataset_AB true) "B" 2 _
              ltac:(vm_compute; reflexivity)) as (r & _ & _ & Hlen & _).
  exact Hlen.
Defined.

Lemma radar_map_without_grid_witness :
  exists s r df v,
    assemble fexpr_ops world_AB (dataset_AB false) "A" 0 = Ok s /\
    In r (idx_df world_AB (dataset_AB false)) /\
    read_pickle world_AB
      (radar_path world_AB (args world_AB (dataset_AB false)) "RAD"
         (ty_name_of world_AB r) (frame_time world_AB r (0 + 3 - 1)))
      "bz2" = Ok df /\
    radar_map s !! 0%nat = Some v.
Proof.
  eexists.
  destruct (radar_map_without_grid fexpr_ops world_AB (dataset_AB false) "A" 0 _
              ltac:(vm_compute; reflexivity) eq_refl)
    as (r & df & v & Hin & _ & Hdf & _ & H0 & _).
  exists r, df, v. split; [reflexivity |]. auto.
Defined.

Lemma target_frames_layout_witness :
  exists s, assemble fexpr_ops world_AB (dataset_AB false) "A" 0 = Ok s /\
            length (targets s) = 2%nat.
Proof.
  eexists. split; [vm_compute; reflexivity |].
  destruct (target_frames_layout fexpr_ops world_AB (dataset_AB false) "A" 0 _
              ltac:(vm_compute; reflexivity)) as (r & _ & _ & Hlen & _).
  exact Hlen.
Defined.

Lemma ty_infos_columns_witness :
  exists s, assemble fexpr_ops world_AB (dataset_AB false) "A" 0 = Ok s /\
            ty_infos s = [[Lit 21; Lit 121; Lit 950]; [Lit 22; Lit 122; Lit 955]].
Proof.
  eexists. split; [vm_compute; reflexivity |].
  destruct (ty_infos_columns fexpr_ops world_AB (dataset_AB false) "A" 0 _
              ltac:(vm_compute; reflexivity)) as (r & table & _ & _ & Ht & Hf & _).
  rewrite (Hf eq_refl). simpl in Ht. injection Ht as <-. reflexivity.
Defined.

Lemma assembled_sample_shapes_witness :
  exists s, assemble fexpr_ops world_AB (dataset_AB true) "A" 0 = Ok s /\
            length (inputs s) = 3%nat /\ length (radar_map s) = 3%nat /\
            length (targets s) = 2%nat.
Proof.
  eexists. split; [vm_compute; reflexivity |].
  destruct (assembled_sample_shapes fexpr_ops world_AB (dataset_AB true) "A" 0 _
              ltac:(vm_compute; reflexivity)) as (_ & H1 & _ & H2 & _ & H3 & _).
  auto.
Defined.

(** ** More on [Normalize.__call__] *)

Section NormalizeMore.

Context {px : Type} (F : FloatOps px) (E : Ext px).

Ltac keeps_prim :=
  first [ apply keeps_ret
        | apply keeps_get
        | apply keeps_lift;
          first [ apply subscript_raise | apply loc_from_raise
                | apply bc_vec_raise | apply bc_rows_raise
                | apply get_slot_raise | apply get_channel_raise
                | (intros ? Hraise; inversion Hraise; reflexivity) ] ].

Lemma keeps_put_inputs (s0 s : Sample px) (x : list (list (Grid px))) :
  same_rest s0 s -> keeps (same_rest s0) (sm_put (with_inputs s x)).
Proof. intros Hs s' _. split; [exact Hs | discriminate]. Qed.

Lemma keeps_put_radar_map (s0 s : Sample px) (x : list (Grid px)) :
  same_rest s0 s -> keeps (same_rest s0) (sm_put (with_radar_map s x)).
Proof. intros Hs s' _. split; [exact Hs | discriminate]. Qed.

(** A computation that starts by reading the sample. *)
Lemma keeps_from_get (I : Sample px -> Prop) {A} (k : Sample px -> SM (px:=px) A) :
  (forall s, I s -> keeps I (k s)) -> keeps I (sm_bind sm_get k).
Proof. intros Hk s Hs. exact (Hk s Hs s Hs). Qed.

Lemma keeps_rest_update_input_channel (s0 : Sample px) (index : Z)
    (f : Grid px -> Grid px) :
  keeps (same_rest s0) (update_input_channel index f).
Proof.
  unfold update_input_channel. apply keeps_from_get. intros s Hs.
  apply keeps_bind; [keeps_prim | intros x]. now apply keeps_put_inputs.
Qed.

Lemma keeps_rest_update_radar_channel (s0 : Sample px) (index : Z)
    (f : Grid px -> Grid px) :
  keeps (same_rest s0) (update_radar_channel index f).
Proof.
  unfold update_radar_channel. apply keeps_from_get. intros s Hs.
  apply keeps_bind; [keeps_prim | intros x]. now apply keeps_put_radar_map.
Qed.

Ltac keeps_rest :=
  repeat first [ keeps_prim
               | apply keeps_rest_update_input_channel
               | apply keeps_rest_update_radar_channel
               | apply keeps_put_inputs; assumption
               | apply keeps_put_radar_map; assumption
               | apply keeps_bind; [| intros ?] ].

Lemma keeps_rest_normalize_inputs (s0 : Sample px) (a : Args E) :
  keeps (same_rest s0) (normalize_inputs F E a).
Proof.
  unfold normalize_inputs. cbv zeta. apply keeps_from_get. intros s Hs.
  keeps_rest. destruct (input_with_grid E a); keeps_rest.
Qed.

Lemma keeps_rest_normalize_radar_map (s0 : Sample px) (a : Args E) :
  keeps (same_rest s0) (normalize_radar_map F E a).
Proof.
  unfold normalize_radar_map. cbv zeta. apply keeps_from_get. intros s Hs.
  keeps_rest. destruct (input_with_grid E a); keeps_rest.
Qed.

Lemma keeps_rest_normalize_targets (s0 : Sample px) (a : Args E) (t : list (Grid px)) :
  keeps (same_rest s0) (normalize_targets F E a t).
Proof.
  unfold normalize_targets. destruct (normalize_target E a); cbv zeta; keeps_rest.
Qed.

Lemma keeps_rest_normalize_ty_info (s0 : Sample px) (a : Args E) (ty : Grid px) :
  keeps (same_rest s0) (normalize_ty_info F E a ty).
Proof. unfold normalize_ty_info. keeps_rest. Qed.

(** X14.  [Normalize.__call__] writes into the inputs and the radar map of
    its argument only: whatever the statistics and however the call ends,
    the targets, the ty-infos, the height and the time stamp of the
    caller's sample are as before. *)
Theorem normalize_leaves_rest (self : Normalize E) (s : Sample px) :
  same_rest s (snd (Normalize_call F E self s)).
Proof.
  assert (HK : keeps (same_rest s) (Normalize_call F E self)).
  { unfold Normalize_call. cbv zeta. apply keeps_from_get. intros s0 Hs0.
    repeat first [ apply keeps_rest_normalize_inputs
                 | apply keeps_rest_normalize_targets
                 | apply keeps_rest_normalize_radar_map
                 | apply keeps_rest_normalize_ty_info
                 | keeps_prim
                 | apply keeps_bind; [| intros ?] ]. }
  apply HK. repeat split.
Qed.

(** X15.  Statistics that cannot be used are noticed at the first call,
    not at construction.  A list passes the type check of [__init__] but
    makes [__call__] fail with [TypeError]; a Series without the key RAD,
    in [min_values] or in [max_values], makes it fail with [KeyError]; an
    input frame without channel makes it fail with [IndexError].  In all
    these cases the sample is left untouched. *)
Theorem normalize_rejects_late (self : Normalize E) (s : Sample px) :
  (forall e, get_channel (inputs s) 0 = Raise e ->
     Normalize_call F E self s = (Raise e, s)) /\
  (forall x l, get_channel (inputs s) 0 = Ok x ->
     min_values E (nargs E self) = VList E l ->
     Normalize_init E (nargs E self) = Ok {| nargs := nargs E self |} /\
     Normalize_call F E self s =
       (Raise (TypeError "list indices must be integers or slices, not str"), s)) /\
  (forall x ser, get_channel (inputs s) 0 = Ok x ->
     min_values E (nargs E self) = VSeries E ser ->
     series_get E ser "RAD" = None ->
     Normalize_call F E self s = (Raise (KeyError "RAD"), s)) /\
  (forall x lo ser, get_channel (inputs s) 0 = Ok x ->
     subscript E (min_values E (nargs E self)) "RAD" = Ok lo ->
     max_values E (nargs E self) = VSeries E ser ->
     series_get E ser "RAD" = None ->
     Normalize_call F E self s = (Raise (KeyError "RAD"), s)).
Proof.
  split; [| split; [| split]].
  - intros e He.
    unfold Normalize_call, normalize_inputs, sm_bind, sm_get, sm_lift. cbv zeta.
    now rewrite He.
  - intros x l Hx Hmin. split.
    + unfold Normalize_init. now rewrite !assert_type_check.
    + unfold Normalize_call, normalize_inputs, sm_bind, sm_get, sm_lift. cbv zeta.
      rewrite Hx, Hmin. reflexivity.
  - intros x ser Hx Hmin Hget.
    unfold Normalize_call, normalize_inputs, sm_bind, sm_get, sm_lift. cbv zeta.
    rewrite Hx, Hmin. simpl. rewrite Hget. reflexivity.
  - intros x lo ser Hx Hlo Hmax Hget.
    unfold Normalize_call, normalize_inputs, sm_bind, sm_get, sm_lift. cbv zeta.
    rewrite Hx, Hlo, Hmax. simpl. rewrite Hget. reflexivity.
Qed.

Lemma normalize_call_raises (self : Normalize E) (s : Sample px) :
  exists e, fst (Normalize_call F E self s) = Raise e.
Proof.
  unfold Normalize_call. cbv zeta.
  repeat first [ rewrite sm_bind_lift_raise; simpl; eexists; reflexivity
               | apply sm_bind_raises; intros ].
Qed.

(** X16.  A dataset whose transform is a [Normalize] object serves no
    sample: every [__getitem__] raises (or, should the scan find no event,
    returns [None]).  When the sample was assembled, [self.sample] is left
    holding it with the arrays as the failed call wrote them. *)
Theorem dataset_with_normalize_serves_nothing (ds : TyDataset E)
    (n : Normalize E) (idx : Z) :
  transform E ds = Some (Normalize_call F E n) ->
  (forall s, fst (TyDataset_getitem F E ds idx) <> Ok (Some s)) /\
  (forall i tmp_idx s0,
      resolve E ds idx = Ok (Some (i, tmp_idx)) ->
      assemble F E ds i tmp_idx = Ok s0 ->
      exists e, TyDataset_getitem F E ds idx =
                (Raise e, set_sample E ds (Some (snd (Normalize_call F E n s0))))).
Proof.
  intros Htr. unfold TyDataset_getitem. rewrite Htr. split.
  - intros s.
    destruct (resolve E ds idx) as [[[i tmp_idx] |] |]; simpl; try discriminate.
    destruct (assemble F E ds i tmp_idx) as [s0 |]; simpl; [| discriminate].
    destruct (normalize_call_raises n s0) as [e He].
    destruct (Normalize_call F E n s0) as [r s1]. simpl in He. subst r.
    discriminate.
  - intros i tmp_idx s0 Hres Has. rewrite Hres, Has.
    destruct (normalize_call_raises n s0) as [e He].
    destruct (Normalize_call F E n s0) as [r s1]. simpl in *. subst r.
    exists e. reflexivity.
Qed.

Lemma sm_bind_ok {A B} (m : SM (px:=px) A) (k : A -> SM B) (s s1 : Sample px) (x : A) :
  m s = (Ok x, s1) -> sm_bind m k s = k x s1.
Proof. intros H. unfold sm_bind. now rewrite H. Qed.

Lemma get_channel_ok (a : list (list (Grid px))) (c : nat) :
  Forall (fun frame => (c < length frame)%nat) a ->
  exists x, get_channel a (Z.of_nat c) = Ok x.
Proof.
  unfold get_channel. induction 1 as [| frame a Hf _ [x IH]]; simpl; [eauto |].
  unfold get_slot at 1. rewrite Nat2Z.id.
  destruct (lookup_lt_is_Some_2 frame c Hf) as [g Hg]. rewrite Hg. simpl.
  rewrite IH. simpl. eauto.
Qed.

Lemma set_channel_three (a : list (list (Grid px))) (index : Z) (v : list (Grid px)) :
  Forall (fun frame => (3 <= length frame)%nat) a ->
  Forall (fun frame => (3 <= length frame)%nat) (set_channel a index v).
Proof.
  unfold set_channel. intros H. revert v.
  induction H as [| frame a Hf _ IH]; intros [| g v]; simpl; constructor.
  - now rewrite length_insert.
  - apply IH.
Qed.

Lemma update_input_channel_ok (index : nat) (f : Grid px -> Grid px) (s : Sample px) :
  three_channels s -> (index < 3)%nat ->
  exists s', update_input_channel (Z.of_nat index) f s = (Ok tt, s') /\
             three_channels s' /\ radar_map s' = radar_map s.
Proof.
  intros H3 Hi.
  destruct (get_channel_ok (inputs s) index) as [x Hx].
  { eapply Forall_impl; [exact H3 |]. simpl. intros. lia. }
  unfold update_input_channel, sm_bind, sm_get, sm_lift, sm_put. rewrite Hx.
  eexists. split; [reflexivity |]. split; [| reflexivity].
  unfold three_channels. simpl. now apply set_channel_three.
Qed.

Lemma normalize_ty_info_state (a : Args E) (ty : Grid px) (s : Sample px) :
  snd (normalize_ty_info F E a ty s) = s.
Proof.
  unfold normalize_ty_info, sm_bind, sm_lift.
  repeat match goal with
         | |- context [match ?r with Ok _ => _ | Raise _ => _ end] =>
           destruct r; simpl; try reflexivity
         end.
Qed.

(** X17.  The radar map is normalised in place, and its grid channels by
    the input shape.  With grid channels, readable bounds and three
    channels everywhere, the call leaves in the caller's radar map
    [(x - min_RAD)/(max_RAD - min_RAD)] in channel 0, channel 1 divided by
    [I_shape[0]] and channel 2 divided by [I_shape[1]] (the input window,
    although the grids of the radar map were drawn over the output
    window); further channels are untouched. *)
Theorem normalize_radar_map_in_place (self : Normalize E) (s : Sample px)
    (lo hi : px) (g0 g1 g2 : Grid px) (rest : list (Grid px)) :
  let a := nargs E self in
  input_with_grid E a = true ->
  subscript E (min_values E a) "RAD" = Ok lo ->
  subscript E (max_values E a) "RAD" = Ok hi ->
  (normalize_target E a = true -> target_RAD E a = true) ->
  three_channels s ->
  radar_map s = g0 :: g1 :: g2 :: rest ->
  radar_map (snd (Normalize_call F E self s)) =
    min_max_scale F lo hi lo g0
    :: divide_by F (fst (I_shape E a)) g1
    :: divide_by F (snd (I_shape E a)) g2 :: rest.
Proof.
  intros a Hgrid Hlo Hhi Htg H3 Hrm.
  (* the inputs *)
  assert (Hin : exists s1, normalize_inputs F E a s = (Ok tt, s1) /\
                           radar_map s1 = radar_map s).
  { destruct (get_channel_ok (inputs s) 0) as [x Hx].
    { eapply Forall_impl; [exact H3 |]. simpl. intros. lia. }
    unfold normalize_inputs. cbv zeta.
    rewrite (sm_bind_ok sm_get _ s s s eq_refl).
    unfold sm_lift at 1 2 3 4. unfold sm_bind at 1 2 3 4.
    change (Z.of_nat 0) with 0 in Hx. rewrite Hx, Hlo, Hhi, Hgrid.
    set (s0 := with_inputs s _).
    unfold sm_bind at 1. unfold sm_put at 1.
    assert (H30 : three_channels s0)
      by (unfold three_channels, s0; simpl; now apply set_channel_three).
    destruct (update_input_channel_ok 1 (divide_by F (fst (I_shape E a))) s0 H30)
      as (s1 & E1 & H31 & R1); [lia |].
    destruct (update_input_channel_ok 2 (divide_by F (snd (I_shape E a))) s1 H31)
      as (s2 & E2 & _ & R2); [lia |].
    change (0 + 1) with (Z.of_nat 1). change (Z.of_nat 1 + 1) with (Z.of_nat 2).
    rewrite (sm_bind_ok _ _ s0 s1 tt E1). exists s2. split; [exact E2 |].
    rewrite R2, R1. reflexivity. }
  destruct Hin as (s1 & E1 & R1).
  (* the targets *)
  assert (Htgt : exists t', normalize_targets F E a (targets s) s1 = (Ok t', s1)).
  { unfold normalize_targets. destruct (normalize_target E a) eqn:Hn.
    - rewrite (Htg eq_refl). cbv zeta. unfold sm_bind, sm_lift, sm_ret.
      rewrite Hlo, Hhi. eauto.
    - unfold sm_ret. eauto. }
  destruct Htgt as (t' & E2).
  (* the radar map *)
  assert (Hrad : normalize_radar_map F E a s1 =
                 (Ok tt, with_radar_map s1
                           (min_max_scale F lo hi lo g0
                            :: divide_by F (fst (I_shape E a)) g1
                            :: divide_by F (snd (I_shape E a)) g2 :: rest))).
  { unfold normalize_radar_map, update_radar_channel, sm_bind, sm_get, sm_lift, sm_put.
    cbv zeta. rewrite R1, Hrm, Hlo, Hhi, Hgrid. simpl. reflexivity. }
  unfold Normalize_call. fold a. cbv zeta.
  rewrite (sm_bind_ok sm_get _ s s s eq_refl).
  rewrite (sm_bind_ok _ _ s s1 tt E1).
  rewrite (sm_bind_ok _ _ s1 s1 t' E2).
  rewrite (sm_bind_ok _ _ s1 _ tt Hrad).
  set (s2 := with_radar_map s1 _).
  unfold sm_bind at 1.
  pose proof (normalize_ty_info_state a (ty_infos s) s2) as Hty.
  destruct (normalize_ty_info F E a (ty_infos s) s2) as [[ty | e] s3];
    simpl in Hty; subst s3; reflexivity.
Qed.

End NormalizeMore.

Lemma normalize_rejects_late_witness :
  Normalize_call fexpr_ops (world [])
    {| nargs := demo_args [] false 100 0 |}
    {| inputs := [[]]; targets := []; ty_infos := []; radar_map := [];
       current_time := ""; height := [] |}
  = (Raise (IndexError "index is out of bounds"),
     {| inputs := [[]]; targets := []; ty_infos := []; radar_map := [];
        current_time := ""; height := [] |}).
Proof.
  apply (proj1 (normalize_rejects_late fexpr_ops (world []) _ _)).
  reflexivity.
Defined.

Lemma dataset_with_normalize_serves_nothing_witness :
  exists ds,
    TyDataset_init world_AB (demo_args [event_A; event_B] false 100 0) true (Some 2)
      (Some (Normalize_call fexpr_ops world_AB
               {| nargs := demo_args [event_A; event_B] false 100 0 |})) = Ok ds /\
    forall s, fst (TyDataset_getitem fexpr_ops world_AB ds 0) <> Ok (Some s).
Proof.
  eexists. split; [reflexivity |].
  apply (dataset_with_normalize_serves_nothing fexpr_ops world_AB _
           {| nargs := demo_args [event_A; event_B] false 100 0 |} 0).
  reflexivity.
Defined.

Lemma normalize_radar_map_in_place_witness :
  radar_map (snd (Normalize_call fexpr_ops (world []) normalize_grid three_channel_sample))
  = [[[Div (Sub (Lit 25) (Lit 0)) (Sub (Lit 100) (Lit 0))]];
     [[Div (Lit 3) (Lit 4)]];
     [[Div (Lit 1) (Lit 2)]]].
Proof.
  apply (normalize_radar_map_in_place fexpr_ops (world []) normalize_grid
           three_channel_sample (Lit 0) (Lit 100)
           [[Lit 25]] [[Lit 3]] [[Lit 1]] []);
    try reflexivity.
  repeat constructor.
Defined.

(** ** The length, the terrain, and the times a sample reads *)

(** X18.  For a non-empty selection [__len__] returns the sum of the
    recorded window counts, whatever their signs; it is the ending index of
    some row of the index table plus one. *)
Theorem len_is_sum_of_counts {px : Type} (E : Ext px) (a : Args E)
    (train : bool) (train_num : option Z) (tr : option (Transform px))
    (ds : TyDataset E) :
  well_seeded E ->
  TyDataset_init E a train train_num tr = Ok ds ->
  events_list E ds <> [] ->
  TyDataset_len E ds = Ok (total_samples ds) /\
  exists row, In row (idx_df E ds) /\ ending_idx row + 1 = total_samples ds.
Proof.
  intros Hseed Hinit Hne.
  destruct (constructed_table E a train train_num tr ds Hseed Hinit)
    as (Hargs & Hdf & Htot & Hnames & _).
  rewrite total_samples_sum, Hargs.
  destruct (selected_events ds) as [| r evs] eqn:Hevs; [simpl in Hnames; congruence |].
  split.
  - unfold TyDataset_len. rewrite Htot. reflexivity.
  - destruct (rows_from_final (input_frames E a) (target_frames E a) (r :: evs) 0)
      as (row & Hin & He); [discriminate |].
    exists row. rewrite Hdf. split; [exact Hin | lia].
Qed.

Lemma len_is_sum_of_counts_witness :
  TyDataset_len world_short dataset_short = Ok (total_samples dataset_short) /\
  total_samples dataset_short = -1.
Proof.
  split; [| reflexivity].
  apply (len_is_sum_of_counts world_short (demo_args [event_short] false 100 0)
           true (Some 1) None dataset_short
           (world_well_seeded _) dataset_short_constructed).
  discriminate.
Defined.

(** X19.  The terrain grid of a sample does not depend on the sample: two
    samples assembled from the same dataset, for whatever events and
    offsets, carry the same [height], and the terrain it was computed from
    is not empty. *)
Theorem height_same_for_all_samples {px : Type} (F : FloatOps px) (E : Ext px)
    (ds : TyDataset E) (i1 i2 : string) (t1 t2 : Z) (s1 s2 : Sample px) :
  assemble F E ds i1 t1 = Ok s1 ->
  assemble F E ds i2 t2 = Ok s2 ->
  height s1 = height s2 /\
  exists df,
    read_pickle E (path_join E [radar_folder E (args E ds); "height.pkl"]) "bz2" = Ok df /\
    concat (to_numpy E (loc_box E df (I_y E (args E ds)) (I_x E (args E ds)))) <> [] /\
    length (height s1) =
      length (to_numpy E (loc_box E df (I_y E (args E ds)) (I_x E (args E ds)))).
Proof.
  intros H1 H2.
  destruct (assemble_inv F E ds i1 t1 s1 H1)
    as (r1 & ? & ? & ? & ? & df1 & lo1 & hi1 & lo1' &
        _ & _ & _ & _ & _ & _ & _ & _ & _ & D1 & L1 & U1 & L1' & Hh1 & _).
  destruct (assemble_inv F E ds i2 t2 s2 H2)
    as (r2 & ? & ? & ? & ? & df2 & lo2 & hi2 & lo2' &
        _ & _ & _ & _ & _ & _ & _ & _ & _ & D2 & L2 & U2 & L2' & Hh2 & _).
  rewrite D1 in D2. injection D2 as <-.
  rewrite L1 in L2. injection L2 as <-.
  rewrite U1 in U2. injection U2 as <-.
  rewrite L1' in L2'. injection L2' as <-.
  split; [now rewrite Hh1, Hh2 |].
  exists df1. split; [exact D1 |]. split.
  - unfold np_reduce in L1. intros Hnil. rewrite Hnil in L1. discriminate.
  - rewrite Hh1. unfold grid_map. now rewrite length_map.
Qed.

Lemma height_same_for_all_samples_witness :
  exists s1 s2,
    assemble fexpr_ops world_AB (dataset_AB false) "A" 0 = Ok s1 /\
    assemble fexpr_ops world_AB (dataset_AB false) "B" 2 = Ok s2 /\
    height s1 = height s2.
Proof.
  eexists _, _. split; [vm_compute; reflexivity |].
  split; [vm_compute; reflexivity |].
  eapply (height_same_for_all_samples fexpr_ops world_AB (dataset_AB false)
            "A" "B" 0 2); vm_compute; reflexivity.
Defined.

Lemma offset_within_event (inf tf : Z) (r : TyRow) (o k : Z) :
  time_of_issuing r <= frame_end inf tf r ->
  0 <= o < window_count inf tf r ->
  0 <= k <= o + inf + tf - 1 ->
  time_of_issuing r <= time_of_issuing r + timedelta_minutes (10 * k)
  <= time_of_canceling r.
Proof.
  intros H Ho Hk. unfold window_count in Ho. rewrite int_frames_nonneg in Ho by lia.
  unfold frame_end in *.
  replace (timedelta_minutes ((inf + tf - 1) * 10)) with ((inf + tf - 1) * step) in *
    by (unfold step, timedelta_minutes; lia).
  replace (timedelta_minutes (10 * k)) with (k * step)
    by (unfold step, timedelta_minutes; lia).
  set (L := inf + tf - 1) in *.
  set (d := time_of_canceling r - L * step - time_of_issuing r) in *.
  assert (Hstep : 0 < step) by (unfold step, timedelta_minutes, ns_per_second; lia).
  pose proof (Z.mul_div_le d step Hstep) as Hlo.
  assert (step * o <= step * (d / step)) by (apply Z.mul_le_mono_nonneg_l; lia).
  assert (0 <= k * step) by (apply Z.mul_nonneg_nonneg; lia).
  assert (k * step <= (o + L) * step) by (apply Z.mul_le_mono_nonneg_r; lia).
  unfold d in *. lia.
Qed.

(** X20.  Samples read inside the life of their event.  In a constructed
    dataset whose selected events are all long enough for the window
    (adjusted cancel time not before the issue time), every index of
    [0, total_samples) resolves to an event and an offset [o >= 0] such
    that all the frame times of the sample, from step [o] to step
    [o + input_frames + target_frames - 1] after the start recorded in the
    index table, lie between the issue and the cancel time of the event. *)
Theorem served_windows_lie_within_event {px : Type} (E : Ext px) (a : Args E)
    (train : bool) (train_num : option Z) (tr : option (Transform px))
    (ds : TyDataset E) :
  well_seeded E ->
  TyDataset_init E a train train_num tr = Ok ds ->
  Forall (fun ev => time_of_issuing ev <=
                    frame_end (input_frames E a) (target_frames E a) ev)
         (selected_events ds) ->
  forall idx, 0 <= idx < total_samples ds ->
    exists row ev o,
      resolve E ds idx = Ok (Some (typhoon row, o)) /\
      In row (idx_df E ds) /\ In ev (selected_events ds) /\
      en_name ev = typhoon row /\ starting_time row = time_of_issuing ev /\
      0 <= o /\
      forall k, 0 <= k <= o + input_frames E a + target_frames E a - 1 ->
        time_of_issuing ev <= starting_time row + timedelta_minutes (10 * k)
        <= time_of_canceling ev.
Proof.
  intros Hseed Hinit Hlong idx Hidx.
  destruct (constructed_table E a train train_num tr ds Hseed Hinit)
    as (Hargs & Hdf & _).
  assert (Hpos : Forall (fun r => 0 < count_of ds r) (selected_events ds)).
  { eapply Forall_impl; [exact Hlong |]. simpl. intros ev Hev.
    unfold count_of, window_count. rewrite Hargs.
    rewrite int_frames_nonneg by lia.
    assert (0 <= (frame_end (input_frames E a) (target_frames E a) ev
                  - time_of_issuing ev) / step).
    { apply Z.div_pos; [lia |]. unfold step, timedelta_minutes, ns_per_second. lia. }
    lia. }
  destruct (positive_table E a train train_num tr ds Hseed Hinit Hpos)
    as (_ & _ & _ & Hin_range).
  destruct (Hin_range idx Hidx) as (row & Hrow & Hb & Hres).
  assert (Hrow' := Hrow). rewrite Hdf in Hrow'.
  destruct (Forall2_In_left _ _ _ row (rows_from_counts _ _ _ 0) Hrow')
    as (ev & Hev & Hty & Hc & Hst).
  exists row, ev, (idx - starting_idx row).
  split; [exact Hres |]. split; [exact Hrow |]. split; [exact Hev |].
  split; [now symmetry |]. split; [exact Hst |]. split; [lia |].
  intros k Hk. rewrite Hst.
  apply (offset_within_event (input_frames E a) (target_frames E a) ev
           (idx - starting_idx row) k).
  - eapply (proj1 (List.Forall_forall _ _) Hlong), Hev.
  - unfold row_count in Hc. lia.
  - lia.
Qed.

Lemma served_windows_lie_within_event_witness :
  exists row ev o,
    resolve world_AB (dataset_AB false) 11 = Ok (Some (typhoon row, o)) /\
    In ev (selected_events (dataset_AB false)) /\
    starting_time row + timedelta_minutes (10 * (o + 3 + 2 - 1)) <= time_of_canceling ev.
Proof.
  destruct (served_windows_lie_within_event world_AB
              (demo_args [event_A; event_B] false 100 0) true (Some 2) None
              (dataset_AB false) (world_well_seeded _) (dataset_AB_constructed false))
    with (idx := 11) as (row & ev & o & Hres & _ & Hev & _ & _ & Ho & Hk).
  - repeat constructor; vm_compute; discriminate.
  - vm_compute. split; [discriminate | reflexivity].
  - exists row, ev, o. split; [exact Hres |]. split; [exact Hev |].
    apply Hk. simpl. lia.
Defined.

(** X21.  An event that misses the window by less than ten minutes is
    still counted once.  When the adjusted cancel time is before the issue
    time by at most 599 seconds, [int] truncates the quotient to 0 and the
    event gets one window, whose last frame lies after the cancel time. *)
Theorem short_by_less_than_a_step (input_frames target_frames : Z) (r : TyRow) :
  frame_end input_frames target_frames r < time_of_issuing r ->
  time_of_issuing r - step + ns_per_second <= frame_end input_frames target_frames r ->
  window_count input_frames target_frames r = 1 /\
  time_of_canceling r <
    time_of_issuing r + timedelta_minutes (10 * (0 + input_frames + target_frames - 1)).
Proof.
  intros Hlt Hge. split.
  - unfold window_count. rewrite int_frames_seconds.
    set (d := frame_end input_frames target_frames r - time_of_issuing r) in *.
    assert (Hd : - step + ns_per_second <= d < 0) by (unfold d; lia).
    unfold step, timedelta_minutes, ns_per_second in Hd. unfold ns_per_second.
    assert (Hq : Z.quot (d / 1000000000) 600 = 0).
    { apply Z.quot_small_iff; [lia |].
      Z.to_euclidean_division_equations. lia. }
    rewrite Hq. reflexivity.
  - unfold frame_end in Hlt.
    replace (10 * (0 + input_frames + target_frames - 1))
      with ((input_frames + target_frames - 1) * 10) by lia.
    lia.
Qed.

Lemma short_by_less_than_a_step_witness :
  window_count 3 2 event_35min = 1 /\
  time_of_canceling event_35min <
    time_of_issuing event_35min + timedelta_minutes (10 * (0 + 3 + 2 - 1)).
Proof.
  apply (short_by_less_than_a_step 3 2 event_35min).
  - vm_compute. reflexivity.
  - vm_compute. discriminate.
Defined.
